(** * mr-emad-nabil: login with device limiting, device administration,
      upload key minting and the video streaming proxy

    A shallow embedding of the request handlers of the admin backend:

    - [VideoStream]  : [frontend/pages/api/videos/[...key].js]
    - [KeyMint]      : [frontend/pages/api/upload/r2-signed-url.js]
    - [Devices]      : [frontend/pages/api/students/devices.js] and
                       [frontend/pages/api/assistants/devices.js]
    - [Login]        : the login handler, the third part of
                       [frontend/components/R2VideoPlayer.jsx]

    Conventions.  A JavaScript number that holds an integer is a [Z]; all
    sizes and offsets are assumed to be safe integers, where the arithmetic
    of the handlers is exact.  Where a handler reads a number of a request
    with [parseInt] and tests it ([JS.number]), the rounding to a double,
    the infinities and [NaN] are modelled.  A string is a [string] of code units below
    256, except in [KeyMint] where a file name is a list of UTF-16 code
    units.  A template literal [`${n}`] of an integer is stdpp's [pretty].
    Calls into the document store, the object store, the clock and third
    party libraries are inputs of the handlers. *)

From Stdlib Require Import ZArith Ascii.
From Stdlib Require String.
From stdpp Require Import base numbers option list strings gmap pretty.

Local Open Scope Z_scope.

(** ** JavaScript helpers shared by the handlers *)

Module JS.

(** [\d] of a regular expression without the [u] flag: an ASCII digit. *)
Definition is_digit (c : ascii) : bool :=
  let n := N_of_ascii c in ((48 <=? n) && (n <=? 57))%N.

Definition digit_value (c : ascii) : Z := Z.of_N (N_of_ascii c) - 48.

(** Every code unit of [s] matches [\d]. *)
Fixpoint all_digits (s : string) : bool :=
  match s with
  | EmptyString => true
  | String c s' => is_digit c && all_digits s'
  end.

(** Longest prefix of digits and what follows it: a greedy group of [\d]. *)
Fixpoint span_digits (s : string) : string * string :=
  match s with
  | EmptyString => (EmptyString, EmptyString)
  | String c s' =>
      if is_digit c
      then let '(d, r) := span_digits s' in (String c d, r)
      else (EmptyString, s)
  end.

(** Value of a run of decimal digits read left to right from [acc]. *)
Fixpoint decimal_from (acc : Z) (s : string) : Z :=
  match s with
  | EmptyString => acc
  | String c s' => decimal_from (10 * acc + digit_value c) s'
  end.

(** [parseInt(s, 10)] where [s] is a non-empty run of digits. *)
Definition decimal (s : string) : Z := decimal_from 0 s.

(** [s.startsWith(p)] together with the remainder. *)
Fixpoint strip_prefix (p s : string) : option string :=
  match p, s with
  | EmptyString, _ => Some s
  | String a p', String b s' => if Ascii.eqb a b then strip_prefix p' s' else None
  | String _ _, EmptyString => None
  end.

(** White space of [String.prototype.trim] among the code units below 256. *)
Definition is_space (c : ascii) : bool :=
  let n := N_of_ascii c in
  ((9 <=? n) && (n <=? 13) || (n =? 32) || (n =? 160))%N.

Fixpoint trim_start (s : string) : string :=
  match s with
  | EmptyString => EmptyString
  | String c s' => if is_space c then trim_start s' else s
  end.

Definition trim (s : string) : string :=
  String.rev (trim_start (String.rev (trim_start s))).

(** [parseInt(s, 10)] of a string: leading white space, an optional sign,
    then the longest run of digits; [None] is [NaN]. *)
Definition parseInt (s : string) : option Z :=
  let t := trim_start s in
  let '(neg, u) :=
    match t with
    | String "-" u => (true, u)
    | String "+" u => (false, u)
    | _ => (false, t)
    end in
  let '(d, _) := span_digits u in
  if String.eqb d "" then None
  else Some (if neg : bool then - decimal d else decimal d).

(** A number that [parseInt] gives: [NaN], an infinity, or an integer
    that a double holds. *)
Inductive number : Type :=
| NaN
| Infinity (negative : bool)
| Int (n : Z).

(** The double nearest to a natural number, ties to the even one: below
    [2^53] the number itself, from there on 53 significant bits; [None]
    from the middle between the largest double and [2^1024] on. *)
Definition round_double (n : Z) : option Z :=
  if n <? 2 ^ 53 then Some n
  else
    let e := Z.log2 n - 52 in
    let q := n / 2 ^ e in
    let r := n mod 2 ^ e in
    let half := 2 ^ (e - 1) in
    let q' := if (half <? r) || ((r =? half) && Z.odd q) then q + 1 else q in
    if q' * 2 ^ e <? 2 ^ 1024 then Some (q' * 2 ^ e) else None.

(** The number that an integer written in decimal denotes, in a JSON
    text or in the digits [parseInt] reads. *)
Definition to_number (n : Z) : number :=
  match round_double (Z.abs n) with
  | Some v => Int (Z.sgn n * v)
  | None => Infinity (n <? 0)
  end.

(** [parseInt(s, 10)] as the number it is. *)
Definition parseInt_number (s : string) : number :=
  match parseInt s with
  | Some n => to_number n
  | None => NaN
  end.

(** The first decimal digit of [v] and the power of ten it stands at. *)
Fixpoint top_digit (fuel : nat) (v : Z) : Z * Z :=
  match fuel with
  | O => (v, 1)
  | S fuel' =>
      if v <? 10 then (v, 1)
      else let '(d, p) := top_digit fuel' (v / 10) in (d, 10 * p)
  end.

(** The first digit of [String(v)] for a double [v] of [10^21] or more.
    [String(v)] has the fewest digits that read back as [v]: one digit
    when some [d * 10^m] rounds to [v], which can only be at the first
    digit of [v] or at the next one up; otherwise its digits start as [v]
    does. *)
Definition leading_digit (v : Z) : Z :=
  let '(d, p) := top_digit (S (Z.to_nat (Z.log2 v))) v in
  if bool_decide (round_double (d * p) = Some v) then d
  else if bool_decide (round_double ((d + 1) * p) = Some v)
       then (if d =? 9 then 1 else d + 1)
       else d.

(** [parseInt(String(v), 10)] of a number [v]: below [10^21] the string is
    the digits of [v]; from there on it is a digit, a fraction and an
    exponent, of which [parseInt] reads the digit; [Infinity] and [NaN]
    have no digit. *)
Definition parseInt_of_number (v : number) : number :=
  match v with
  | Int n =>
      if Z.abs n <? 10 ^ 21 then Int n
      else Int (Z.sgn n * leading_digit (Z.abs n))
  | _ => NaN
  end.

(** [array.join(sep)]. *)
Fixpoint join (sep : string) (l : list string) : string :=
  match l with
  | [] => ""
  | [x] => x
  | x :: l' => x +:+ sep +:+ join sep l'
  end.

(** [s.endsWith(suffix)]. *)
Definition endsWith (s suffix : string) : bool :=
  match strip_prefix (String.rev suffix) (String.rev s) with
  | Some _ => true
  | None => false
  end.

(** [toLowerCase] on the ASCII letters. *)
Definition lower (c : ascii) : ascii :=
  let n := N_of_ascii c in
  if ((65 <=? n) && (n <=? 90))%N then ascii_of_N (n + 32) else c.

Fixpoint toLowerCase (s : string) : string :=
  match s with
  | EmptyString => EmptyString
  | String c s' => String (lower c) (toLowerCase s')
  end.

End JS.

(** ** The streaming proxy: [frontend/pages/api/videos/[...key].js] *)

Module VideoStream.
Import JS.

(** Answer of the object store to a command. *)
Inductive store_result (A : Type) : Type :=
| Found (a : A)
| NotFound
| Failed.
Arguments Found {A} a.
Arguments NotFound {A}.
Arguments Failed {A}.

(** The fields of a [HeadObject] / [GetObject] result the handler reads. *)
Record object_meta := {
  ContentLength : Z;
  ContentType : option string
}.

(** What the handler sees of its environment: the R2 configuration, the
    outcome of [authMiddleware], and the object store. *)
Record env := {
  config_ok : bool;
  head_object : string -> store_result object_meta;
  get_object_range : string -> Z -> Z -> bool;
  get_object : string -> store_result object_meta
}.

Record request := {
  method : string;
  authorized : bool;
  key : option (list string);
  range : option string
}.

Inductive response : Type :=
| Json (status : Z) (error : string)
| RangeNotSatisfiable (content_range : string)
| PartialContent (content_type : string) (content_length : Z)
    (content_range : string) (first last : Z) (with_body : bool)
| FullContent (content_type : string) (content_length : Z) (with_body : bool).

Definition status (r : response) : Z :=
  match r with
  | Json s _ => s
  | RangeNotSatisfiable _ => 416
  | PartialContent _ _ _ _ _ _ => 206
  | FullContent _ _ _ => 200
  end.

Definition MIME_TYPES : list (string * string) :=
  [ (".mp4", "video/mp4"); (".webm", "video/webm"); (".ogg", "video/ogg");
    (".ogv", "video/ogg"); (".mov", "video/quicktime");
    (".avi", "video/x-msvideo"); (".mkv", "video/x-matroska");
    (".m4v", "video/x-m4v") ].

Definition getContentType (key : string) : string :=
  let lower := toLowerCase key in
  match List.find (fun '(ext, _) => endsWith lower ext) MIME_TYPES with
  | Some (_, mime) => mime
  | None => "application/octet-stream"
  end.

(** [rangeHeader.match] on the pattern [bytes=], digits, [-], digits,
    anchored at both ends: the two groups.  A digit is never [-], so the
    greedy first group is the whole run of digits. *)
Definition match_range (rangeHeader : string) : option (string * string) :=
  match strip_prefix "bytes=" rangeHeader with
  | None => None
  | Some r =>
      let '(m1, r1) := span_digits r in
      match r1 with
      | String "-" m2 => if all_digits m2 then Some (m1, m2) else None
      | _ => None
      end
  end.

(** The three forms of a range; [None] is the branch that answers 416. *)
Definition parse_range (totalSize : Z) (m1 m2 : string) : option (Z * Z) :=
  if negb (String.eqb m1 "") && negb (String.eqb m2 "") then
    Some (decimal m1, decimal m2)
  else if negb (String.eqb m1 "") then
    let start := decimal m1 in
    Some (start, Z.min (start + 5 * 1024 * 1024 - 1) (totalSize - 1))
  else if negb (String.eqb m2 "") then
    let suffix := decimal m2 in
    Some (Z.max 0 (totalSize - suffix), totalSize - 1)
  else None.

(** [result.ContentType || getContentType(objectKey)]. *)
Definition content_type_of (meta : object_meta) (objectKey : string) : string :=
  match ContentType meta with
  | Some t => if String.eqb t "" then getContentType objectKey else t
  | None => getContentType objectKey
  end.

Definition unsatisfiable (totalSize : Z) : response :=
  RangeNotSatisfiable ("bytes */" +:+ pretty totalSize).

(** The branch [if (rangeHeader)] once the metadata is known. *)
Definition serve_range (e : env) (req : request) (objectKey : string)
    (meta : object_meta) (rangeHeader : string) : response :=
  let totalSize := ContentLength meta in
  let contentType := content_type_of meta objectKey in
  match match_range rangeHeader with
  | None => unsatisfiable totalSize
  | Some (m1, m2) =>
      match parse_range totalSize m1 m2 with
      | None => unsatisfiable totalSize
      | Some (start, end_) =>
          if (start >=? totalSize) || (end_ >=? totalSize)
          then unsatisfiable totalSize
          else
            let chunkSize := end_ - start + 1 in
            if get_object_range e objectKey start end_ then
              PartialContent contentType chunkSize
                ("bytes " +:+ pretty start +:+ "-" +:+ pretty end_ +:+ "/"
                   +:+ pretty totalSize)
                start end_ (negb (String.eqb (method req) "HEAD"))
            else Json 500 "Failed to stream video"
      end
  end.

Definition handler (e : env) (req : request) : response :=
  if negb (String.eqb (method req) "GET") && negb (String.eqb (method req) "HEAD")
  then Json 405 "Method not allowed"
  else if negb (authorized req) then Json 401 "Unauthorized"
  else if negb (config_ok e) then Json 500 "R2 configuration is missing"
  else
    match key req with
    | None | Some [] => Json 400 "Video key is required"
    | Some segments =>
        let objectKey := join "/" segments in
        let ranged :=
          match range req with
          | Some h => if String.eqb h "" then None else Some h
          | None => None
          end in
        match ranged with
        | Some rangeHeader =>
            match head_object e objectKey with
            | NotFound => Json 404 "Video not found"
            | Failed => Json 500 "Failed to stream video"
            | Found meta => serve_range e req objectKey meta rangeHeader
            end
        | None =>
            match get_object e objectKey with
            | NotFound => Json 404 "Video not found"
            | Failed => Json 500 "Failed to stream video"
            | Found meta =>
                let contentType := content_type_of meta objectKey in
                FullContent contentType (ContentLength meta)
                  (negb (String.eqb (method req) "HEAD"))
            end
        end
    end.

(** A request for the object at [segments] that gets as far as the range
    branch, on a store that knows the object with the metadata [meta] and
    answers the ranged fetch. *)
Definition ranged_request (e : env) (req : request) (segments : list string)
    (meta : object_meta) (rangeHeader : string) : Prop :=
  (method req = "GET" \/ method req = "HEAD") /\
  authorized req = true /\
  config_ok e = true /\
  segments <> [] /\
  key req = Some segments /\
  range req = Some rangeHeader /\
  head_object e (join "/" segments) = Found meta /\
  forall first last, get_object_range e (join "/" segments) first last = true.

(** A store with one object of [totalSize] bytes under [videos/a.mp4], and a
    [GET] for it with the header [Range: rangeHeader]. *)
Definition one_object (totalSize : Z) : env :=
  {| config_ok := true;
     head_object := fun k =>
       if String.eqb k "videos/a.mp4"
       then Found {| ContentLength := totalSize; ContentType := Some "video/mp4" |}
       else NotFound;
     get_object_range := fun _ _ _ => true;
     get_object := fun k =>
       if String.eqb k "videos/a.mp4"
       then Found {| ContentLength := totalSize; ContentType := Some "video/mp4" |}
       else NotFound |}.

Definition get_with_range (rangeHeader : string) : request :=
  {| method := "GET"; authorized := true;
     key := Some ["videos"; "a.mp4"]; range := Some rangeHeader |}.

End VideoStream.

(** ** Minting an object key: [frontend/pages/api/upload/r2-signed-url.js] *)

Module KeyMint.

(** A file name is a JavaScript string: a sequence of UTF-16 code units.
    The pattern has no [u] flag, so [replace] works unit by unit. *)
Definition units (s : string) : list N :=
  N_of_ascii <$> String.list_ascii_of_string s.

Definition between (lo hi c : N) : bool := ((lo <=? c) && (c <=? hi))%N.

(** The class [a-zA-Z0-9._-]. *)
Definition allowed (c : N) : bool :=
  between 97 122 c || between 65 90 c || between 48 57 c
  || (c =? 46)%N || (c =? 95)%N || (c =? 45)%N.

(** [fileName.replace(/[^a-zA-Z0-9._-]/g, '_')]. *)
Definition sanitize (fileName : list N) : list N :=
  (fun c => if allowed c then c else 95%N) <$> fileName.

(** A digit of [Number.prototype.toString(36)]. *)
Definition base36 (c : ascii) : bool :=
  let n := N_of_ascii c in between 48 57 n || between 97 122 n.

(** What [Math.random().toString(36)] looks like: [0] or [0.] and digits. *)
Definition radix36_fraction (r : string) : Prop :=
  r = "0" \/
  exists ds, r = "0." +:+ ds /\ Forall (fun c => base36 c = true) (String.list_ascii_of_string ds).

(** [`videos/${timestamp}_${randomStr}_${sanitizedName}`] with
    [randomStr = random36.substring(2, 10)]. *)
Definition mint_key (timestamp : Z) (random36 : string) (fileName : list N)
    : list N :=
  let randomStr := String.substring 2 8 random36 in
  let sanitizedName := sanitize fileName in
  units "videos/" ++ units (pretty timestamp) ++ units "_"
    ++ units randomStr ++ units "_" ++ sanitizedName.

Record env := {
  config_ok : bool;
  Date_now : Z;
  Math_random_36 : string;
  getSignedUrl : list N -> option string
}.

Record request := {
  method : string;
  fileName : option (list N);
  contentType : option string
}.

Inductive response : Type :=
| Json (status : Z) (error : string)
| Minted (signedUrl : string) (key : list N).

Definition handler (e : env) (req : request) : response :=
  if negb (String.eqb (method req) "POST") then Json 405 "Method not allowed"
  else if negb (config_ok e) then Json 500 "R2 configuration is missing"
  else
    match fileName req, contentType req with
    | Some fileName, Some contentType =>
        if bool_decide (fileName = []) || String.eqb contentType ""
        then Json 400 "fileName and contentType are required"
        else
          let key := mint_key (Date_now e) (Math_random_36 e) fileName in
          match getSignedUrl e key with
          | Some signedUrl => Minted signedUrl key
          | None => Json 500 "Failed to generate signed URL"
          end
    | _, _ => Json 400 "fileName and contentType are required"
    end.

(** The characters a minted key is made of: the class and [/]. *)
Definition key_char (c : N) : bool := allowed c || (c =? 47)%N.

Definition sample_env : env :=
  {| config_ok := true; Date_now := 1700000000000;
     Math_random_36 := "0.k3x9q0zr1ab"; getSignedUrl := fun _ => Some "https://signed" |}.

Definition sample_request : request :=
  {| method := "POST"; fileName := Some (units "my video (1).mp4");
     contentType := Some "video/mp4" |}.

End KeyMint.

(** ** The document store: collections [users], [students], [subscription] *)

Module Store.
Import JS.

(** A value held by a field of a stored object. *)
Inductive jsval : Type :=
| JNull
| JBool (b : bool)
| JNum (n : Z)
| JStr (s : string).

(** A number or a string: an account id, or a scalar of a request. *)
Inductive scalar : Type :=
| Num (n : Z)
| Str (s : string).

Global Instance scalar_eq_dec : EqDecision scalar.
Proof. solve_decision. Defined.

(** Truthiness of a property read; [None] is [undefined]. *)
Definition truthy (v : option jsval) : bool :=
  match v with
  | Some (JStr s) => negb (String.eqb s "")
  | Some (JNum n) => negb (n =? 0)
  | Some (JBool b) => b
  | Some JNull | None => false
  end.

(** [v || d] for a property read [v] and a string [d]. *)
Definition or_else (v : option jsval) (d : string) : jsval :=
  match v with
  | Some x => if truthy v then x else JStr d
  | None => JStr d
  end.

(** A device record is an object: field name to value.  The fields the
    handlers know are [device_id], [ip], [browser], [os], [device_type],
    [first_login] and [last_login]. *)
Abbreviation device := (gmap string jsval).

(** [d.device_id === x], also the match of the query [{ device_id: x }]. *)
Definition has_device_id (x : string) (d : device) : bool :=
  match d !! "device_id" with
  | Some (JStr s) => String.eqb s x
  | _ => false
  end.

(** The object under [device_limitations] of a user; an absent field is
    [None]. *)
Record limitations_doc := {
  allowed_devices : option Z;
  last_login : option string;
  devices : option (list device)
}.

Record user := {
  _id : N;
  id : scalar;
  password : string;
  name : string;
  role : string;
  account_state : option string;
  device_limitations : option limitations_doc
}.

Record student := {
  student_id : scalar;
  student_account_state : option string
}.

(** The singleton subscription document; dates are in milliseconds. *)
Record subscription := {
  active : bool;
  subscription_duration : option string;
  date_of_subscription : option Z;
  date_of_expiration : option Z;
  cost : option string;
  note : option string
}.

Record db := {
  users : list user;
  students : list student;
  the_subscription : option subscription
}.

(** [collection.updateOne(filter, update)]: the first match is updated. *)
Fixpoint updateOne {A} (filter : A -> bool) (update : A -> A) (l : list A)
    : list A :=
  match l with
  | [] => []
  | x :: l' => if filter x then update x :: l' else x :: updateOne filter update l'
  end.

Definition with_users (d : db) (us : list user) : db :=
  {| users := us; students := students d;
     the_subscription := the_subscription d |}.

Definition with_limitations (u : user) (dl : option limitations_doc) : user :=
  {| _id := _id u; id := id u; password := password u; name := name u;
     role := role u; account_state := account_state u; device_limitations := dl |}.

(** [$set: { 'device_limitations.allowed_devices': allowed }]. *)
Definition set_allowed_devices (allowed : Z) (u : user) : user :=
  with_limitations u
    (Some match device_limitations u with
          | Some dl => {| allowed_devices := Some allowed;
                          last_login := last_login dl; devices := devices dl |}
          | None => {| allowed_devices := Some allowed;
                       last_login := None; devices := None |}
          end).

(** [$pull: { 'device_limitations.devices': { device_id } }]: every record
    of the array that matches is removed; without the array, nothing. *)
Definition pull_device (device_id : string) (u : user) : user :=
  match device_limitations u with
  | Some dl =>
      match devices dl with
      | Some ds =>
          with_limitations u
            (Some {| allowed_devices := allowed_devices dl;
                     last_login := last_login dl;
                     devices :=
                       Some (List.filter (fun d => negb (has_device_id device_id d)) ds) |})
      | None => u
      end
  | None => u
  end.

(** The device list a user has, [[]] without one. *)
Definition devices_of (u : user) : list device :=
  match device_limitations u with
  | Some dl => default [] (devices dl)
  | None => []
  end.

(** The fields of a user outside [device_limitations] are the same. *)
Definition same_account (u u' : user) : Prop :=
  _id u' = _id u /\ id u' = id u /\ password u' = password u /\
  name u' = name u /\ role u' = role u /\
  account_state u' = account_state u.

(** Everything of a user but [allowed_devices] is the same. *)
Definition same_but_allowed (u u' : user) : Prop :=
  _id u' = _id u /\ id u' = id u /\ password u' = password u /\
  name u' = name u /\ role u' = role u /\
  account_state u' = account_state u /\
  devices_of u' = devices_of u /\
  (device_limitations u' ≫= devices) = (device_limitations u ≫= devices) /\
  (device_limitations u' ≫= last_login) = (device_limitations u ≫= last_login).

(** Everything of a user but the device list and the top-level
    [last_login] is the same. *)
Definition same_but_devices (u u' : user) : Prop :=
  _id u' = _id u /\ id u' = id u /\ password u' = password u /\
  name u' = name u /\ role u' = role u /\
  account_state u' = account_state u /\
  (device_limitations u' ≫= allowed_devices) = (device_limitations u ≫= allowed_devices).

(** [parseInt(v, 10)] of a scalar of a request: a number, [Num n] being
    the number the JSON text [n] denotes, is read through [String(v)]; a
    string is read as it is; [undefined] gives [NaN]. *)
Definition parseInt_scalar (v : option scalar) : number :=
  match v with
  | Some (Num n) => parseInt_of_number (to_number n)
  | Some (Str s) => parseInt_number s
  | None => NaN
  end.

(** [String(id).replace(/[$]/g, '').trim()] of a string. *)
Fixpoint strip_dollar (s : string) : string :=
  match s with
  | EmptyString => EmptyString
  | String c s' =>
      if Ascii.eqb c "$" then strip_dollar s' else String c (strip_dollar s')
  end.

(** [/^\d+$/.test(s)]. *)
Definition numeric (s : string) : bool :=
  negb (String.eqb s "") && all_digits s.

End Store.

(** ** Device administration: [students/devices.js], [assistants/devices.js]

    The two handlers differ in the validation of [id] and in the filter on
    users.  The store calls are total here; one that throws is answered
    with 500 and writes nothing. *)

Module Devices.
Import JS Store.

(** What [authMiddleware(req)] does: it throws, or resolves to no user, or
    to a user with a role. *)
Inductive auth : Type :=
| Throws
| NoUser
| User (role : string).

Record env := {
  device_limitations_enabled : bool;
  authMiddleware : auth
}.

Inductive http_method := GET | PATCH | DELETE | OTHER.

(** [id], [allowed_devices] come from the body of a [PATCH]; [id],
    [device_id] from the query string of a [DELETE]. *)
Record request := {
  method : http_method;
  req_id : option scalar;
  req_allowed_devices : option scalar;
  req_device_id : option string
}.

(** [Success] is [{ success: true }]; [Listing] stands for the page a
    [GET] answers with, which reads the store and is not detailed here. *)
Inductive response : Type :=
| Json (status : Z) (error : string)
| Success
| Listing.

Definition may_administer (r : string) : bool :=
  bool_decide (r ∈ ["admin"; "developer"; "assistant"]).

(** The checks in front of the dispatch on the method. *)
Definition gate (e : env) : option response :=
  if negb (device_limitations_enabled e)
  then Some (Json 400 "device_limitations_disabled")
  else
    match authMiddleware e with
    | Throws => Some (Json 500 "internal_server_error")
    | NoUser => Some (Json 403 "forbidden")
    | User r => if may_administer r then None else Some (Json 403 "forbidden")
    end.

(** [!v] for a number or a string. *)
Definition falsy (v : option scalar) : bool :=
  match v with
  | Some (Num n) => n =? 0
  | Some (Str s) => String.eqb s ""
  | None => true
  end.

(** [allowed = parseInt(allowed_devices, 10)] when
    [Number.isFinite(allowed) && allowed > 0]. *)
Definition accepted_allowed (v : option scalar) : option Z :=
  match parseInt_scalar v with
  | Int allowed => if allowed <=? 0 then None else Some allowed
  | NaN | Infinity _ => None
  end.

(** What a [PATCH] can do to the store: a user is untouched, or has
    [allowed_devices] alone set, to the accepted value. *)
Definition patched (allowed : option Z) (d d' : db) : Prop :=
  students d' = students d /\
  the_subscription d' = the_subscription d /\
  Forall2 (fun u u' =>
             u' = u \/
             (same_but_allowed u u' /\ exists a, allowed = Some a /\ 0 < a /\
                (device_limitations u' ≫= allowed_devices) = Some a))
    (users d) (users d').

(** What a [DELETE] of the device [x] does to the store, where [sel] says
    which users the filter selects: nothing when the first user selected,
    if any, has no record with that id; otherwise that user keeps exactly
    the records with another id, and where one record has the id, that one
    is gone. *)
Definition deleted (sel : user -> Prop) (x : string) (d d' : db) : Prop :=
  students d' = students d /\
  the_subscription d' = the_subscription d /\
  ((forall us1 u us2,
       users d = us1 ++ u :: us2 ->
       Forall (fun v => ~ sel v) us1 -> sel u ->
       Forall (fun dev => has_device_id x dev = false) (devices_of u)) ->
   d' = d) /\
  (forall us1 u us2,
      users d = us1 ++ u :: us2 ->
      Forall (fun v => ~ sel v) us1 -> sel u ->
      exists u',
        users d' = us1 ++ u' :: us2 /\
        same_but_devices u u' /\
        (device_limitations u' ≫= last_login) = (device_limitations u ≫= last_login) /\
        (forall dev, dev ∈ devices_of u' <->
                     dev ∈ devices_of u /\ has_device_id x dev = false) /\
        (forall l1 dev l2,
            devices_of u = l1 ++ dev :: l2 ->
            has_device_id x dev = true ->
            Forall (fun o => has_device_id x o = false) l1 ->
            Forall (fun o => has_device_id x o = false) l2 ->
            devices_of u' = l1 ++ l2)).

(** The user an id sent to the assistants endpoint names: the id stored
    is the number sent; or, for a string sent, that string without [$]
    and trimmed, or the number its digits denote when it is made of
    digits. *)
Definition names (rawId x : scalar) : Prop :=
  match rawId, x with
  | Num n, Num m => to_number n = Int m
  | Num _, Str _ => False
  | Str s, Str t => t = trim (strip_dollar s)
  | Str s, Num m =>
      numeric (trim (strip_dollar s)) = true /\
      parseInt_number (trim (strip_dollar s)) = Int m
  end.

Module Students.

(** The filter [{ id: numericId, role: 'student' }]; an infinity is the
    id of no user. *)
Definition is_student (numericId : number) (u : user) : bool :=
  match numericId with
  | Int n => bool_decide (id u = Num n) && String.eqb (role u) "student"
  | NaN | Infinity _ => false
  end.

Definition handler (e : env) (d : db) (req : request) : response * db :=
  match gate e with
  | Some r => (r, d)
  | None =>
    match method req with
    | GET => (Listing, d)
    | PATCH =>
        match parseInt_scalar (req_id req) with
        | NaN | Int 0 => (Json 400 "invalid_id", d)
        | numericId =>
            match accepted_allowed (req_allowed_devices req) with
            | None => (Json 400 "invalid_allowed_devices", d)
            | Some allowed =>
                (Success,
                 with_users d
                   (updateOne (is_student numericId)
                      (set_allowed_devices allowed) (users d)))
            end
        end
    | DELETE =>
        match parseInt_scalar (req_id req), req_device_id req with
        | NaN, _ | Int 0, _ | _, None => (Json 400 "invalid_parameters", d)
        | numericId, Some device_id =>
            if String.eqb device_id "" then (Json 400 "invalid_parameters", d)
            else
              (Success,
               with_users d
                 (updateOne (is_student numericId)
                    (pull_device device_id) (users d)))
        end
    | OTHER => (Json 405 "Method not allowed", d)
    end
  end.

End Students.

Module Assistants.

(** The values of [id] the query matches: the number itself; for a
    string of digits [$in] of [parseInt(idStr, 10)] and the string; the
    string otherwise.  An infinity is the id of no user. *)
Definition as_id (v : number) : list scalar :=
  match v with
  | Int n => [Num n]
  | NaN | Infinity _ => []
  end.

Definition idQuery (rawId : scalar) : list scalar :=
  match rawId with
  | Num n => as_id (to_number n)
  | Str s =>
      let idStr := trim (strip_dollar s) in
      if numeric idStr then as_id (parseInt_number idStr) ++ [Str idStr]
      else [Str idStr]
  end.

Definition is_assistant (q : list scalar) (u : user) : bool :=
  bool_decide (id u ∈ q)
  && bool_decide (role u ∈ ["assistant"; "admin"]).

Definition handler (e : env) (d : db) (req : request) : response * db :=
  match gate e with
  | Some r => (r, d)
  | None =>
    match method req with
    | GET => (Listing, d)
    | PATCH =>
        match req_id req with
        | None => (Json 400 "invalid_id", d)
        | Some rawId =>
            if falsy (Some rawId) then (Json 400 "invalid_id", d)
            else
              match accepted_allowed (req_allowed_devices req) with
              | None => (Json 400 "invalid_allowed_devices", d)
              | Some allowed =>
                  (Success,
                   with_users d
                     (updateOne (is_assistant (idQuery rawId))
                        (set_allowed_devices allowed) (users d)))
              end
        end
    | DELETE =>
        match req_id req, req_device_id req with
        | Some rawId, Some device_id =>
            if falsy (Some rawId) || String.eqb device_id ""
            then (Json 400 "invalid_parameters", d)
            else
              (Success,
               with_users d
                 (updateOne (is_assistant (idQuery rawId))
                    (pull_device device_id) (users d)))
        | _, _ => (Json 400 "invalid_parameters", d)
        end
    | OTHER => (Json 405 "Method not allowed", d)
    end
  end.

End Assistants.

End Devices.

(** ** Login: the handler with the device limitations block

    [handler] is the handler on a body that is typed, [assistant_id] a
    number or a string and [password] a string, with a store in reach;
    its calls are total.  [handler_any] is the handler on any body, with
    the two [typeof] rejections, and with the connection to the store
    that may throw, which the [catch] answers with 500. *)

Module Login.
Import JS Store.

Record env := {
  SUBSCRIPTION_ENABLED : bool;
  isDeviceLimitationsEnabled : bool;
  (** [bcrypt.compare(password, hash)] *)
  bcrypt_compare : string -> string -> bool;
  (** [new Date().getTime()] of the subscription check *)
  nowTime : Z;
  (** [formatDateTime(new Date())] of the device block *)
  nowFormatted : string;
  (** [jwt.sign({ assistant_id, name, role }, JWT_SECRET, ...)] *)
  jwt_sign : scalar -> string -> string -> string
}.

(** The body of the request, and what the handler derives from the
    headers and the socket: the address, and the browser, system and
    device type [UAParser] reads in the user agent. *)
Record request := {
  is_post : bool;
  assistant_id : option scalar;
  req_password : option string;
  device_id : option string;
  ip : string;
  browser : string;
  os : string;
  deviceType : string
}.

Inductive response : Type :=
| Json (status : Z) (error : string)
| LoggedIn (token : string) (role : string).

Definition falsy (v : option scalar) : bool :=
  match v with
  | Some (Num n) => n =? 0
  | Some (Str s) => String.eqb s ""
  | None => true
  end.

Definition findOne_id (x : scalar) (us : list user) : option user :=
  List.find (fun u => bool_decide (id u = x)) us.

(** The lookup: as a number first and then as a string when the id reads
    as a number, as a string otherwise. *)
Definition find_user (rawId : scalar) (us : list user) : option user :=
  match rawId with
  | Num n =>
      match findOne_id (Num n) us with
      | Some u => Some u
      | None => findOne_id (Str (pretty n)) us
      end
  | Str s =>
      let idStr := trim (strip_dollar s) in
      if numeric idStr then
        match findOne_id (Num (decimal idStr)) us with
        | Some u => Some u
        | None => findOne_id (Str idStr) us
        end
      else findOne_id (Str idStr) us
  end.

(** [state || 'Deactivated']. *)
Definition or_deactivated (state : option string) : string :=
  match state with
  | Some s => if String.eqb s "" then "Deactivated" else s
  | None => "Deactivated"
  end.

Definition accountState (d : db) (assistant : user) : string :=
  if String.eqb (role assistant) "student" then
    match List.find (fun s => bool_decide (student_id s = id assistant)) (students d) with
    | Some student => or_deactivated (student_account_state student)
    | None => "Deactivated"
    end
  else or_deactivated (account_state assistant).

(** The [$set] of the deactivation of an expired subscription. *)
Definition deactivated : subscription :=
  {| active := false; subscription_duration := None;
     date_of_subscription := None; date_of_expiration := None;
     cost := None; note := None |}.

Definition with_subscription (d : db) (s : option subscription) : db :=
  {| users := users d; students := students d; the_subscription := s |}.

Definition privileged (assistant : user) : bool :=
  String.eqb (role assistant) "developer" || String.eqb (role assistant) "student".

(** The subscription check: the error it answers with, if any, and the
    store it leaves. *)
Definition subscription_gate (e : env) (d : db) (assistant : user)
    : option string * db :=
  if negb (SUBSCRIPTION_ENABLED e) then (None, d)
  else
    match the_subscription d with
    | None => (None, d)
    | Some sub =>
        let expirationDate := date_of_expiration sub in
        let lapsed :=
          match expirationDate with
          | Some expTime => active sub && (nowTime e >=? expTime)
          | None => false
          end in
        let d1 := if lapsed then with_subscription d (Some deactivated) else d in
        let active1 := if lapsed then false else active sub in
        if negb active1 then
          if privileged assistant then (None, d1)
          else (Some "subscription_inactive", d1)
        else
          match expirationDate with
          | Some expTime =>
              if (nowTime e >=? expTime) && negb (privileged assistant)
              then (Some "subscription_expired", d1)
              else (None, d1)
          | None => (None, d1)
          end
    end.

Definition incomingDeviceId (req : request) : string :=
  match device_id req with
  | Some s => if String.eqb (trim s) "" then "unknown-device" else trim s
  | None => "unknown-device"
  end.

(** [devices.findIndex(p)]; [None] is [-1]. *)
Fixpoint findIndex {A} (p : A -> bool) (l : list A) : option nat :=
  match l with
  | [] => None
  | x :: l' => if p x then Some 0%nat else S <$> findIndex p l'
  end.

Definition allowedDevices (assistant : user) : Z :=
  match device_limitations assistant with
  | Some dl => default 1 (allowed_devices dl)
  | None => 1
  end.

(** The record pushed for a device seen for the first time. *)
Definition new_device (e : env) (req : request) : device :=
  {[ "device_id" := JStr (incomingDeviceId req);
     "ip" := JStr (ip req);
     "browser" := JStr (browser req);
     "os" := JStr (os req);
     "device_type" := JStr (deviceType req);
     "first_login" := JStr (nowFormatted e);
     "last_login" := JStr (nowFormatted e) ]}.

(** The record that replaces a registered device: the old fields, with
    [ip], [browser], [os], [device_type] kept when truthy, and a new
    [last_login]. *)
Definition touch_device (e : env) (req : request) (old : device) : device :=
  <["last_login" := JStr (nowFormatted e)]>
    (<["device_type" := or_else (old !! "device_type") (deviceType req)]>
       (<["os" := or_else (old !! "os") (os req)]>
          (<["browser" := or_else (old !! "browser") (browser req)]>
             (<["ip" := or_else (old !! "ip") (ip req)]> old)))).

(** The device limitations block: [None] is [device_limit_reached],
    otherwise the [updatedLimitations] to store. *)
Definition register_device (e : env) (req : request) (assistant : user)
    : option limitations_doc :=
  let allowedDevices := allowedDevices assistant in
  let devices := devices_of assistant in
  match findIndex (has_device_id (incomingDeviceId req)) devices with
  | None =>
      if Z.of_nat (length devices) >=? allowedDevices then None
      else
        Some {| allowed_devices := Some allowedDevices;
                last_login := Some (nowFormatted e);
                devices := Some (devices ++ [new_device e req]) |}
  | Some existingIndex =>
      Some {| allowed_devices := Some allowedDevices;
              last_login := Some (nowFormatted e);
              devices := Some (alter (touch_device e req) existingIndex devices) |}
  end.


Definition success (e : env) (assistant : user) : response :=
  LoggedIn (jwt_sign e (id assistant) (name assistant) (role assistant))
    (role assistant).

Definition handler (e : env) (d : db) (req : request) : response * db :=
  if negb (is_post req) then (Json 405 "Method not allowed", d)
  else
    match assistant_id req, req_password req with
    | Some rawId, Some password =>
        if falsy (Some rawId) || String.eqb password ""
        then (Json 400 "assistant_id and password required", d)
        else
          match find_user rawId (users d) with
          | None => (Json 401 "user_not_found", d)
          | Some assistant =>
              if negb (bcrypt_compare e password (Store.password assistant))
              then (Json 401 "wrong_password", d)
              else if negb (String.eqb (accountState d assistant) "Activated")
              then
                if String.eqb (role assistant) "student"
                then (Json 403 "student_account_deactivated", d)
                else (Json 403 "account_deactivated", d)
              else
                match subscription_gate e d assistant with
                | (Some error, d1) => (Json 403 error, d1)
                | (None, d1) =>
                    if isDeviceLimitationsEnabled e
                       && negb (String.eqb (role assistant) "developer")
                    then
                      match register_device e req assistant with
                      | None => (Json 403 "device_limit_reached", d1)
                      | Some updatedLimitations =>
                          (success e assistant,
                           with_users d1
                             (updateOne
                                (fun u => (_id u =? _id assistant)%N)
                                (fun u => with_limitations u (Some updatedLimitations))
                                (users d1)))
                      end
                    else (success e assistant, d1)
                end
          end
    | _, _ => (Json 400 "assistant_id and password required", d)
    end.

(** A value of the body: a number or a string, or a value of another
    type ([true], [false], [null], an array, an object), of which the
    handler only looks at the truthiness. *)
Inductive body_value : Type :=
| Typed (v : scalar)
| Untyped (truthy : bool).

Record any_request := {
  any_is_post : bool;
  any_assistant_id : option body_value;
  any_password : option body_value;
  (** [device_id] when it is a string *)
  any_device_id : option string;
  any_ip : string;
  any_browser : string;
  any_os : string;
  any_deviceType : string
}.

(** [!v] for a value of the body. *)
Definition falsy_value (v : option body_value) : bool :=
  match v with
  | Some (Typed x) => falsy (Some x)
  | Some (Untyped truthy) => negb truthy
  | None => true
  end.

(** The request once the types are checked. *)
Definition as_typed (req : any_request) (rawId : scalar) (password : string)
    : request :=
  {| is_post := any_is_post req; assistant_id := Some rawId;
     req_password := Some password; device_id := any_device_id req;
     ip := any_ip req; browser := any_browser req; os := any_os req;
     deviceType := any_deviceType req |}.

(** The handler on any body.  [connects]: [MongoClient.connect] resolves;
    when it throws, before any read or write, the [catch] answers 500.
    The calls after it are total, as in [handler]. *)
Definition handler_any (e : env) (connects : bool) (d : db) (req : any_request)
    : response * db :=
  if negb (any_is_post req) then (Json 405 "Method not allowed", d)
  else if falsy_value (any_assistant_id req) || falsy_value (any_password req)
  then (Json 400 "assistant_id and password required", d)
  else
    match any_assistant_id req, any_password req with
    | Some (Typed rawId), Some (Typed (Str password)) =>
        if connects then handler e d (as_typed req rawId password)
        else (Json 500 "Internal server error", d)
    | Some (Typed _), _ => (Json 400 "Invalid password", d)
    | _, _ => (Json 400 "Invalid assistant_id", d)
    end.


(** The subscription has run out: the gating is on and the stored
    subscription is active with an expiration that has passed. *)
Definition expired (e : env) (d : db) : bool :=
  SUBSCRIPTION_ENABLED e &&
  match the_subscription d with
  | Some sub =>
      active sub &&
      match date_of_expiration sub with
      | Some expTime => expTime <=? nowTime e
      | None => false
      end
  | None => false
  end.

(** No subscription is in force: the gating is on and the stored
    subscription is inactive or has run out. *)
Definition without_subscription (e : env) (d : db) : bool :=
  SUBSCRIPTION_ENABLED e &&
  match the_subscription d with
  | Some sub => negb (active sub) || expired e d
  | None => false
  end.

(** The account passes the credential and the account state checks. *)
Definition authenticated (e : env) (d : db) (rawId : scalar) (password : string)
    (assistant : user) : Prop :=
  find_user rawId (users d) = Some assistant /\
  bcrypt_compare e password (Store.password assistant) = true /\
  accountState d assistant = "Activated".


End Login.

(** ** Sample data *)

Module Samples.
Import Store.

Definition device_of (device_id at_ : string) : device :=
  {[ "device_id" := JStr device_id; "ip" := JStr "10.0.0.1";
     "browser" := JStr "Firefox"; "os" := JStr "Linux";
     "device_type" := JStr "desktop";
     "first_login" := JStr at_; "last_login" := JStr at_ ]}.


Definition account (oid : N) (n : Z) (r : string) (allowed : Z)
    (ds : list device) : user :=
  {| _id := oid; id := Num n; password := "hash:secret"; name := "Mona";
     role := r; account_state := Some "Activated";
     device_limitations :=
       Some {| allowed_devices := Some allowed;
               last_login := Some "01/11/2026 at 09:00 AM";
               devices := Some ds |} |}.


Definition store_of (us : list user) (sub : option subscription) : db :=
  {| users := us;
     students := [ {| student_id := Num 12; student_account_state := Some "Activated" |} ];
     the_subscription := sub |}.

Definition admin_env : Devices.env :=
  {| Devices.device_limitations_enabled := true;
     Devices.authMiddleware := Devices.User "admin" |}.

Definition patch_request (n allowed : Z) : Devices.request :=
  {| Devices.method := Devices.PATCH; Devices.req_id := Some (Num n);
     Devices.req_allowed_devices := Some (Num allowed);
     Devices.req_device_id := None |}.

Definition delete_request (n : string) (device_id : string) : Devices.request :=
  {| Devices.method := Devices.DELETE; Devices.req_id := Some (Str n);
     Devices.req_allowed_devices := None;
     Devices.req_device_id := Some device_id |}.

Definition login_env : Login.env :=
  {| Login.SUBSCRIPTION_ENABLED := true;
     Login.isDeviceLimitationsEnabled := true;
     Login.bcrypt_compare := fun p h => String.eqb ("hash:" +:+ p) h;
     Login.nowTime := 2000;
     Login.nowFormatted := "02/11/2026 at 10:00 AM";
     Login.jwt_sign := fun _ _ _ => "jwt" |}.

Definition login_request (n : Z) (device_id : string) : Login.request :=
  {| Login.is_post := true; Login.assistant_id := Some (Num n);
     Login.req_password := Some "secret"; Login.device_id := Some device_id;
     Login.ip := "10.0.0.7"; Login.browser := "Chrome";
     Login.os := "Android"; Login.deviceType := "mobile" |}.


(** The stores of the scenario: a student with [allowed_devices = 1] and
    no device logs in from [A], then from [B]; an administrator sets
    [allowed_devices = 2]; the student logs in from [B] again. *)
Definition scenario0 : db := store_of [account 1 12 "student" 1 []] None.
Definition scenario1 : db := (Login.handler login_env scenario0 (login_request 12 "A")).2.
Definition scenario2 : db := (Login.handler login_env scenario1 (login_request 12 "B")).2.
Definition scenario3 : db :=
  (Devices.Students.handler admin_env scenario2 (patch_request 12 2)).2.
Definition scenario4 : db := (Login.handler login_env scenario3 (login_request 12 "B")).2.

(** The device ids stored for each user. *)
Definition device_ids (d : db) : list (list (option jsval)) :=
  (fun u => (fun dev : device => dev !! "device_id") <$> devices_of u) <$> users d.

End Samples.

(** ** Ranges the proxy can satisfy *)

Module Ranges.
Import JS.

(** The headers the range branch answers with 206 on an object of
    [totalSize] bytes: a closed range with both ends inside the object, an
    open range that starts inside it, a suffix of at least one byte of an
    object that is not empty. *)
Definition satisfiable (totalSize : Z) (rangeHeader : string) : Prop :=
  (exists ds de,
      rangeHeader = "bytes=" +:+ ds +:+ "-" +:+ de /\
      all_digits ds = true /\ ds <> "" /\ all_digits de = true /\ de <> "" /\
      decimal ds < totalSize /\ decimal de < totalSize)
  \/ (exists ds,
      rangeHeader = "bytes=" +:+ ds +:+ "-" /\
      all_digits ds = true /\ ds <> "" /\ decimal ds < totalSize)
  \/ (exists dn,
      rangeHeader = "bytes=-" +:+ dn /\
      all_digits dn = true /\ dn <> "" /\ 1 <= decimal dn /\ 1 <= totalSize).

(** A request for the object at [segments] that passes the method, the
    authentication, the configuration and the key checks. *)
Definition admitted (e : VideoStream.env) (req : VideoStream.request)
    (segments : list string) : Prop :=
  (VideoStream.method req = "GET" \/ VideoStream.method req = "HEAD") /\
  VideoStream.authorized req = true /\
  VideoStream.config_ok e = true /\
  segments <> [] /\
  VideoStream.key req = Some segments.

End Ranges.

(** ** Invariants of the device lists *)

Module DeviceLists.
Import Store.

(** How many records of a list carry the device id [x]. *)
Definition count_id (x : string) (l : list device) : nat :=
  length (List.filter (has_device_id x) l).

(** No two records of the list carry the same device id. *)
Definition unique_ids (l : list device) : Prop :=
  forall x, (count_id x l <= 1)%nat.

(** The list of a user is within the cap the login enforces. *)
Definition within_cap (u : user) : Prop :=
  Z.of_nat (length (devices_of u)) <= Login.allowedDevices u.

End DeviceLists.

(** ** The listing of a [GET] on a device endpoint

    [students/devices.js] and [assistants/devices.js] share the paging and
    the shape of the devices they list.  The search, which builds regular
    expressions from the search term, is left out: [matched] below stands
    for the users the filter selects, in the order of the sort on [id]. *)

Module Listing.
Import JS Store.

(** [n || dflt] for a number: [NaN] and [0] are falsy. *)
Definition or_number (n : number) (dflt : Z) : number :=
  match n with
  | NaN | Int 0 => Int dflt
  | _ => n
  end.

(** [parseInt(page, 10) || 1] and [parseInt(limit, 10) || 50]; a missing
    parameter reads as [NaN]. *)
Definition currentPage (page : option string) : number :=
  or_number (from_option parseInt_number NaN page) 1.

Definition pageSize (limit : option string) : number :=
  or_number (from_option parseInt_number NaN limit) 50.

(** [Math.ceil(a / b)] for integers, [b] not zero. *)
Definition ceil_div (a b : Z) : Z := - ((- a) / b).

Record pagination := {
  p_currentPage : Z;
  totalPages : Z;
  totalCount : Z;
  limit : Z;
  hasNextPage : bool;
  hasPrevPage : bool;
  nextPage : option Z;
  prevPage : option Z
}.

(** The paging data computed from the count of the users the filter
    selects, for a page and a limit that are integers. *)
Definition paginate (currentPage pageSize totalCount : Z) : pagination :=
  let totalPages := ceil_div totalCount pageSize in
  {| p_currentPage := currentPage;
     totalPages := totalPages;
     totalCount := totalCount;
     limit := pageSize;
     hasNextPage := currentPage <? totalPages;
     hasPrevPage := currentPage >? 1;
     nextPage := if currentPage <? totalPages then Some (currentPage + 1) else None;
     prevPage := if currentPage >? 1 then Some (currentPage - 1) else None |}.



(** [.skip((currentPage - 1) * pageSize).limit(pageSize)] on the sorted
    matches.  [None]: a negative skip, which the store refuses, or a limit
    that is not positive, which it does not read as a page size. *)
Definition page_of {A} (matched : list A) (currentPage pageSize : Z)
    : option (list A) :=
  let skip := (currentPage - 1) * pageSize in
  if (skip <? 0) || (pageSize <=? 0) then None
  else Some (take (Z.to_nat pageSize) (drop (Z.to_nat skip) matched)).

(** The pages [1 .. n], one after the other. *)
Definition pages_upto {A} (matched : list A) (pageSize : Z) (n : nat)
    : list (list A) :=
  (fun k => default [] (page_of matched (Z.of_nat (S k)) pageSize)) <$> seq 0 n.

(** [v || null] for a property read. *)
Definition or_null (v : option jsval) : jsval :=
  match v with
  | Some x => if truthy v then x else JNull
  | None => JNull
  end.

(** A device as the listing shows it.  The login stores the two dates as
    formatted strings, which the listing passes on; a [Date] object in a
    record, which it would format, has no counterpart in [jsval]. *)
Definition view_device (d : device) : device :=
  {[ "device_id" := or_else (d !! "device_id") "unknown-device";
     "ip" := or_else (d !! "ip") "unknown";
     "browser" := or_else (d !! "browser") "Unknown";
     "os" := or_else (d !! "os") "Unknown";
     "device_type" := or_else (d !! "device_type") "desktop";
     "first_login" := or_null (d !! "first_login");
     "last_login" := or_null (d !! "last_login") ]}.

End Listing.

(** ** The form of an online session: the second part of
    [frontend/pages/api/videos/[...key].js] (the page that edits a session) *)

Module OnlineSession.
Import JS.

(** The class [a-zA-Z0-9_-] of a YouTube id. *)
Definition id_char (c : ascii) : bool :=
  let n := N_of_ascii c in
  ((97 <=? n) && (n <=? 122) || (65 <=? n) && (n <=? 90)
   || (48 <=? n) && (n <=? 57) || (n =? 95) || (n =? 45))%N.

(** Exactly [n] characters of the class at the start of [s]. *)
Fixpoint take_id (n : nat) (s : string) : option string :=
  match n with
  | O => Some EmptyString
  | S n' =>
      match s with
      | String c s' => if id_char c then String c <$> take_id n' s' else None
      | EmptyString => None
      end
  end.

(** A search with a pattern that is not anchored: the match at the
    leftmost position where there is one. *)
Fixpoint search {A} (here : string -> option A) (s : string) : option A :=
  match here s with
  | Some x => Some x
  | None =>
      match s with
      | EmptyString => None
      | String _ s' => search here s'
      end
  end.

(** One alternative of the pattern: the literal [p], then the group of
    eleven characters. *)
Definition alternative (p s : string) : option string :=
  strip_prefix p s ≫= take_id 11.

Definition youtube_here (s : string) : option string :=
  match alternative "youtu.be/" s with
  | Some i => Some i
  | None =>
      match alternative "youtube.com/watch?v=" s with
      | Some i => Some i
      | None => alternative "youtube.com/embed/" s
      end
  end.

Definition extractYouTubeId (url : string) : option string :=
  search youtube_here url.

(** A literal in lower case matched with the flag [i]. *)
Fixpoint strip_prefix_ci (p s : string) : option string :=
  match p, s with
  | EmptyString, _ => Some s
  | String a p', String b s' =>
      if Ascii.eqb a (lower b) then strip_prefix_ci p' s' else None
  | String _ _, EmptyString => None
  end.

(** [week], white space, then the group of one digit or more. *)
Definition week_here (s : string) : option string :=
  match strip_prefix_ci "week" s with
  | Some r =>
      let '(d, _) := span_digits (trim_start r) in
      if String.eqb d "" then None else Some d
  | None => None
  end.

(** [None] is [null]. *)
Definition extractWeekNumber (weekString : string) : option Z :=
  if String.eqb weekString "" then None
  else decimal <$> search week_here weekString.

Fixpoint replicate_char (n : nat) (c : ascii) : string :=
  match n with
  | O => EmptyString
  | S n' => String c (replicate_char n' c)
  end.

(** [s.padStart(n, c)] for a fill of one character. *)
Definition padStart (n : nat) (c : ascii) (s : string) : string :=
  replicate_char (n - String.length s) c +:+ s.

(** [weekNumber] is [None] for [null] and [undefined]. *)
Definition weekNumberToString (weekNumber : option Z) : string :=
  match weekNumber with
  | None => ""
  | Some n => "week " +:+ padStart 2 "0" (pretty n)
  end.

(** A row of the form: one video of the session. *)
Record video_row := {
  video_name : string;
  youtube_url : string;
  video_source : string;
  r2_key : string;
  upload_file_name : string;
  upload_progress : Z;
  upload_status : string
}.

Definition blank_row : video_row :=
  {| video_name := ""; youtube_url := ""; video_source := "youtube";
     r2_key := ""; upload_file_name := ""; upload_progress := 0;
     upload_status := "" |}.

(** [videos.filter((_, i) => i !== index)]. *)
Fixpoint remove_at {A} (index : nat) (l : list A) : list A :=
  match l with
  | [] => []
  | x :: l' =>
      match index with
      | O => l'
      | S i => x :: remove_at i l'
      end
  end.

(** The updates of the rows made by [addVideo] and [removeVideo]. *)
Definition addVideo (videos : list video_row) : list video_row :=
  videos ++ [blank_row].

Definition removeVideo (index : nat) (videos : list video_row)
    : list video_row :=
  if (length videos <=? 1)%nat then videos else remove_at index videos.

(** What [handleSubmit] reads: the id of the session being edited (from
    the route), the selections, the fields, the rows, and the sessions
    known to the page. *)
Record session := {
  session_id : string;
  session_grade : string;
  session_week : Z
}.

Record form := {
  id : string;
  selectedGrade : string;
  selectedWeek : string;
  paymentState : string;
  name : string;
  description : string;
  videos : list video_row;
  sessions : list session
}.

(** The messages of the form, each shown after a cross mark:
    [Grade is required], [Attendance week is required],
    [Video Payment State is required], [Name is required],
    [At least one valid video is required], [Invalid YouTube URL],
    [Video URL or upload is required], [Invalid week selection],
    [A session with this grade and week already exists]. *)
Inductive message : Type :=
| GradeRequired
| WeekRequired
| PaymentStateRequired
| NameRequired
| VideoRequired
| InvalidYouTubeUrl
| UrlOrUploadRequired
| InvalidWeek
| DuplicateSession.

Record final_video := {
  video_type : string;
  video_id : string;
  final_video_name : option string
}.

Record payload := {
  p_name : string;
  p_grade : string;
  p_week : Z;
  p_videos : list final_video;
  p_description : option string;
  p_payment_state : string
}.

(** [s && s.trim()] is truthy. *)
Definition filled (s : string) : bool := negb (String.eqb (trim s) "").

(** The row has an uploaded video, or else a URL. *)
Definition valid_row (v : video_row) : bool :=
  filled (r2_key v) || filled (youtube_url v).

(** [videos.some((v, i) => i !== index && valid(v))]. *)
Definition other_valid (index : nat) (videos : list video_row) : bool :=
  existsb (fun '(i, v) => negb (i =? index)%nat && valid_row v)
    (imap pair videos).

(** The error of the row [index], under the key
    [video_<index>_youtube_url]. *)
Definition row_error (videos : list video_row) (index : nat) (video : video_row)
    : option (string * message) :=
  let key := "video_" +:+ pretty index +:+ "_youtube_url" in
  if filled (r2_key video) then None
  else if filled (youtube_url video) then
    match extractYouTubeId (trim (youtube_url video)) with
    | Some _ => None
    | None => Some (key, InvalidYouTubeUrl)
    end
  else if (length (List.filter valid_row videos) =? 0)%nat
          || other_valid index videos
  then Some (key, UrlOrUploadRequired)
  else None.

(** The errors of the first pass, in the order they are set. *)
Definition first_errors (f : form) : list (string * message) :=
  (if String.eqb (trim (selectedGrade f)) "" then [("grade", GradeRequired)] else [])
  ++ (if String.eqb (trim (selectedWeek f)) "" then [("week", WeekRequired)] else [])
  ++ (if bool_decide (paymentState f ∈ ["paid"; "free"; "free_if_attended"])
      then [] else [("paymentState", PaymentStateRequired)])
  ++ (if String.eqb (trim (name f)) "" then [("name", NameRequired)] else [])
  ++ (if (length (List.filter valid_row (videos f)) =? 0)%nat
      then [("videos", VideoRequired)] else [])
  ++ omap (fun e => e) (imap (row_error (videos f)) (videos f)).

(** [name && name.trim() ? name.trim() : null]. *)
Definition trimmed_or_null (s : string) : option string :=
  if filled s then Some (trim s) else None.

(** The entry of [finalVideoData] a row gives, if any. *)
Definition final_row (video : video_row) : option final_video :=
  if filled (r2_key video) then
    Some {| video_type := "r2"; video_id := trim (r2_key video);
            final_video_name := trimmed_or_null (video_name video) |}
  else if filled (youtube_url video) then
    match extractYouTubeId (trim (youtube_url video)) with
    | Some videoId =>
        Some {| video_type := "youtube"; video_id := videoId;
                final_video_name := trimmed_or_null (video_name video) |}
    | None => None
    end
  else None.

(** [handleSubmit]: the errors shown, or the data sent to update the
    session. *)
Definition handleSubmit (f : form) : list (string * message) + payload :=
  match first_errors f with
  | _ :: _ as newErrors => inl newErrors
  | [] =>
      match extractWeekNumber (selectedWeek f) with
      | None | Some 0 => inl [("week", InvalidWeek)]
      | Some weekNumber =>
          match
            List.find
              (fun session =>
                 negb (String.eqb (session_id session) (id f))
                 && String.eqb (session_grade session) (trim (selectedGrade f))
                 && (session_week session =? weekNumber))
              (sessions f)
          with
          | Some _ => inl [("general", DuplicateSession)]
          | None =>
              inr {| p_name := trim (name f);
                     p_grade := trim (selectedGrade f);
                     p_week := weekNumber;
                     p_videos := omap final_row (videos f);
                     p_description := trimmed_or_null (description f);
                     p_payment_state := paymentState f |}
          end
      end
  end.

(** A form that passes: one uploaded video and one YouTube video. *)
Definition sample_form : form :=
  {| id := "s1"; selectedGrade := "Grade 9 "; selectedWeek := "week 03";
     paymentState := "paid"; name := " Motion "; description := "";
     videos :=
       [ {| video_name := "part one"; youtube_url := ""; video_source := "upload";
            r2_key := "videos/1_ab_a.mp4"; upload_file_name := "a.mp4";
            upload_progress := 100; upload_status := "complete" |};
         {| video_name := ""; youtube_url := "https://youtu.be/dQw4w9WgXcQ";
            video_source := "youtube"; r2_key := ""; upload_file_name := "";
            upload_progress := 0; upload_status := "" |} ];
     sessions := [ {| session_id := "s1"; session_grade := "Grade 9";
                      session_week := 3 |} ] |}.

End OnlineSession.

(** ** The page that manages the devices of assistants: saving the cap *)

Module DevicesPage.
Import JS Store.

(** The two messages of the dialog: [Allowed devices is required] and
    [Allowed devices must be a positive number]. *)
Inductive save_error : Type :=
| Required
| MustBePositive.

(** [handleSaveAllowedDevices] with an assistant selected: the error
    shown, or the number sent as [allowed_devices]. *)
Definition handleSaveAllowedDevices (allowedDevicesInput : string)
    : save_error + Z :=
  let value := trim allowedDevicesInput in
  if String.eqb value "" then inl Required
  else
    match parseInt_number value with
    | Int num => if num <=? 0 then inl MustBePositive else inr num
    | NaN | Infinity _ => inl MustBePositive
    end.

(** The [PATCH] the page sends for the assistant [id]: [num] goes into
    the JSON text of the body and is read back from it. *)
Definition save_request (id : scalar) (num : Z) : Devices.request :=
  {| Devices.method := Devices.PATCH; Devices.req_id := Some id;
     Devices.req_allowed_devices := Some (Num num);
     Devices.req_device_id := None |}.

End DevicesPage.

(** ** The configuration file: [loadEnvConfig] and the switch of the
    device limitations, as the login handler has them *)

Module Config.
Import JS.

Definition newline : ascii := ascii_of_N 10.
Definition dquote : ascii := ascii_of_N 34.

(** [content.split('\n')]. *)
Fixpoint split_lines (s : string) : list string :=
  match s with
  | EmptyString => [EmptyString]
  | String c s' =>
      if Ascii.eqb c newline then EmptyString :: split_lines s'
      else
        match split_lines s' with
        | l :: ls => String c l :: ls
        | [] => [String c EmptyString]
        end
  end.

(** [s.substring(0, i)] and [s.substring(i + 1)] for [i = s.indexOf(c)];
    [None] when [indexOf] is [-1]. *)
Fixpoint cut_at (c : ascii) (s : string) : option (string * string) :=
  match s with
  | EmptyString => None
  | String a s' =>
      if Ascii.eqb a c then Some (EmptyString, s')
      else
        match cut_at c s' with
        | Some (before, after) => Some (String a before, after)
        | None => None
        end
  end.

Definition drop_leading (c : ascii) (s : string) : string :=
  match s with
  | String a s' => if Ascii.eqb a c then s' else s
  | EmptyString => s
  end.

(** [value.replace(/^"|"$/g, '')]: a double quote at the start goes, and
    one at the end. *)
Definition strip_quotes (value : string) : string :=
  String.rev (drop_leading dquote (String.rev (drop_leading dquote value))).

(** What a line sets, if anything. *)
Definition parse_line (line : string) : option (string * string) :=
  let trimmed := trim line in
  if String.eqb trimmed "" then None
  else if Ascii.eqb (default newline (head (String.list_ascii_of_string trimmed))) "#"
  then None
  else
    match cut_at "=" trimmed with
    | Some (before, after) => Some (trim before, strip_quotes (trim after))
    | None => None
    end.

(** [envVars[key] = value] on a plain object: a string assigned to
    [__proto__] is dropped. *)
Definition assign (envVars : gmap string string) (line : string)
    : gmap string string :=
  match parse_line line with
  | Some (key, value) =>
      if String.eqb key "__proto__" then envVars else <[key := value]> envVars
  | None => envVars
  end.

(** [loadEnvConfig()], for the content of the file, [None] when it cannot
    be read. *)
Definition loadEnvConfig (envContent : option string) : gmap string string :=
  match envContent with
  | Some content => foldl assign ∅ (split_lines content)
  | None => ∅
  end.

(** [toLowerCase] on code units below 256. *)
Definition lower1 (c : ascii) : ascii :=
  let n := N_of_ascii c in
  if ((65 <=? n) && (n <=? 90) || (192 <=? n) && (n <=? 222) && negb (n =? 215))%N
  then ascii_of_N (n + 32) else c.

Fixpoint toLowerCase1 (s : string) : string :=
  match s with
  | EmptyString => EmptyString
  | String c s' => String (lower1 c) (toLowerCase1 s')
  end.

(** [a || b] for two strings that may be missing. *)
Definition or_string (a b : option string) : option string :=
  match a with
  | Some s => if String.eqb s "" then b else a
  | None => b
  end.

(** [isDeviceLimitationsEnabled()] of the login handler: the file is read
    again at every call; [processEnv] is
    [process.env.SYSTEM_DEVICE_LIMITATIONS]. *)
Definition isDeviceLimitationsEnabled (envContent processEnv : option string)
    : bool :=
  let latestEnv := loadEnvConfig envContent in
  let rawValue := or_string (latestEnv !! "SYSTEM_DEVICE_LIMITATIONS") processEnv in
  let normalized := trim (toLowerCase1 (default "" (or_string rawValue (Some "")))) in
  String.eqb normalized "true" || String.eqb normalized "1".

(** A string without white space at either end. *)
Definition tight (s : string) : Prop :=
  trim_start s = s /\ trim_start (String.rev s) = String.rev s.

(** A string without the character [c]. *)
Definition without (c : ascii) (s : string) : Prop :=
  Forall (fun a => a <> c) (String.list_ascii_of_string s).

End Config.

(** * Properties *)

(** ** Digits, parsing and the range pattern *)

Section Digits.
Import JS.

Lemma span_digits_stop ds c r :
  all_digits ds = true -> is_digit c = false ->
  span_digits (ds +:+ String c r) = (ds, String c r).
Proof.
  intros Hds Hc. induction ds as [|d ds IH]; simpl in *.
  - by rewrite Hc.
  - apply andb_prop in Hds as [Hd Hds]. by rewrite Hd, IH.
Qed.

Lemma span_digits_all ds :
  all_digits ds = true -> span_digits ds = (ds, "").
Proof.
  induction ds as [|d ds IH]; simpl; [done|].
  intros [Hd Hds]%andb_prop. by rewrite Hd, IH.
Qed.

Lemma span_digits_spec s d r :
  span_digits s = (d, r) ->
  s = d +:+ r /\ all_digits d = true /\
  match r with String c _ => is_digit c = false | EmptyString => True end.
Proof.
  revert d r. induction s as [|c s IH]; simpl; intros d r H.
  - by inversion H.
  - destruct (is_digit c) eqn:Hc.
    + destruct (span_digits s) as [d' r'] eqn:Hs. inversion H; subst.
      destruct (IH d' r eq_refl) as (-> & Hd & Hr).
      simpl. by rewrite Hc, Hd.
    + inversion H; subst. simpl. by rewrite Hc.
Qed.

Lemma decimal_from_mono acc s :
  all_digits s = true -> 0 <= acc -> acc <= decimal_from acc s.
Proof.
  revert acc. induction s as [|c s IH]; simpl; intros acc H Hacc; [lia|].
  apply andb_prop in H as [Hc Hs].
  assert (0 <= digit_value c <= 9).
  { unfold is_digit in Hc. unfold digit_value.
    apply andb_prop in Hc as [H1 H2].
    apply N.leb_le in H1, H2. lia. }
  specialize (IH (10 * acc + digit_value c) Hs). lia.
Qed.

Lemma decimal_nonneg s : all_digits s = true -> 0 <= decimal s.
Proof. intros H. by apply (decimal_from_mono 0 s). Qed.

Lemma parseInt_digits s :
  all_digits s = true -> s <> "" -> parseInt s = Some (decimal s).
Proof.
  intros Hs Hne. unfold parseInt.
  destruct s as [|c s]; [done|].
  simpl in Hs. apply andb_prop in Hs as [Hc Hs].
  assert (is_space c = false) as Hsp.
  { revert Hc. unfold is_digit, is_space.
    destruct (N_of_ascii c) as [|p] eqn:E; [done|].
    intros [H1 H2]%andb_prop. apply N.leb_le in H1, H2.
    repeat (apply orb_false_intro || apply andb_false_intro2);
      try apply N.leb_gt; try apply N.eqb_neq; lia. }
  simpl. rewrite Hsp.
  assert (c <> "-"%char /\ c <> "+"%char) as [Hm Hp].
  { split; intros ->; discriminate Hc. }
  assert (span_digits (String c s) = (String c s, "")) as Hspan.
  { apply span_digits_all. simpl. by rewrite Hc, Hs. }
  destruct c as [[] [] [] [] [] [] [] []]; try done;
    rewrite Hspan; done.
Qed.

(** *** Doubles *)

(** A number of 53 significant bits is a double. *)
Lemma round_double_exact m k :
  2 ^ 52 <= m < 2 ^ 53 -> 1 <= k -> m * 2 ^ k < 2 ^ 1024 ->
  round_double (m * 2 ^ k) = Some (m * 2 ^ k).
Proof.
  intros Hm Hk Hfin. unfold round_double.
  assert (0 < 2 ^ k) as Hpk by (apply Z.pow_pos_nonneg; lia).
  assert (2 <= 2 ^ k) as Hpk2.
  { change 2 with (2 ^ 1) at 1. apply Z.pow_le_mono_r; lia. }
  assert (Z.log2 m = 52) as Hlog.
  { apply Z.log2_unique; [lia|]. change (52 + 1) with 53. lia. }
  assert (Z.log2 (m * 2 ^ k) = k + 52) as Hlog'.
  { rewrite Z.log2_mul_pow2 by lia. lia. }
  destruct (m * 2 ^ k <? 2 ^ 53) eqn:Hs.
  { apply Z.ltb_lt in Hs. nia. }
  cbv zeta. rewrite Hlog'.
  replace (k + 52 - 52) with k by lia.
  rewrite Z.div_mul, Z.mod_mul by lia.
  assert (0 < 2 ^ (k - 1)) as Hhalf by (apply Z.pow_pos_nonneg; lia).
  destruct (2 ^ (k - 1) <? 0) eqn:E1; [apply Z.ltb_lt in E1; lia|].
  destruct (0 =? 2 ^ (k - 1)) eqn:E2; [apply Z.eqb_eq in E2; lia|].
  cbn [orb andb]. apply Z.ltb_lt in Hfin. by rewrite Hfin.
Qed.

(** Rounding gives a double: rounding again changes nothing. *)
Lemma round_double_idem n v :
  0 <= n -> round_double n = Some v -> round_double v = Some v.
Proof.
  intros Hn. unfold round_double at 1.
  destruct (n <? 2 ^ 53) eqn:Hs.
  { intros [= <-]. unfold round_double. by rewrite Hs. }
  apply Z.ltb_ge in Hs. cbv zeta.
  set (e := Z.log2 n - 52).
  set (q := n / 2 ^ e).
  set (q' := if (2 ^ (e - 1) <? n mod 2 ^ e)
                || ((n mod 2 ^ e =? 2 ^ (e - 1)) && Z.odd q)
             then q + 1 else q).
  assert (53 <= Z.log2 n) as Hlog by (apply Z.log2_le_pow2; lia).
  assert (1 <= e) as He by (unfold e; lia).
  assert (0 < 2 ^ e) as Hpe by (apply Z.pow_pos_nonneg; lia).
  assert (2 ^ 52 <= q < 2 ^ 53) as Hq.
  { destruct (Z.log2_spec n) as [Hlo Hhi]; [lia|].
    replace (Z.log2 n) with (52 + e) in Hlo by (unfold e; lia).
    replace (Z.succ (Z.log2 n)) with (53 + e) in Hhi by (unfold e; lia).
    rewrite Z.pow_add_r in Hlo, Hhi by lia.
    unfold q. split.
    - apply Z.div_le_lower_bound; lia.
    - apply Z.div_lt_upper_bound; lia. }
  assert (q' = q \/ q' = q + 1) as Hq' by (unfold q'; case_match; auto).
  destruct (q' * 2 ^ e <? 2 ^ 1024) eqn:Hfin; [|done].
  apply Z.ltb_lt in Hfin. intros [= <-].
  destruct (Z.eq_dec q' (2 ^ 53)) as [Heq|Hne].
  - rewrite Heq in *.
    replace (2 ^ 53 * 2 ^ e) with (2 ^ 52 * 2 ^ (e + 1)) in *
      by (rewrite Z.pow_add_r by lia; lia).
    apply round_double_exact; lia.
  - apply round_double_exact; lia.
Qed.

Lemma round_double_pos n v : 0 < n -> round_double n = Some v -> 0 < v.
Proof.
  intros Hn. unfold round_double.
  destruct (n <? 2 ^ 53) eqn:Hs; [by intros [= <-]|].
  apply Z.ltb_ge in Hs. cbv zeta.
  set (e := Z.log2 n - 52).
  set (q := n / 2 ^ e).
  set (q' := if (2 ^ (e - 1) <? n mod 2 ^ e)
                || ((n mod 2 ^ e =? 2 ^ (e - 1)) && Z.odd q)
             then q + 1 else q).
  assert (53 <= Z.log2 n) as Hlog by (apply Z.log2_le_pow2; lia).
  assert (0 < 2 ^ e) as Hpe by (apply Z.pow_pos_nonneg; unfold e; lia).
  assert (0 <= q) as Hq by (apply Z.div_pos; lia).
  assert (q <= q') as Hq' by (unfold q'; case_match; lia).
  assert (1 <= q).
  { unfold q. apply Z.div_le_lower_bound; [lia|].
    destruct (Z.log2_spec n) as [Hlo _]; [lia|].
    assert (2 ^ e <= 2 ^ Z.log2 n) by (apply Z.pow_le_mono_r; unfold e; lia).
    lia. }
  destruct (q' * 2 ^ e <? 2 ^ 1024); [|done]. intros [= <-]. nia.
Qed.

(** A positive number that [parseInt] gives is read back as itself from
    the JSON text that holds it. *)
Lemma to_number_idem n v : to_number n = Int v -> 0 < v -> to_number v = Int v.
Proof.
  unfold to_number.
  destruct (round_double (Z.abs n)) as [w|] eqn:Hw; [|done].
  intros [= <-] Hpos.
  assert (0 <= w).
  { destruct (Z.eq_dec n 0) as [->|Hn0]; [by injection Hw as <-|].
    apply round_double_pos in Hw; lia. }
  assert (0 < n) as Hn by nia.
  rewrite Z.sgn_pos in * by lia.
  replace (1 * w) with w in * by lia.
  rewrite Z.abs_eq by lia.
  apply round_double_idem in Hw; [|lia].
  rewrite Hw. f_equal. rewrite Z.sgn_pos; lia.
Qed.

Lemma top_digit_pos fuel v : 1 <= v -> 1 <= (top_digit fuel v).1.
Proof.
  revert v. induction fuel as [|fuel IH]; intros v Hv; simpl; [done|].
  destruct (v <? 10) eqn:E; [done|].
  apply Z.ltb_ge in E.
  specialize (IH (v / 10)).
  destruct (top_digit fuel (v / 10)) as [d p]. simpl in *.
  apply IH. apply Z.div_le_lower_bound; lia.
Qed.

Lemma leading_digit_pos v : 1 <= v -> 1 <= leading_digit v.
Proof.
  intros Hv. unfold leading_digit.
  pose proof (top_digit_pos (S (Z.to_nat (Z.log2 v))) v Hv) as Hd.
  destruct (top_digit _ v) as [d p]. simpl in Hd.
  repeat case_match; lia.
Qed.

(** A positive double is read by [parseInt] as a positive number: as
    itself below [10^21]. *)
Lemma parseInt_of_number_pos v :
  0 < v ->
  exists r, parseInt_of_number (Int v) = Int r /\ 0 < r
            /\ (v < 10 ^ 21 -> r = v).
Proof.
  intros Hv. unfold parseInt_of_number.
  rewrite Z.abs_eq, Z.sgn_pos by lia.
  destruct (v <? 10 ^ 21) eqn:E.
  - by exists v.
  - apply Z.ltb_ge in E. eexists. split; [done|].
    pose proof (leading_digit_pos v). split; lia.
Qed.

End Digits.

(** ** The streaming proxy *)

Section StreamingProxy.
Import JS VideoStream.

Lemma strip_prefix_app p s : strip_prefix p (p +:+ s) = Some s.
Proof. induction p as [|a p IH]; simpl; [done|]. by rewrite Ascii.eqb_refl. Qed.

Lemma strip_prefix_inv p s r : strip_prefix p s = Some r -> s = p +:+ r.
Proof.
  revert s. induction p as [|a p IH]; intros s; simpl.
  - by intros [= ->].
  - destruct s as [|b s]; [done|].
    destruct (Ascii.eqb_spec a b) as [->|]; [|done].
    by intros ->%IH.
Qed.

Lemma match_range_form ds de :
  all_digits ds = true -> all_digits de = true ->
  match_range ("bytes=" +:+ ds +:+ "-" +:+ de) = Some (ds, de).
Proof.
  intros Hds Hde. unfold match_range. rewrite strip_prefix_app.
  change ("-" +:+ de) with (String "-"%char de).
  rewrite (span_digits_stop ds "-" de Hds eq_refl). by rewrite Hde.
Qed.

Lemma match_range_inv h m1 m2 :
  match_range h = Some (m1, m2) ->
  h = "bytes=" +:+ m1 +:+ "-" +:+ m2 /\
  all_digits m1 = true /\ all_digits m2 = true.
Proof.
  unfold match_range.
  destruct (strip_prefix "bytes=" h) as [r|] eqn:Hp; [|done].
  destruct (span_digits r) as [d r1] eqn:Hs.
  destruct r1 as [|c m]; [done|].
  destruct (Ascii.eqb_spec c "-") as [->|Hc]; last first.
  { destruct c as [[] [] [] [] [] [] [] []]; done. }
  destruct (all_digits m) eqn:Hm; [|done].
  intros [= <- <-].
  apply span_digits_spec in Hs as (-> & Hd & _).
  split; [|done]. by apply strip_prefix_inv in Hp.
Qed.

(** The handler on a request that reaches the range branch. *)
Lemma handler_ranged e req segments meta h :
  h <> "" ->
  ranged_request e req segments meta h ->
  handler e req = serve_range e req (join "/" segments) meta h.
Proof.
  intros Hne (Hm & Ha & Hc & Hs & Hk & Hr & Hh & _).
  unfold handler. rewrite Ha, Hc, Hk, Hr, Hh. simpl.
  assert (negb (String.eqb (method req) "GET")
          && negb (String.eqb (method req) "HEAD") = false) as ->.
  { by destruct Hm as [-> | ->]. }
  destruct segments; [done|].
  by apply String.eqb_neq in Hne as ->.
Qed.

Lemma serve_range_ok e req k meta h m1 m2 start end_ :
  match_range h = Some (m1, m2) ->
  parse_range (ContentLength meta) m1 m2 = Some (start, end_) ->
  start < ContentLength meta -> end_ < ContentLength meta ->
  (forall a b, get_object_range e k a b = true) ->
  serve_range e req k meta h =
    PartialContent (content_type_of meta k) (end_ - start + 1)
      ("bytes " +:+ pretty start +:+ "-" +:+ pretty end_ +:+ "/"
         +:+ pretty (ContentLength meta))
      start end_ (negb (String.eqb (method req) "HEAD")).
Proof.
  intros Hm Hp Hs He Hg. unfold serve_range. rewrite Hm, Hp, Hg.
  assert ((start >=? ContentLength meta) || (end_ >=? ContentLength meta) = false)
    as ->; [|done].
  rewrite !Z.geb_leb. apply orb_false_intro; apply Z.leb_gt; lia.
Qed.

Lemma serve_range_416 e req k meta h m1 m2 start end_ :
  match_range h = Some (m1, m2) ->
  parse_range (ContentLength meta) m1 m2 = Some (start, end_) ->
  ContentLength meta <= start \/ ContentLength meta <= end_ ->
  serve_range e req k meta h = unsatisfiable (ContentLength meta).
Proof.
  intros Hm Hp Hs. unfold serve_range. rewrite Hm, Hp.
  assert ((start >=? ContentLength meta) || (end_ >=? ContentLength meta) = true)
    as ->; [|done].
  rewrite !Z.geb_leb. apply orb_true_iff. rewrite !Z.leb_le. lia.
Qed.

Lemma nonempty_eqb s : s <> "" -> String.eqb s "" = false.
Proof. by intros ?%String.eqb_neq. Qed.

(** C2: a closed range [bytes=start-end] inside the object is answered with
    206, [Content-Range: bytes start-end/totalSize] and
    [Content-Length: end-start+1]; the bytes [start..end] are fetched. *)
Theorem closed_range_partial_content e req segments meta ds de start end_ :
  all_digits ds = true -> ds <> "" ->
  all_digits de = true -> de <> "" ->
  decimal ds = start -> decimal de = end_ ->
  ranged_request e req segments meta ("bytes=" +:+ ds +:+ "-" +:+ de) ->
  start <= end_ < ContentLength meta ->
  handler e req =
    PartialContent (content_type_of meta (join "/" segments))
      (end_ - start + 1)
      ("bytes " +:+ pretty start +:+ "-" +:+ pretty end_ +:+ "/"
         +:+ pretty (ContentLength meta))
      start end_ (negb (String.eqb (method req) "HEAD"))
  /\ status (handler e req) = 206.
Proof.
  intros Hds Hds0 Hde Hde0 Hs He Hreq Hb.
  assert ("bytes=" +:+ ds +:+ "-" +:+ de <> "") as Hne by done.
  rewrite (handler_ranged _ _ _ _ _ Hne Hreq).
  destruct Hreq as (_ & _ & _ & _ & _ & _ & _ & Hg).
  erewrite serve_range_ok; [done|by apply match_range_form| |lia|lia|done].
  unfold parse_range. rewrite !nonempty_eqb by done. simpl. by subst.
Qed.

Lemma closed_range_partial_content_witness :
  handler (one_object 10) (get_with_range "bytes=2-5") =
    PartialContent "video/mp4" 4 "bytes 2-5/10" 2 5 true
  /\ status (handler (one_object 10) (get_with_range "bytes=2-5")) = 206.
Proof.
  apply (closed_range_partial_content (one_object 10)
           (get_with_range "bytes=2-5") ["videos"; "a.mp4"]
           {| ContentLength := 10; ContentType := Some "video/mp4" |}
           "2" "5" 2 5); try reflexivity; try discriminate.
  - unfold ranged_request. simpl. repeat split; auto; discriminate.
  - simpl. lia.
Defined.

(** C3, as stated, fails for [N = 0]: [bytes=-0] is answered 416, not 206
    with an empty body. *)
Lemma suffix_zero_not_partial :
  handler (one_object 10) (get_with_range "bytes=-0") =
    RangeNotSatisfiable "bytes */10"
  /\ status (handler (one_object 10) (get_with_range "bytes=-0")) <> 206.
Proof. split; [reflexivity | discriminate]. Qed.

(** C3 (amended): a suffix range [bytes=-N] with [N >= 1] on an object of
    [totalSize >= 1] bytes is answered with 206 and the last
    [min(N, totalSize)] bytes: [start = max(0, totalSize - N)],
    [end = totalSize - 1]; with [N = 0] or on an empty object it is
    answered with 416 and [Content-Range: bytes */totalSize]. *)
Theorem suffix_range_last_bytes e req segments meta dn N :
  all_digits dn = true -> dn <> "" -> decimal dn = N ->
  ranged_request e req segments meta ("bytes=-" +:+ dn) ->
  0 <= ContentLength meta ->
  let totalSize := ContentLength meta in
  let start := Z.max 0 (totalSize - N) in
  let end_ := totalSize - 1 in
  (1 <= N -> 1 <= totalSize ->
     handler e req =
       PartialContent (content_type_of meta (join "/" segments))
         (Z.min N totalSize)
         ("bytes " +:+ pretty start +:+ "-" +:+ pretty end_ +:+ "/"
            +:+ pretty totalSize)
         start end_ (negb (String.eqb (method req) "HEAD"))
     /\ status (handler e req) = 206
     /\ end_ - start + 1 = Z.min N totalSize)
  /\ (N = 0 \/ totalSize = 0 ->
     handler e req = RangeNotSatisfiable ("bytes */" +:+ pretty totalSize)).
Proof.
  intros Hdn Hdn0 HN Hreq Hsz totalSize start end_.
  assert ("bytes=-" +:+ dn <> "") as Hne by done.
  rewrite (handler_ranged _ _ _ _ _ Hne Hreq).
  destruct Hreq as (_ & _ & _ & _ & _ & _ & _ & Hg).
  assert (match_range ("bytes=-" +:+ dn) = Some ("", dn)) as Hm.
  { by apply (match_range_form "" dn). }
  assert (parse_range totalSize "" dn = Some (start, end_)) as Hp.
  { unfold parse_range. rewrite (nonempty_eqb dn) by done. simpl. by subst. }
  split.
  - intros HN1 Hsz1.
    erewrite serve_range_ok; [|exact Hm|exact Hp|unfold start; lia
                              |unfold end_; lia|done].
    replace (end_ - start + 1) with (Z.min N totalSize)
      by (unfold start, end_; lia).
    done.
  - intros H0.
    erewrite serve_range_416; [done|exact Hm|exact Hp|].
    left. fold totalSize. unfold start. lia.
Qed.

Lemma suffix_range_last_bytes_witness :
  handler (one_object 10) (get_with_range "bytes=-3") =
    PartialContent "video/mp4" 3 "bytes 7-9/10" 7 9 true
  /\ handler (one_object 10) (get_with_range "bytes=-30") =
    PartialContent "video/mp4" 10 "bytes 0-9/10" 0 9 true.
Proof.
  split.
  - refine (proj1 (proj1 (suffix_range_last_bytes (one_object 10)
             (get_with_range "bytes=-3") ["videos"; "a.mp4"]
             {| ContentLength := 10; ContentType := Some "video/mp4" |}
             "3" 3 _ _ _ _ _) _ _)); simpl;
      try reflexivity; try discriminate; try lia.
    unfold ranged_request. simpl. repeat split; auto; discriminate.
  - refine (proj1 (proj1 (suffix_range_last_bytes (one_object 10)
             (get_with_range "bytes=-30") ["videos"; "a.mp4"]
             {| ContentLength := 10; ContentType := Some "video/mp4" |}
             "30" 30 _ _ _ _ _) _ _)); simpl;
      try reflexivity; try discriminate; try lia.
    unfold ranged_request. simpl. repeat split; auto; discriminate.
Defined.

(** C4: what the handler does on a parseable [bytes=start-end] whose end is
    at or beyond the size of the object: it answers 416 with
    [Content-Range: bytes */totalSize], also when [start < totalSize]; the
    end is not clamped to [totalSize - 1]. *)
Theorem end_beyond_size_is_416 e req segments meta ds de start end_ :
  all_digits ds = true -> ds <> "" ->
  all_digits de = true -> de <> "" ->
  decimal ds = start -> decimal de = end_ ->
  ranged_request e req segments meta ("bytes=" +:+ ds +:+ "-" +:+ de) ->
  start < ContentLength meta <= end_ ->
  handler e req = RangeNotSatisfiable ("bytes */" +:+ pretty (ContentLength meta))
  /\ status (handler e req) = 416.
Proof.
  intros Hds Hds0 Hde Hde0 Hs He Hreq Hb.
  assert ("bytes=" +:+ ds +:+ "-" +:+ de <> "") as Hne by done.
  rewrite (handler_ranged _ _ _ _ _ Hne Hreq).
  erewrite serve_range_416 with (start := start) (end_ := end_);
    [done|by apply match_range_form| |lia].
  unfold parse_range. rewrite !nonempty_eqb by done. simpl. by subst.
Qed.

Lemma end_beyond_size_is_416_witness :
  handler (one_object 10) (get_with_range "bytes=0-10") =
    RangeNotSatisfiable "bytes */10"
  /\ status (handler (one_object 10) (get_with_range "bytes=0-10")) = 416.
Proof.
  apply (end_beyond_size_is_416 (one_object 10)
           (get_with_range "bytes=0-10") ["videos"; "a.mp4"]
           {| ContentLength := 10; ContentType := Some "video/mp4" |}
           "0" "10" 0 10); try reflexivity; try discriminate.
  - unfold ranged_request. simpl. repeat split; auto; discriminate.
  - simpl. lia.
Defined.

(** When the range branch answers 416: the header does not match the
    pattern, or it is [bytes=-], or the computed start or end is at or
    beyond the size of the object. *)
Lemma serve_range_416_iff e req k meta h :
  (forall a b, get_object_range e k a b = true) ->
  status (serve_range e req k meta h) = 416 <->
  match match_range h with
  | None => True
  | Some (m1, m2) =>
      match parse_range (ContentLength meta) m1 m2 with
      | None => True
      | Some (start, end_) =>
          ContentLength meta <= start \/ ContentLength meta <= end_
      end
  end.
Proof.
  intros Hg. unfold serve_range.
  destruct (match_range h) as [[m1 m2]|]; [|done].
  destruct (parse_range _ m1 m2) as [[start end_]|]; [|done].
  rewrite Hg, !Z.geb_leb.
  destruct (ContentLength meta <=? start)%Z eqn:E1;
    destruct (ContentLength meta <=? end_)%Z eqn:E2; simpl;
    rewrite ?Z.leb_le, ?Z.leb_gt in *; split; try done; try lia; auto.
Qed.

(** C10: an open-ended range [bytes=start-] with [start < totalSize] is
    answered with 206 for the chunk that ends at
    [min(start + 5 MiB - 1, totalSize - 1)]: at most 5 MiB, and short of the
    end of the object whenever more than 5 MiB remain. *)
Theorem open_range_chunk e req segments meta ds start :
  all_digits ds = true -> ds <> "" -> decimal ds = start ->
  ranged_request e req segments meta ("bytes=" +:+ ds +:+ "-") ->
  start < ContentLength meta ->
  let totalSize := ContentLength meta in
  let end_ := Z.min (start + 5 * 1024 * 1024 - 1) (totalSize - 1) in
  handler e req =
    PartialContent (content_type_of meta (join "/" segments))
      (end_ - start + 1)
      ("bytes " +:+ pretty start +:+ "-" +:+ pretty end_ +:+ "/"
         +:+ pretty totalSize)
      start end_ (negb (String.eqb (method req) "HEAD"))
  /\ 1 <= end_ - start + 1 <= 5 * 1024 * 1024
  /\ (5 * 1024 * 1024 < totalSize - start -> end_ < totalSize - 1).
Proof.
  intros Hds Hds0 Hs Hreq Hb totalSize end_.
  assert ("bytes=" +:+ ds +:+ "-" <> "") as Hne by done.
  rewrite (handler_ranged _ _ _ _ _ Hne Hreq).
  destruct Hreq as (_ & _ & _ & _ & _ & _ & _ & Hg).
  pose proof (decimal_nonneg ds Hds) as H0.
  split; [|unfold end_, totalSize; lia].
  erewrite serve_range_ok with (start := start) (end_ := end_);
    [done|by apply (match_range_form ds "")| |lia|unfold end_, totalSize; lia|done].
  unfold parse_range. rewrite (nonempty_eqb ds) by done. simpl. by subst.
Qed.

Lemma open_range_chunk_witness :
  handler (one_object 6000000) (get_with_range "bytes=100-") =
    PartialContent "video/mp4" 5242880 "bytes 100-5242979/6000000"
      100 5242979 true.
Proof.
  refine (proj1 (open_range_chunk (one_object 6000000)
           (get_with_range "bytes=100-") ["videos"; "a.mp4"]
           {| ContentLength := 6000000; ContentType := Some "video/mp4" |}
           "100" 100 _ _ _ _ _)); simpl;
    try reflexivity; try discriminate; try lia.
  unfold ranged_request. simpl. repeat split; auto; discriminate.
Defined.

End StreamingProxy.

(** ** Minting an object key *)

Section KeyMinting.
Import KeyMint.

Local Abbreviation chars_ok s := (Forall (fun c => key_char c = true) (units s)).

Lemma units_app a b : units (a +:+ b) = units a ++ units b.
Proof.
  unfold units. induction a as [|c a IH]; simpl; [done|].
  f_equal. exact IH.
Qed.

Lemma pretty_N_char_ok x : key_char (N_of_ascii (pretty_N_char x)) = true.
Proof. unfold pretty_N_char. by repeat case_match. Qed.

Lemma pretty_N_go_ok x s : chars_ok s -> chars_ok (pretty_N_go x s).
Proof.
  revert s. induction (N.lt_wf_0 x) as [x _ IH]; intros s Hs.
  assert (x = 0 \/ 0 < x)%N as [->|Hx] by lia.
  - by rewrite pretty_N_go_0.
  - rewrite pretty_N_go_step by done. apply IH.
    + by apply N.div_lt.
    + apply Forall_cons; auto using pretty_N_char_ok.
Qed.

Lemma pretty_N_ok (x : N) : chars_ok (pretty x).
Proof.
  unfold pretty, pretty_N. case_decide.
  - repeat constructor.
  - apply pretty_N_go_ok. constructor.
Qed.

Lemma pretty_Z_ok (z : Z) : chars_ok (pretty z).
Proof.
  destruct z as [|p|p]; unfold pretty, pretty_Z.
  - repeat constructor.
  - apply (pretty_N_ok (Npos p)).
  - rewrite units_app. apply Forall_app. split; [repeat constructor|].
    apply (pretty_N_ok (Npos p)).
Qed.

Lemma base36_ok c : base36 c = true -> key_char (N_of_ascii c) = true.
Proof.
  unfold base36, key_char, allowed.
  intros [->| ->]%orb_prop; simpl; by rewrite ?orb_true_r.
Qed.

Lemma substring_ok P n m s :
  Forall P (String.list_ascii_of_string s) ->
  Forall P (String.list_ascii_of_string (String.substring n m s)).
Proof.
  revert n m. induction s as [|c s IH]; intros n m Hs.
  - destruct n, m; simpl; constructor.
  - apply Forall_cons in Hs as [Hc Hs].
    destruct n, m; simpl; auto; constructor; auto.
Qed.

Lemma randomStr_ok r :
  radix36_fraction r -> chars_ok (String.substring 2 8 r).
Proof.
  intros [->|(ds & -> & Hds)]; [constructor|].
  change (String.substring 2 8 ("0." +:+ ds)) with (String.substring 0 8 ds).
  unfold units. apply Forall_fmap.
  eapply Forall_impl; [by apply substring_ok|].
  simpl. auto using base36_ok.
Qed.

Lemma sanitize_lookup fileName i :
  sanitize fileName !! i =
    (fun c => if allowed c then c else 95%N) <$> (fileName !! i).
Proof. unfold sanitize. apply list_lookup_fmap. Qed.

Lemma sanitize_allowed fileName :
  Forall (fun c => allowed c = true) (sanitize fileName).
Proof.
  unfold sanitize. apply Forall_fmap, Forall_forall. intros c _. simpl.
  by destruct (allowed c) eqn:E.
Qed.

(** C9: on an accepted request the endpoint answers with the key
    [videos/<timestamp>_<randomSuffix>_<sanitized fileName>], where the
    sanitized name has the length of [fileName], keeps every code unit of
    [a-zA-Z0-9._-] and has [_] in place of every other one; every code
    unit of the key is in [a-zA-Z0-9._/-] and the key starts with
    [videos/]. *)
Theorem minted_key_shape e req name ctype signedUrl :
  method req = "POST" -> config_ok e = true ->
  fileName req = Some name -> name <> [] ->
  contentType req = Some ctype -> ctype <> "" ->
  radix36_fraction (Math_random_36 e) ->
  getSignedUrl e (mint_key (Date_now e) (Math_random_36 e) name) = Some signedUrl ->
  let key :=
    units "videos/" ++ units (pretty (Date_now e)) ++ units "_"
      ++ units (String.substring 2 8 (Math_random_36 e)) ++ units "_"
      ++ sanitize name in
  handler e req = Minted signedUrl key
  /\ length (sanitize name) = length name
  /\ (forall i c, name !! i = Some c ->
        sanitize name !! i = Some (if allowed c then c else 95%N))
  /\ Forall (fun c => key_char c = true) key
  /\ units "videos/" `prefix_of` key.
Proof.
  intros Hm Hc Hf Hn Hct Hcn Hr Hs key.
  split; [|split; [|split; [|split]]].
  - unfold handler. rewrite Hm, Hc, Hf, Hct. simpl.
    rewrite bool_decide_eq_false_2 by done.
    apply String.eqb_neq in Hcn as ->. simpl.
    fold (mint_key (Date_now e) (Math_random_36 e) name) in key.
    by rewrite Hs.
  - unfold sanitize. by rewrite length_fmap.
  - intros i c Hi. by rewrite sanitize_lookup, Hi.
  - unfold key. repeat (apply Forall_app; split).
    + repeat constructor.
    + apply pretty_Z_ok.
    + repeat constructor.
    + by apply randomStr_ok.
    + repeat constructor.
    + eapply Forall_impl; [apply sanitize_allowed|].
      simpl. intros c Hc'. unfold key_char. by rewrite Hc'.
  - by eexists.
Qed.

Lemma minted_key_shape_witness :
  handler sample_env sample_request =
    Minted "https://signed"
      (units "videos/1700000000000_k3x9q0zr_my_video__1_.mp4").
Proof.
  refine (proj1 (minted_key_shape sample_env sample_request
            (units "my video (1).mp4") "video/mp4" "https://signed"
            _ _ _ _ _ _ _ _)); try reflexivity; try discriminate.
  right. exists "k3x9q0zr1ab". split; [reflexivity|].
  repeat constructor.
Defined.

End KeyMinting.

(** ** Device administration *)

Section DeviceAdministration.
Import JS Store Devices.

Lemma updateOne_Forall2 {A} (R : A -> A -> Prop) sel f (l : list A) :
  (forall x, R x x) -> (forall x, sel x = true -> R x (f x)) ->
  Forall2 R l (updateOne sel f l).
Proof.
  intros Hrefl Hf. induction l as [|x l IH]; simpl; [constructor|].
  destruct (sel x) eqn:E.
  - constructor; [by apply Hf|]. by apply Forall_Forall2_diag, Forall_forall.
  - by constructor.
Qed.

Lemma updateOne_first {A} sel f (l1 l2 : list A) x :
  Forall (fun y => sel y = false) l1 -> sel x = true ->
  updateOne sel f (l1 ++ x :: l2) = l1 ++ f x :: l2.
Proof.
  intros H1 Hx. induction H1 as [|y l1 Hy _ IH]; simpl.
  - by rewrite Hx.
  - by rewrite Hy, IH.
Qed.

Lemma updateOne_none {A} sel f (l : list A) :
  Forall (fun y => sel y = false) l -> updateOne sel f l = l.
Proof.
  induction 1 as [|y l Hy _ IH]; simpl; [done|]. by rewrite Hy, IH.
Qed.

Lemma set_allowed_devices_frame allowed u :
  same_but_allowed u (set_allowed_devices allowed u)
  /\ (device_limitations (set_allowed_devices allowed u) ≫= allowed_devices)
     = Some allowed.
Proof.
  unfold same_but_allowed, set_allowed_devices, devices_of.
  destruct u as [? ? ? ? ? ? [dl|]]; simpl; repeat split; done.
Qed.

Lemma accepted_allowed_positive v allowed :
  accepted_allowed v = Some allowed -> 0 < allowed.
Proof.
  unfold accepted_allowed. destruct (parseInt_scalar v) as [| |a]; [done..|].
  destruct (a <=? 0) eqn:E; [done|]. intros [= <-]. by apply Z.leb_gt.
Qed.

Lemma gate_not_success e r : gate e = Some r -> r <> Success.
Proof.
  unfold gate. destruct (device_limitations_enabled e); simpl; [|by intros [= <-]].
  destruct (authMiddleware e) as [| |role]; try by intros [= <-].
  destruct (may_administer role); [done|by intros [= <-]].
Qed.

Lemma patched_refl allowed d : patched allowed d d.
Proof.
  repeat split; try done.
  apply Forall_Forall2_diag, Forall_forall. auto.
Qed.

Lemma patched_update sel v allowed d :
  accepted_allowed v = Some allowed ->
  patched (accepted_allowed v) d
    (with_users d (updateOne sel (set_allowed_devices allowed) (users d))).
Proof.
  intros Hv. repeat split; try done. simpl.
  apply updateOne_Forall2; [auto|]. intros u _. right.
  destruct (set_allowed_devices_frame allowed u) as [H1 H2].
  split; [done|]. exists allowed.
  eauto using accepted_allowed_positive.
Qed.

(** C7: a [PATCH] on either device endpoint leaves every user's device
    list as it is, whatever its length; a user is either untouched or has
    only [allowed_devices] written, with the accepted positive value.  On
    an accepted request the first user the filter selects gets it: on the
    students endpoint the student whose id is the number read in [id], on
    the assistants endpoint the assistant or admin the query on [id]
    matches. *)
Theorem patch_allowed_devices_keeps_devices e d req :
  method req = PATCH ->
  let allowed := accepted_allowed (req_allowed_devices req) in
  (patched allowed d (Students.handler e d req).2
   /\ devices_of <$> users (Students.handler e d req).2 = devices_of <$> users d
   /\ ((Students.handler e d req).1 = Success ->
       exists a, allowed = Some a /\
         users (Students.handler e d req).2 =
           updateOne (Students.is_student (parseInt_scalar (req_id req)))
             (set_allowed_devices a) (users d)))
  /\
  (patched allowed d (Assistants.handler e d req).2
   /\ devices_of <$> users (Assistants.handler e d req).2 = devices_of <$> users d
   /\ ((Assistants.handler e d req).1 = Success ->
       exists rawId a, req_id req = Some rawId /\ allowed = Some a /\
         users (Assistants.handler e d req).2 =
           updateOne (Assistants.is_assistant (Assistants.idQuery rawId))
             (set_allowed_devices a) (users d))).
Proof.
  intros Hm allowed. subst allowed.
  assert (forall allowed d', patched allowed d d' ->
            devices_of <$> users d' = devices_of <$> users d) as Hdev.
  { intros allowed d' (_ & _ & HF). induction HF as [|u u' l l' Hu _ IH]; [done|].
    rewrite !fmap_cons, IH. f_equal.
    destruct Hu as [->|[(_ & _ & _ & _ & _ & _ & H & _) _]]; done. }
  split.
  - assert (patched (accepted_allowed (req_allowed_devices req)) d
              (Students.handler e d req).2) as Hp.
    { unfold Students.handler. rewrite Hm.
      destruct (gate e); [apply patched_refl|].
      destruct (parseInt_scalar (req_id req)) as [|neg|[|n|n]];
        try apply patched_refl;
        (destruct (accepted_allowed (req_allowed_devices req)) as [a|] eqn:Ha;
         [rewrite <- Ha; by apply patched_update | apply patched_refl]). }
    split; [done|]. split; [by eapply Hdev|].
    unfold Students.handler. rewrite Hm.
    destruct (gate e) eqn:Hg; [by apply gate_not_success in Hg|].
    destruct (parseInt_scalar (req_id req)) as [|neg|[|n|n]]; try done;
      (destruct (accepted_allowed (req_allowed_devices req)) as [a|]; [|done];
       intros _; eauto).
  - assert (patched (accepted_allowed (req_allowed_devices req)) d
              (Assistants.handler e d req).2) as Hp.
    { unfold Assistants.handler. rewrite Hm.
      destruct (gate e); [apply patched_refl|].
      destruct (req_id req) as [rawId|]; [|apply patched_refl].
      destruct (falsy (Some rawId)); [apply patched_refl|].
      destruct (accepted_allowed (req_allowed_devices req)) as [a|] eqn:Ha;
        [rewrite <- Ha; by apply patched_update | apply patched_refl]. }
    split; [done|]. split; [by eapply Hdev|].
    unfold Assistants.handler. rewrite Hm.
    destruct (gate e) eqn:Hg; [by apply gate_not_success in Hg|].
    destruct (req_id req) as [rawId|]; [|done].
    destruct (falsy (Some rawId)); [done|].
    destruct (accepted_allowed (req_allowed_devices req)) as [a|]; [|done].
    intros _; eauto.
Qed.

Lemma patch_allowed_devices_keeps_devices_witness :
  let d := Samples.store_of
             [Samples.account 1 12 "student" 2
                [Samples.device_of "A" "t1"; Samples.device_of "B" "t2"]] None in
  let d' := (Students.handler Samples.admin_env d (Samples.patch_request 12 1)).2 in
  let req := {| method := PATCH; req_id := Some (Str "12");
                req_allowed_devices := Some (Str "9007199254740993");
                req_device_id := None |} in
  let d'' := (Students.handler Samples.admin_env d req).2 in
  (devices_of <$> users d' = devices_of <$> users d
   /\ (fun u => device_limitations u ≫= allowed_devices) <$> users d' = [Some 1])
  /\ (devices_of <$> users d'' = devices_of <$> users d
      /\ (fun u => device_limitations u ≫= allowed_devices) <$> users d''
         = [Some 9007199254740992]).
Proof.
  intros d d' req d''. split; (split; [|reflexivity]).
  - exact (proj1 (proj2 (proj1
      (patch_allowed_devices_keeps_devices Samples.admin_env d
         (Samples.patch_request 12 1) eq_refl)))).
  - exact (proj1 (proj2 (proj1
      (patch_allowed_devices_keeps_devices Samples.admin_env d req eq_refl)))).
Defined.

Lemma first_match {A} (sel : A -> bool) (l : list A) :
  Forall (fun y => sel y = false) l \/
  exists l1 x l2, l = l1 ++ x :: l2 /\
    Forall (fun y => sel y = false) l1 /\ sel x = true.
Proof.
  induction l as [|x l IH]; [by left|].
  destruct (sel x) eqn:E.
  - right. by exists [], x, l.
  - destruct IH as [IH|(l1 & y & l2 & -> & H1 & Hy)].
    + left. by constructor.
    + right. exists (x :: l1), y, l2. repeat split; auto.
Qed.

Lemma filter_out_none {A} (p : A -> bool) (l : list A) :
  Forall (fun o => p o = false) l -> List.filter (fun o => negb (p o)) l = l.
Proof.
  induction 1 as [|o l Ho _ IH]; simpl; [done|]. by rewrite Ho, IH.
Qed.

Lemma filter_out_one {A} (p : A -> bool) (l1 l2 : list A) x :
  p x = true ->
  Forall (fun o => p o = false) l1 -> Forall (fun o => p o = false) l2 ->
  List.filter (fun o => negb (p o)) (l1 ++ x :: l2) = l1 ++ l2.
Proof.
  intros Hx H1 H2. rewrite List.filter_app. simpl. rewrite Hx. simpl.
  by rewrite !filter_out_none.
Qed.

Lemma pull_device_devices x u :
  devices_of (pull_device x u)
  = List.filter (fun d => negb (has_device_id x d)) (devices_of u).
Proof.
  unfold pull_device, devices_of.
  destruct (device_limitations u) as [[a l [ds|]]|] eqn:E; simpl; by rewrite ?E.
Qed.

Lemma pull_device_frame x u :
  same_but_devices u (pull_device x u)
  /\ (device_limitations (pull_device x u) ≫= last_login)
     = (device_limitations u ≫= last_login).
Proof.
  unfold same_but_devices, pull_device.
  destruct (device_limitations u) as [[a l [ds|]]|] eqn:E; simpl;
    rewrite ?E; repeat split; done.
Qed.

Lemma pull_device_absent x u :
  Forall (fun dev => has_device_id x dev = false) (devices_of u) ->
  pull_device x u = u.
Proof.
  unfold pull_device, devices_of.
  destruct u as [? ? ? ? ? ? [[a l [ds|]]|]]; simpl; try done.
  intros H. unfold with_limitations. simpl. by rewrite filter_out_none.
Qed.

Lemma with_users_same d : with_users d (users d) = d.
Proof. by destruct d. Qed.

Lemma pull_deleted (sel : user -> Prop) (filter : user -> bool) x d :
  (forall u, filter u = true <-> sel u) ->
  deleted sel x d (with_users d (updateOne filter (pull_device x) (users d))).
Proof.
  intros Hsel.
  assert (forall l, Forall (fun v => ~ sel v) l ->
                    Forall (fun v => filter v = false) l) as Hnot.
  { intros l H. eapply Forall_impl; [exact H|]. intros v Hv.
    destruct (filter v) eqn:E; [|done]. by apply Hsel in E. }
  assert (forall l, Forall (fun v => filter v = false) l ->
                    Forall (fun v => ~ sel v) l) as Hnot'.
  { intros l H. eapply Forall_impl; [exact H|].
    intros v Hv Hs. apply Hsel in Hs. congruence. }
  split; [done|]. split; [done|]. split.
  - intros Habs.
    destruct (first_match filter (users d)) as [Hn|(l1 & u & l2 & E & H1 & Hu)].
    + by rewrite updateOne_none, with_users_same.
    + rewrite E at 1. rewrite updateOne_first by done.
      rewrite pull_device_absent; [by rewrite <- E, with_users_same|].
      eapply Habs; [exact E|by apply Hnot'|by apply Hsel].
  - intros us1 u us2 E H1 Hu. exists (pull_device x u).
    destruct (pull_device_frame x u) as [Hf Hl].
    simpl. rewrite E, updateOne_first by (by apply Hnot || by apply Hsel).
    split; [done|]. split; [exact Hf|]. split; [exact Hl|]. split.
    + intros dev.
      rewrite pull_device_devices, !list_elem_of_In, List.filter_In.
      by rewrite negb_true_iff.
    + intros l1 dev l2 El Hdev Hl1 Hl2.
      rewrite pull_device_devices, El. by apply filter_out_one.
Qed.

(** The users the filter of the students endpoint selects. *)
Lemma is_student_selects n u :
  Students.is_student (Int n) u = true <-> id u = Num n /\ role u = "student".
Proof.
  unfold Students.is_student.
  by rewrite andb_true_iff, bool_decide_eq_true, String.eqb_eq.
Qed.

Lemma as_id_elem v x : x ∈ Assistants.as_id v <-> exists m, v = Int m /\ x = Num m.
Proof.
  destruct v as [|neg|n]; simpl.
  - split; [by intros ?%elem_of_nil|by intros (m & ? & _)].
  - split; [by intros ?%elem_of_nil|by intros (m & ? & _)].
  - rewrite list_elem_of_singleton. split; [intros ->; by exists n|].
    by intros (m & [= ->] & ->).
Qed.

(** The users the query of the assistants endpoint selects. *)
Lemma is_assistant_selects rawId u :
  Assistants.is_assistant (Assistants.idQuery rawId) u = true
  <-> names rawId (id u) /\ role u ∈ ["assistant"; "admin"].
Proof.
  unfold Assistants.is_assistant.
  rewrite andb_true_iff, !bool_decide_eq_true.
  assert (id u ∈ Assistants.idQuery rawId <-> names rawId (id u)) as ->; [|done].
  unfold Assistants.idQuery, names.
  destruct rawId as [n|s], (id u) as [m|t].
  - rewrite as_id_elem. split; [by intros (k & -> & [= ->])|intros ->; by exists m].
  - rewrite as_id_elem. split; [by intros (k & _ & ?)|done].
  - destruct (numeric _).
    + rewrite elem_of_app, as_id_elem, list_elem_of_singleton.
      split; [by intros [(k & -> & [= ->])|?]|intros [_ ->]; left; by exists m].
    + rewrite list_elem_of_singleton. split; [done|by intros [? _]].
  - destruct (numeric _).
    + rewrite elem_of_app, as_id_elem, list_elem_of_singleton.
      split; [by intros [(k & _ & ?)|[= ->]]|intros ->; by right].
    + rewrite list_elem_of_singleton. split; [by intros [= ->]|by intros ->].
Qed.

(** C8: a [DELETE] with a valid user id and a device id answers
    [{ success: true }]; when the user's list has no record with that
    device id the store is unchanged, and otherwise the user's list loses
    exactly the record with that id, all other fields and all other
    records staying as they are.  The user is the first student whose id
    is the number read in [id] on the students endpoint, and the first
    assistant or admin that [id] names on the assistants endpoint. *)
Theorem delete_device_removes_that_record e d req x :
  method req = DELETE ->
  gate e = None ->
  req_device_id req = Some x -> x <> "" ->
  (forall numericId,
      parseInt_scalar (req_id req) = Int numericId -> numericId <> 0 ->
      (Students.handler e d req).1 = Success
      /\ deleted (fun u => id u = Num numericId /\ role u = "student") x d
           (Students.handler e d req).2)
  /\
  (forall rawId,
      req_id req = Some rawId -> falsy (Some rawId) = false ->
      (Assistants.handler e d req).1 = Success
      /\ deleted (fun u => names rawId (id u) /\ role u ∈ ["assistant"; "admin"])
           x d (Assistants.handler e d req).2).
Proof.
  intros Hm Hg Hx Hne. apply String.eqb_neq in Hne. split.
  - intros n Hn Hn0. unfold Students.handler.
    rewrite Hm, Hg, Hn, Hx, Hne.
    destruct n; [done| |]; (split; [done|]);
      apply pull_deleted, is_student_selects.
  - intros rawId Hid Hf. unfold Assistants.handler.
    rewrite Hm, Hg, Hid, Hx, Hf, Hne. simpl.
    split; [done|]. apply pull_deleted, is_assistant_selects.
Qed.

Lemma delete_device_removes_that_record_witness :
  let devs := [Samples.device_of "A" "t1"; Samples.device_of "B" "t2"] in
  let student := Samples.account 1 12 "student" 2 devs in
  let assistant := Samples.account 2 7 "assistant" 2 devs in
  let d := Samples.store_of [student; assistant] None in
  let r := Students.handler Samples.admin_env d (Samples.delete_request "12" "A") in
  let r' := Assistants.handler Samples.admin_env d (Samples.delete_request " 7" "B") in
  (r.1 = Success
   /\ exists u', users r.2 = [u'; assistant]
                 /\ devices_of u' = [Samples.device_of "B" "t2"])
  /\ (r'.1 = Success
      /\ exists u', users r'.2 = [student; u']
                    /\ devices_of u' = [Samples.device_of "A" "t1"]).
Proof.
  intros devs student assistant d r r'.
  assert ("A" <> "") as HA by discriminate.
  assert ("B" <> "") as HB by discriminate.
  assert ((12 : Z) <> 0) as H12 by discriminate.
  split.
  - destruct (proj1 (delete_device_removes_that_record Samples.admin_env d
                       (Samples.delete_request "12" "A") "A"
                       eq_refl eq_refl eq_refl HA)
                12 eq_refl H12) as [Hs (_ & _ & _ & Hpresent)].
    split; [exact Hs|].
    destruct (Hpresent [] student [assistant] eq_refl (Forall_nil_2 _))
      as (u' & Hu & _ & _ & _ & Hone); [by split|].
    exists u'. split; [exact Hu|].
    apply (Hone [] (Samples.device_of "A" "t1") [Samples.device_of "B" "t2"]);
      [reflexivity | reflexivity | constructor | repeat constructor].
  - destruct (proj2 (delete_device_removes_that_record Samples.admin_env d
                       (Samples.delete_request " 7" "B") "B"
                       eq_refl eq_refl eq_refl HB)
                (Str " 7") eq_refl eq_refl) as [Hs (_ & _ & _ & Hpresent)].
    split; [exact Hs|].
    destruct (Hpresent [student] assistant [] eq_refl)
      as (u' & Hu & _ & _ & _ & Hone).
    { repeat constructor. intros [_ Hrole]. simpl in Hrole.
      apply elem_of_cons in Hrole as [?|Hrole]; [done|].
      apply elem_of_cons in Hrole as [?|Hrole]; [done|].
      by apply elem_of_nil in Hrole. }
    { split; [by split|]. simpl. by left. }
    exists u'. split; [exact Hu|].
    apply (Hone [Samples.device_of "A" "t1"] (Samples.device_of "B" "t2") []);
      [reflexivity | reflexivity | repeat constructor | constructor].
Defined.

End DeviceAdministration.

(** ** Login and the device limitations block *)

Section LoginDevices.
Import Store Login.

Lemma findIndex_None {A} (p : A -> bool) l :
  findIndex p l = None <-> Forall (fun x => p x = false) l.
Proof.
  induction l as [|x l IH]; simpl; [by split|].
  destruct (p x) eqn:E.
  - split; [done|]. intros [? _]%Forall_cons. congruence.
  - rewrite fmap_None, IH. split; [by constructor|].
    by intros [_ ?]%Forall_cons.
Qed.



Lemma findOne_id_elem x us u : findOne_id x us = Some u -> u ∈ us.
Proof.
  unfold findOne_id. intros [H _]%List.find_some. by apply list_elem_of_In.
Qed.

Lemma find_user_elem rawId us u : find_user rawId us = Some u -> u ∈ us.
Proof.
  unfold find_user. destruct rawId as [n|s].
  - destruct (findOne_id (Num n) us) eqn:E.
    + intros [= <-]. eauto using findOne_id_elem.
    + eauto using findOne_id_elem.
  - destruct (numeric _); [|eauto using findOne_id_elem].
    destruct (findOne_id (Num _) us) eqn:E.
    + intros [= <-]. eauto using findOne_id_elem.
    + eauto using findOne_id_elem.
Qed.

(** With unique [_id]s, the update by [_id] lands on the document read. *)
Lemma updateOne_by_id us a f :
  NoDup (_id <$> us) -> a ∈ us ->
  exists us1 us2, us = us1 ++ a :: us2 /\
    updateOne (fun u => (_id u =? _id a)%N) f us = us1 ++ f a :: us2.
Proof.
  intros Hnd (us1 & us2 & ->)%list_elem_of_split.
  exists us1, us2. split; [done|].
  apply updateOne_first; [|apply N.eqb_refl].
  rewrite fmap_app, fmap_cons in Hnd.
  apply NoDup_app in Hnd as (_ & Hdis & _).
  apply Forall_forall. intros v Hv. apply N.eqb_neq. intros Heq.
  apply (Hdis (_id v)); [by apply list_elem_of_fmap_2|].
  rewrite Heq. by left.
Qed.

Lemma subscription_gate_store e d a :
  let d1 := (subscription_gate e d a).2 in
  users d1 = users d /\ students d1 = students d /\
  (d1 = d \/
   (SUBSCRIPTION_ENABLED e = true /\
    exists sub expTime,
      the_subscription d = Some sub /\ active sub = true /\
      date_of_expiration sub = Some expTime /\ expTime <= nowTime e /\
      the_subscription d1 = Some deactivated)).
Proof.
  unfold subscription_gate.
  destruct (SUBSCRIPTION_ENABLED e) eqn:En; simpl; [|by auto].
  destruct (the_subscription d) as [sub|] eqn:Es; simpl; [|by auto].
  destruct (date_of_expiration sub) as [expTime|] eqn:Ex.
  - destruct (active sub) eqn:Ea; simpl.
    + rewrite Z.geb_leb.
      destruct (expTime <=? nowTime e)%Z eqn:El; simpl.
      * apply Z.leb_le in El.
        destruct (privileged a); simpl; (repeat split; try done);
          right; split; try done; by exists sub, expTime.
      * destruct (privileged a); simpl; auto.
    + destruct (privileged a); simpl; auto.
  - destruct (active sub); simpl; [auto|].
    destruct (privileged a); simpl; auto.
Qed.




Lemma new_device_fields e req :
  new_device e req !! "device_id" = Some (JStr (incomingDeviceId req))
  /\ new_device e req !! "first_login" = Some (JStr (nowFormatted e))
  /\ new_device e req !! "last_login" = Some (JStr (nowFormatted e)).
Proof. unfold new_device. repeat split; by simplify_map_eq. Qed.










(** The subscription check: what it leaves in the store and what it
    answers. *)
Lemma subscription_gate_spec e d a :
  let g := subscription_gate e d a in
  users g.2 = users d /\ students g.2 = students d
  /\ the_subscription g.2
     = (if expired e d then Some deactivated else the_subscription d)
  /\ g.1 = (if without_subscription e d && negb (privileged a)
            then Some "subscription_inactive" else None).
Proof.
  unfold subscription_gate, without_subscription, expired.
  destruct (SUBSCRIPTION_ENABLED e); cbn [negb andb orb]; [|done].
  destruct (the_subscription d) as [sub|] eqn:Es; [|by rewrite ?Es].
  destruct (date_of_expiration sub) as [expTime|].
  - rewrite Z.geb_leb.
    destruct (active sub), (expTime <=? nowTime e), (privileged a);
      cbn [negb andb orb fst snd users students the_subscription with_subscription];
      by rewrite ?Es.
  - destruct (active sub), (privileged a);
      cbn [negb andb orb fst snd users students the_subscription with_subscription];
      by rewrite ?Es.
Qed.

(** The checks of the handler on a typed body, one after the other. *)
Lemma handler_checks e d req rawId pw :
  is_post req = true ->
  assistant_id req = Some rawId -> req_password req = Some pw ->
  falsy (Some rawId) = false -> pw <> "" ->
  let r := handler e d req in
  (find_user rawId (users d) = None -> r = (Json 401 "user_not_found", d))
  /\ (forall assistant,
        find_user rawId (users d) = Some assistant ->
        (bcrypt_compare e pw (password assistant) = false ->
           r = (Json 401 "wrong_password", d))
        /\ (bcrypt_compare e pw (password assistant) = true ->
            accountState d assistant <> "Activated" ->
            r = (Json 403 (if String.eqb (role assistant) "student"
                           then "student_account_deactivated"
                           else "account_deactivated"), d))
        /\ (authenticated e d rawId pw assistant ->
            students r.2 = students d
            /\ the_subscription r.2
               = (if expired e d then Some deactivated else the_subscription d)
            /\ (without_subscription e d = true -> privileged assistant = false ->
                  r.1 = Json 403 "subscription_inactive" /\ users r.2 = users d)
            /\ (without_subscription e d && negb (privileged assistant) = false ->
                  if isDeviceLimitationsEnabled e
                     && negb (String.eqb (role assistant) "developer")
                  then
                    match register_device e req assistant with
                    | None =>
                        r.1 = Json 403 "device_limit_reached"
                        /\ users r.2 = users d
                    | Some updatedLimitations =>
                        r.1 = success e assistant
                        /\ users r.2 =
                             updateOne (fun u => (_id u =? _id assistant)%N)
                               (fun u => with_limitations u (Some updatedLimitations))
                               (users d)
                    end
                  else r.1 = success e assistant /\ users r.2 = users d))).
Proof.
  intros Hp Hid Hpw Hf Hne r. subst r. unfold handler.
  rewrite Hp, Hid, Hpw, Hf. apply String.eqb_neq in Hne as ->.
  cbn [negb andb orb]. split; [by intros ->|].
  intros assistant ->. split; [by intros ->|]. split.
  - intros -> Hs. apply String.eqb_neq in Hs as ->. cbn [negb].
    by destruct (String.eqb (role assistant) "student").
  - intros (_ & -> & ->). cbn [negb]. rewrite String.eqb_refl. cbn [negb].
    destruct (subscription_gate_spec e d assistant) as (Hus & Hst & Hsub & Herr).
    destruct (subscription_gate e d assistant) as [err d1].
    cbn [fst snd] in Hus, Hst, Hsub, Herr. subst err.
    destruct (without_subscription e d && negb (privileged assistant)) eqn:Hw.
    { apply andb_prop in Hw as [Hw Hpriv]. apply negb_true_iff in Hpriv.
      cbn [fst snd]. split; [done|]. split; [done|]. split; [done|].
      by intros ?. }
    destruct (isDeviceLimitationsEnabled e
              && negb (String.eqb (role assistant) "developer")).
    + destruct (register_device e req assistant) as [upd|]; cbn [fst snd].
      * split; [done|]. split; [done|]. split.
        { intros Hw1 Hp1. rewrite Hw1, Hp1 in Hw. done. }
        intros _. by rewrite <- Hus.
      * split; [done|]. split; [done|]. split.
        { intros Hw1 Hp1. rewrite Hw1, Hp1 in Hw. done. }
        done.
    + cbn [fst snd]. split; [done|]. split; [done|]. split.
      { intros Hw1 Hp1. rewrite Hw1, Hp1 in Hw. done. }
      done.
Qed.




(** On a typed body with the store in reach, [handler_any] is
    [handler]. *)
Lemma handler_any_typed e d req rawId password :
  is_post req = true -> assistant_id req = Some rawId ->
  req_password req = Some password ->
  falsy (Some rawId) = false -> password <> "" ->
  handler_any e true d
    {| any_is_post := true; any_assistant_id := Some (Typed rawId);
       any_password := Some (Typed (Str password));
       any_device_id := device_id req; any_ip := ip req;
       any_browser := browser req; any_os := os req;
       any_deviceType := deviceType req |}
  = handler e d req.
Proof.
  intros Hp Hid Hpw Hf Hne. unfold handler_any, as_typed.
  cbn [any_is_post any_assistant_id any_password falsy_value negb
       any_device_id any_ip any_browser any_os any_deviceType].
  rewrite Hf. change (falsy (Some (Str password))) with (String.eqb password "").
  apply String.eqb_neq in Hne as ->. cbn [orb].
  f_equal. destruct req. simpl in *. by subst.
Qed.

End LoginDevices.

(** ** The scenario of the specification

    A student with [allowed_devices = 1] and no device logs in from [A]:
    the list becomes [[A]].  A login from [B] is refused and the list stays.
    Once an administrator sets [allowed_devices = 2], the login from [B]
    succeeds and the list is [[A; B]]. *)

Section Scenario.
Import Store Samples.

Example scenario_two_devices :
  (Login.handler login_env scenario0 (login_request 12 "A")).1
    = Login.LoggedIn "jwt" "student"
  /\ device_ids scenario1 = [[Some (JStr "A")]]
  /\ (Login.handler login_env scenario1 (login_request 12 "B")).1
    = Login.Json 403 "device_limit_reached"
  /\ scenario2 = scenario1
  /\ (Devices.Students.handler admin_env scenario2 (patch_request 12 2)).1
    = Devices.Success
  /\ (Login.handler login_env scenario3 (login_request 12 "B")).1
    = Login.LoggedIn "jwt" "student"
  /\ device_ids scenario4 = [[Some (JStr "A"); Some (JStr "B")]].
Proof. repeat split; vm_compute; reflexivity. Qed.

End Scenario.

(** ** More on the streaming proxy *)

Section StreamingProxyEdges.
Import JS VideoStream Ranges.

Lemma parse_range_cases totalSize m1 m2 :
  all_digits m1 = true -> all_digits m2 = true ->
  match parse_range totalSize m1 m2 with
  | Some (start, end_) =>
      0 <= start /\
      ((m1 <> "" /\ m2 <> "" /\ start = decimal m1 /\ end_ = decimal m2)
       \/ (m1 <> "" /\ m2 = "" /\ start = decimal m1 /\
           end_ = Z.min (start + 5 * 1024 * 1024 - 1) (totalSize - 1))
       \/ (m1 = "" /\ m2 <> "" /\
           start = Z.max 0 (totalSize - decimal m2) /\ end_ = totalSize - 1))
  | None => m1 = "" /\ m2 = ""
  end.
Proof.
  intros H1 H2. unfold parse_range.
  pose proof (decimal_nonneg m1 H1). pose proof (decimal_nonneg m2 H2).
  destruct (String.eqb_spec m1 ""), (String.eqb_spec m2 ""); simpl;
    try done; (split; [lia|]); auto 10.
Qed.

(** X1: on a request that reaches the range branch the answer is 206 when
    the header is a closed range with both ends inside the object, an open
    range starting inside it, or a suffix of at least one byte of a
    non-empty object, and 416 for every other header. *)
Theorem range_answer_206_or_416 e req segments meta h :
  h <> "" ->
  ranged_request e req segments meta h ->
  (satisfiable (ContentLength meta) h -> status (handler e req) = 206)
  /\ (~ satisfiable (ContentLength meta) h ->
      handler e req = RangeNotSatisfiable ("bytes */" +:+ pretty (ContentLength meta))).
Proof.
  intros Hne Hreq. rewrite (handler_ranged _ _ _ _ _ Hne Hreq).
  destruct Hreq as (_ & _ & _ & _ & _ & _ & _ & Hg).
  set (total := ContentLength meta). split.
  - intros [(ds & de & -> & Hds & Hds0 & Hde & Hde0 & Hs & He)
           |[(ds & -> & Hds & Hds0 & Hs)|(dn & -> & Hdn & Hdn0 & Hn & Ht)]].
    + erewrite serve_range_ok with (start := decimal ds) (end_ := decimal de);
        [done|by apply match_range_form| |done|done|done].
      unfold parse_range. by rewrite !nonempty_eqb.
    + pose proof (decimal_nonneg ds Hds).
      erewrite serve_range_ok with (start := decimal ds);
        [done|by apply (match_range_form ds "")| |done| |done].
      * unfold parse_range. rewrite (nonempty_eqb ds) by done. done.
      * fold total. lia.
    + erewrite serve_range_ok;
        [done|by apply (match_range_form "" dn)| | | |done].
      * unfold parse_range. rewrite (nonempty_eqb dn) by done. done.
      * fold total. lia.
      * fold total. lia.
  - intros Hun. unfold serve_range.
    destruct (match_range h) as [[m1 m2]|] eqn:Hm; [|done].
    apply match_range_inv in Hm as (-> & H1 & H2).
    pose proof (parse_range_cases total m1 m2 H1 H2) as Hp. fold total.
    destruct (parse_range total m1 m2) as [[start end_]|]; [|done].
    destruct Hp as (H0 & Hp).
    rewrite !Z.geb_leb.
    destruct (total <=? start)%Z eqn:E1; [done|].
    destruct (total <=? end_)%Z eqn:E2; [done|].
    apply Z.leb_gt in E1, E2. exfalso. apply Hun.
    destruct Hp as [(?&?&->&->)|[(?&->&->&_)|(->&?&->&?)]].
    + left. by exists m1, m2.
    + right; left. by exists m1.
    + right; right. exists m2. repeat split; try done; lia.
Qed.

Lemma range_answer_206_or_416_witness :
  status (handler (one_object 10) (get_with_range "bytes=4-")) = 206
  /\ handler (one_object 10) (get_with_range "bytes=12-")
     = RangeNotSatisfiable "bytes */10".
Proof.
  assert (forall h, ranged_request (one_object 10) (get_with_range h)
                      ["videos"; "a.mp4"]
                      {| ContentLength := 10; ContentType := Some "video/mp4" |} h)
    as Hreq.
  { intros h. unfold ranged_request. simpl. repeat split; auto; discriminate. }
  split.
  - apply (proj1 (range_answer_206_or_416 _ _ _ _ "bytes=4-"
                    ltac:(discriminate) (Hreq _))).
    right; left. exists "4". repeat split; first [discriminate | reflexivity].
  - reflexivity.
Defined.

Lemma method_gate_open req :
  method req = "GET" \/ method req = "HEAD" ->
  negb (String.eqb (method req) "GET") && negb (String.eqb (method req) "HEAD")
  = false.
Proof. by intros [-> | ->]. Qed.

Lemma method_gate_inv req :
  negb (String.eqb (method req) "GET") && negb (String.eqb (method req) "HEAD")
  = false ->
  method req = "GET" \/ method req = "HEAD".
Proof.
  destruct (String.eqb_spec (method req) "GET"); [by left|].
  destruct (String.eqb_spec (method req) "HEAD"); [by right|done].
Qed.

(** X2: whatever the request, a 206 answer describes a range inside the
    object: [0 <= first < totalSize], [last < totalSize], and its
    [Content-Length] and [Content-Range] are those of [first..last], the
    range fetched from the store. *)
Theorem partial_content_inside_object e req ct len cr first last wb :
  handler e req = PartialContent ct len cr first last wb ->
  exists segments meta,
    key req = Some segments /\
    head_object e (join "/" segments) = Found meta /\
    get_object_range e (join "/" segments) first last = true /\
    0 <= first < ContentLength meta /\ last < ContentLength meta /\
    len = last - first + 1 /\
    cr = "bytes " +:+ pretty first +:+ "-" +:+ pretty last +:+ "/"
           +:+ pretty (ContentLength meta).
Proof.
  unfold handler.
  destruct (negb _ && negb _); [done|].
  destruct (negb (authorized req)); [done|].
  destruct (negb (config_ok e)); [done|].
  destruct (key req) as [[|seg segs]|] eqn:Hk; try done.
  destruct (range req) as [h|]; last first.
  { destruct (get_object e _); done. }
  destruct (String.eqb h "").
  { destruct (get_object e _); done. }
  destruct (head_object e _) as [meta| |] eqn:Hh; try done.
  unfold serve_range.
  destruct (match_range h) as [[m1 m2]|] eqn:Hm; [|done].
  apply match_range_inv in Hm as (-> & H1 & H2).
  pose proof (parse_range_cases (ContentLength meta) m1 m2 H1 H2) as Hp.
  destruct (parse_range _ m1 m2) as [[start end_]|]; [|done].
  destruct Hp as [H0 _]. rewrite !Z.geb_leb.
  destruct (ContentLength meta <=? start)%Z eqn:E1; [done|].
  destruct (ContentLength meta <=? end_)%Z eqn:E2; [done|].
  apply Z.leb_gt in E1, E2. simpl.
  destruct (get_object_range e _ start end_) eqn:Hg; [|done].
  intros [= <- <- <- <- <- <-].
  exists (seg :: segs), meta. repeat split; try done.
Qed.

Lemma partial_content_inside_object_witness :
  exists segments meta,
    key (get_with_range "bytes=-4") = Some segments /\
    head_object (one_object 10) (join "/" segments) = Found meta /\
    get_object_range (one_object 10) (join "/" segments) 6 9 = true /\
    0 <= 6 < ContentLength meta /\ 9 < ContentLength meta /\
    4 = 9 - 6 + 1 /\
    "bytes 6-9/10" = "bytes " +:+ pretty 6 +:+ "-" +:+ pretty 9 +:+ "/"
                       +:+ pretty (ContentLength meta).
Proof.
  exact (partial_content_inside_object (one_object 10)
           (get_with_range "bytes=-4") "video/mp4" 4 "bytes 6-9/10" 6 9 true
           eq_refl).
Defined.

(** X3: a closed range whose end is below its start, both inside the
    object, is not rejected: the answer is 206 with a [Content-Length] of
    [end - start + 1], which is zero or negative. *)
Theorem reversed_range_not_rejected e req segments meta ds de :
  all_digits ds = true -> ds <> "" ->
  all_digits de = true -> de <> "" ->
  ranged_request e req segments meta ("bytes=" +:+ ds +:+ "-" +:+ de) ->
  decimal de < decimal ds < ContentLength meta ->
  exists len,
    handler e req =
      PartialContent (content_type_of meta (join "/" segments)) len
        ("bytes " +:+ pretty (decimal ds) +:+ "-" +:+ pretty (decimal de)
           +:+ "/" +:+ pretty (ContentLength meta))
        (decimal ds) (decimal de) (negb (String.eqb (method req) "HEAD"))
    /\ len = decimal de - decimal ds + 1 /\ len <= 0.
Proof.
  intros Hds Hds0 Hde Hde0 Hreq Hb.
  assert ("bytes=" +:+ ds +:+ "-" +:+ de <> "") as Hne by done.
  rewrite (handler_ranged _ _ _ _ _ Hne Hreq).
  destruct Hreq as (_ & _ & _ & _ & _ & _ & _ & Hg).
  eexists. split; [|split; [reflexivity|lia]].
  erewrite serve_range_ok; [done|by apply match_range_form| |lia|lia|done].
  unfold parse_range. by rewrite !nonempty_eqb.
Qed.

Lemma reversed_range_not_rejected_witness :
  exists len,
    handler (one_object 10) (get_with_range "bytes=5-2") =
      PartialContent "video/mp4" len "bytes 5-2/10" 5 2 true
    /\ len = -2 /\ len <= 0.
Proof.
  apply (reversed_range_not_rejected (one_object 10)
           (get_with_range "bytes=5-2") ["videos"; "a.mp4"]
           {| ContentLength := 10; ContentType := Some "video/mp4" |}
           "5" "2"); try reflexivity; try discriminate.
  - unfold ranged_request. simpl. repeat split; auto; discriminate.
  - split; reflexivity.
Defined.

(** X4: the proxy answers 200 or 206 only to a [GET] or [HEAD] that
    [authMiddleware] accepts, with the storage configured and a key in the
    path; and only a [GET] is answered with a body. *)
Theorem content_only_when_authorized e req :
  (status (handler e req) = 200 \/ status (handler e req) = 206) ->
  (exists segments, admitted e req segments)
  /\ (forall ct len cr first last,
        handler e req = PartialContent ct len cr first last true ->
        method req = "GET")
  /\ (forall ct len, handler e req = FullContent ct len true ->
        method req = "GET").
Proof.
  unfold handler, admitted.
  destruct (negb _ && negb _) eqn:Hm; [by intros [|]|].
  apply method_gate_inv in Hm.
  destruct (authorized req); [|by intros [|]]. simpl.
  destruct (config_ok e); [|by intros [|]]. simpl.
  destruct (key req) as [[|seg segs]|]; try by intros [|].
  intros _. split; [by exists (seg :: segs)|].
  assert (forall b, negb (String.eqb (method req) "HEAD") = b -> b = true ->
                    method req = "GET") as Hget.
  { intros b <-. destruct Hm as [-> | ->]; done. }
  split.
  - intros ct len cr first last.
    destruct (range req) as [h|]; [destruct (String.eqb h "")|];
      try (destruct (get_object e _); done).
    destruct (head_object e _); try done.
    unfold serve_range.
    destruct (match_range h) as [[m1 m2]|]; [|done].
    destruct (parse_range _ m1 m2) as [[start end_]|]; [|done].
    destruct (_ || _); [done|].
    destruct (get_object_range e _ _ _); [|done].
    intros [= _ _ _ _ _ Hb]. by eapply Hget.
  - intros ct len.
    destruct (range req) as [h|]; [destruct (String.eqb h "")|].
    + destruct (get_object e _); try done.
      intros [= _ _ Hb]. by eapply Hget.
    + destruct (head_object e _); try done.
      unfold serve_range.
      destruct (match_range h) as [[m1 m2]|]; [|done].
      destruct (parse_range _ m1 m2) as [[start end_]|]; [|done].
      destruct (_ || _); [done|].
      by destruct (get_object_range e _ _ _).
    + destruct (get_object e _); try done.
      intros [= _ _ Hb]. by eapply Hget.
Qed.

Lemma content_only_when_authorized_witness :
  exists segments, admitted (one_object 10) (get_with_range "bytes=0-3") segments.
Proof.
  apply (content_only_when_authorized (one_object 10)
           (get_with_range "bytes=0-3")).
  right. reflexivity.
Defined.

(** X5: without a [Range] header (or with an empty one) an admitted
    request is answered from a single fetch of the whole object: 200 with
    the stored length when the store has it, 404 when the store does not
    know the key, and 500 on any other failure; never 206 or 416. *)
Theorem whole_object_without_range e req segments :
  admitted e req segments ->
  range req = None \/ range req = Some "" ->
  let k := join "/" segments in
  (forall meta, get_object e k = Found meta ->
     handler e req =
       FullContent (content_type_of meta k) (ContentLength meta)
         (negb (String.eqb (method req) "HEAD")))
  /\ (get_object e k = NotFound -> handler e req = Json 404 "Video not found")
  /\ (get_object e k = Failed -> handler e req = Json 500 "Failed to stream video")
  /\ status (handler e req) <> 206 /\ status (handler e req) <> 416.
Proof.
  intros (Hm & Ha & Hc & Hs & Hk) Hr k.
  unfold handler. rewrite (method_gate_open _ Hm), Ha, Hc, Hk. simpl.
  destruct segments as [|seg segs]; [done|].
  assert (match range req with
          | Some h => if String.eqb h "" then None else Some h
          | None => None
          end = None) as ->.
  { by destruct Hr as [-> | ->]. }
  fold k. destruct (get_object e k); repeat split; try done; by intros ? [= <-].
Qed.

Lemma whole_object_without_range_witness :
  handler (one_object 10)
    {| method := "HEAD"; authorized := true;
       key := Some ["videos"; "a.mp4"]; range := None |}
  = FullContent "video/mp4" 10 false.
Proof.
  refine (proj1 (whole_object_without_range (one_object 10) _
                   ["videos"; "a.mp4"] _ _) _ eq_refl).
  - unfold admitted. simpl. repeat split; auto; discriminate.
  - by left.
Defined.

End StreamingProxyEdges.

(** ** More on minting *)

Section KeyMintingMore.
Import KeyMint.

Lemma units_inj a b : units a = units b -> a = b.
Proof.
  unfold units. revert b. induction a as [|c a IH]; intros [|c' b]; simpl;
    try done.
  intros [= Hc Hab]. f_equal; [|by apply IH].
  by rewrite <- (ascii_N_embedding c), <- (ascii_N_embedding c'), Hc.
Qed.

Lemma split_at_separator {A} (x : A) l1 l2 r1 r2 :
  x ∉ l1 -> x ∉ l2 -> l1 ++ x :: r1 = l2 ++ x :: r2 -> l1 = l2 /\ r1 = r2.
Proof.
  revert l2. induction l1 as [|a l1 IH]; intros [|b l2] H1 H2; simpl.
  - by intros [= ->].
  - intros [= <- _]. exfalso. apply H2. by left.
  - intros [= -> _]. exfalso. apply H1. by left.
  - intros [= -> Heq]. apply not_elem_of_cons in H1 as [_ H1].
    apply not_elem_of_cons in H2 as [_ H2].
    destruct (IH l2 H1 H2 Heq) as [-> ->]. done.
Qed.

Lemma pretty_N_go_no_underscore x s :
  95%N ∉ units s -> 95%N ∉ units (pretty_N_go x s).
Proof.
  revert s. induction (N.lt_wf_0 x) as [x _ IH]; intros s Hs.
  assert (x = 0 \/ 0 < x)%N as [->|Hx] by lia.
  - by rewrite pretty_N_go_0.
  - rewrite pretty_N_go_step by done. apply IH; [by apply N.div_lt|].
    unfold units. simpl. apply not_elem_of_cons. split; [|done].
    unfold pretty_N_char. by repeat case_match.
Qed.

Lemma pretty_Z_no_underscore (z : Z) : 95%N ∉ units (pretty z).
Proof.
  assert (forall p, 95%N ∉ units (pretty (Npos p))) as Hp.
  { intros p. unfold pretty, pretty_N. case_decide; [done|].
    apply pretty_N_go_no_underscore. apply not_elem_of_nil. }
  destruct z as [|p|p]; unfold pretty, pretty_Z.
  - unfold units. simpl. rewrite !not_elem_of_cons.
    split; [done|apply not_elem_of_nil].
  - apply Hp.
  - rewrite units_app. apply not_elem_of_app. split; [|apply Hp].
    unfold units. simpl. rewrite !not_elem_of_cons.
    split; [done|apply not_elem_of_nil].
Qed.

Lemma base36_no_underscore s :
  Forall (fun c => base36 c = true) (String.list_ascii_of_string s) ->
  95%N ∉ units s.
Proof.
  unfold units. induction s as [|c s IH]; simpl; intros H.
  - apply not_elem_of_nil.
  - apply Forall_cons in H as [Hc Hs]. apply not_elem_of_cons.
    split; [|by apply IH]. intros Heq. revert Hc.
    unfold base36. rewrite <- Heq. done.
Qed.

Lemma randomStr_base36 r :
  radix36_fraction r ->
  Forall (fun c => base36 c = true)
    (String.list_ascii_of_string (String.substring 2 8 r)).
Proof.
  intros [->|(ds & -> & Hds)]; [constructor|].
  change (String.substring 2 8 ("0." +:+ ds)) with (String.substring 0 8 ds).
  by apply substring_ok.
Qed.

(** X6: keys do not collide: two minted keys are equal only if they were
    minted at the same millisecond, with the same random suffix, for file
    names with the same sanitized form. *)
Theorem minted_keys_collide_only_when_equal t1 t2 r1 r2 name1 name2 :
  radix36_fraction r1 -> radix36_fraction r2 ->
  mint_key t1 r1 name1 = mint_key t2 r2 name2 ->
  t1 = t2
  /\ String.substring 2 8 r1 = String.substring 2 8 r2
  /\ sanitize name1 = sanitize name2.
Proof.
  intros Hr1 Hr2. unfold mint_key. intros Heq.
  apply app_inv_head in Heq.
  change (units "_") with [95%N] in Heq. simpl in Heq.
  apply split_at_separator in Heq as [Ht Heq];
    [|apply pretty_Z_no_underscore..].
  apply units_inj in Ht. apply (inj pretty) in Ht.
  apply split_at_separator in Heq as [Hr Hn];
    [|by apply base36_no_underscore, randomStr_base36..].
  apply units_inj in Hr. done.
Qed.

Lemma minted_keys_collide_only_when_equal_witness :
  (1700000000000 : Z) = 1700000000000
  /\ String.substring 2 8 "0.k3x9q0zr1ab" = String.substring 2 8 "0.k3x9q0zrzzz"
  /\ sanitize (units "a b.mp4") = sanitize (units "a_b.mp4").
Proof.
  apply (minted_keys_collide_only_when_equal
           1700000000000 1700000000000 "0.k3x9q0zr1ab" "0.k3x9q0zrzzz"
           (units "a b.mp4") (units "a_b.mp4")).
  - right. exists "k3x9q0zr1ab". split; [reflexivity|repeat constructor].
  - right. exists "k3x9q0zrzzz". split; [reflexivity|repeat constructor].
  - reflexivity.
Defined.

(** X7: sanitizing is idempotent, leaves a name made of the class
    [a-zA-Z0-9._-] as it is, and never changes the length. *)
Theorem sanitize_idempotent fileName :
  sanitize (sanitize fileName) = sanitize fileName
  /\ (Forall (fun c => allowed c = true) fileName -> sanitize fileName = fileName)
  /\ length (sanitize fileName) = length fileName.
Proof.
  unfold sanitize. split; [|split].
  - rewrite <- list_fmap_compose. apply list_fmap_ext. intros _ c _. simpl.
    by destruct (allowed c) eqn:E; [rewrite E|].
  - intros H. induction H as [|c l Hc _ IH]; [done|].
    rewrite fmap_cons, IH. by rewrite Hc.
  - apply length_fmap.
Qed.

End KeyMintingMore.

(** ** More on device administration *)

Section DeviceAdministrationMore.
Import JS Store Devices.

Lemma updateOne_cases {A} sel f (l : list A) :
  updateOne sel f l = l \/
  exists l1 x l2, l = l1 ++ x :: l2 /\ sel x = true /\
    updateOne sel f l = l1 ++ f x :: l2.
Proof.
  destruct (first_match sel l) as [Hn|(l1 & x & l2 & -> & H1 & Hx)].
  - left. by apply updateOne_none.
  - right. exists l1, x, l2. by rewrite updateOne_first.
Qed.

Lemma updateOne_twice {A} sel f g (l : list A) :
  (forall x, sel (f x) = sel x) ->
  updateOne sel g (updateOne sel f l) = updateOne sel (fun x => g (f x)) l.
Proof.
  intros Hsel. induction l as [|x l IH]; simpl; [done|].
  destruct (sel x) eqn:E; simpl.
  - by rewrite Hsel, E.
  - by rewrite E, IH.
Qed.

Lemma updateOne_ext {A} sel f g (l : list A) :
  (forall x, f x = g x) -> updateOne sel f l = updateOne sel g l.
Proof.
  intros H. induction l as [|x l IH]; simpl; [done|].
  by rewrite H, IH.
Qed.

Lemma set_allowed_devices_twice a b u :
  set_allowed_devices b (set_allowed_devices a u) = set_allowed_devices b u.
Proof. by destruct u as [? ? ? ? ? ? [dl|]]. Qed.

Lemma pull_device_twice x u : pull_device x (pull_device x u) = pull_device x u.
Proof.
  apply pull_device_absent. rewrite pull_device_devices.
  apply Forall_forall. intros dev Hin.
  apply list_elem_of_In, List.filter_In in Hin as [_ Hin].
  by apply negb_true_iff.
Qed.

Lemma pull_device_account x u : same_account u (pull_device x u).
Proof.
  destruct (pull_device_frame x u) as [(?&?&?&?&?&?&_) _]. by repeat split.
Qed.

Lemma set_allowed_devices_account a u : same_account u (set_allowed_devices a u).
Proof. by repeat split. Qed.

(** What a request comes to on the students endpoint: an answer other than
    success and no write, or one [updateOne] on the students with the
    numeric id of the request. *)
Lemma students_cases e req :
  (exists r, r <> Success /\ forall d, Students.handler e d req = (r, d))
  \/ (exists f,
        method req <> GET /\
        ((exists a, method req = PATCH /\ f = set_allowed_devices a)
         \/ (exists x, method req = DELETE /\ f = pull_device x)) /\
        forall d, Students.handler e d req
                  = (Success,
                     with_users d
                       (updateOne (Students.is_student (parseInt_scalar (req_id req)))
                          f (users d)))).
Proof.
  unfold Students.handler.
  destruct (gate e) as [r|] eqn:Hg.
  { left. exists r. split; [by eapply gate_not_success|done]. }
  destruct (method req) eqn:Hm.
  - left. by exists Listing.
  - destruct (parseInt_scalar (req_id req)) as [|neg|[|n|n]] eqn:Hn;
      try (left; by eexists (Json _ _));
      (destruct (accepted_allowed (req_allowed_devices req)) as [a|];
       [|left; by eexists (Json _ _)]);
      right; eexists (set_allowed_devices a);
      (split; [done|]); (split; [left; by exists a|done]).
  - destruct (parseInt_scalar (req_id req)) as [|neg|[|n|n]] eqn:Hn;
      try (left; by eexists (Json _ _));
      (destruct (req_device_id req) as [x|]; [|left; by eexists (Json _ _)]);
      (destruct (String.eqb x ""); [left; by eexists (Json _ _)|]);
      right; eexists (pull_device x);
      (split; [done|]); (split; [right; by exists x|done]).
  - left. by eexists (Json _ _).
Qed.

Lemma assistants_cases e req :
  (exists r, r <> Success /\ forall d, Assistants.handler e d req = (r, d))
  \/ (exists rawId f,
        method req <> GET /\ req_id req = Some rawId /\
        ((exists a, method req = PATCH /\ f = set_allowed_devices a)
         \/ (exists x, method req = DELETE /\ f = pull_device x)) /\
        forall d, Assistants.handler e d req
                  = (Success,
                     with_users d
                       (updateOne (Assistants.is_assistant (Assistants.idQuery rawId))
                          f (users d)))).
Proof.
  unfold Assistants.handler.
  destruct (gate e) as [r|] eqn:Hg.
  { left. exists r. split; [by eapply gate_not_success|done]. }
  destruct (method req) eqn:Hm.
  - left. by exists Listing.
  - destruct (req_id req) as [rawId|]; [|left; by eexists (Json _ _)].
    destruct (falsy (Some rawId)); [left; by eexists (Json _ _)|].
    destruct (accepted_allowed (req_allowed_devices req)) as [a|];
      [|left; by eexists (Json _ _)].
    right. eexists rawId, (set_allowed_devices a).
    split; [done|]. split; [done|]. split; [left; by exists a|done].
  - destruct (req_id req) as [rawId|]; [|left; by eexists (Json _ _)].
    destruct (req_device_id req) as [x|]; [|left; by eexists (Json _ _)].
    destruct (falsy (Some rawId) || String.eqb x "");
      [left; by eexists (Json _ _)|].
    right. eexists rawId, (pull_device x).
    split; [done|]. split; [done|]. split; [right; by exists x|done].
  - left. by eexists (Json _ _).
Qed.

(** X8: on both device endpoints only the answer [{ success: true }] goes
    with a write: every other answer (a rejection, or the listing of a
    [GET]) leaves the store as it is. *)
Theorem only_success_writes e d req :
  ((Students.handler e d req).1 <> Success -> (Students.handler e d req).2 = d)
  /\ ((Assistants.handler e d req).1 <> Success ->
      (Assistants.handler e d req).2 = d).
Proof.
  split.
  - destruct (students_cases e req) as [(r & _ & H)|(f & _ & _ & H)];
      rewrite H; [done|]. by intros [].
  - destruct (assistants_cases e req) as [(r & _ & H)|(n & f & _ & _ & _ & H)];
      rewrite H; [done|]. by intros [].
Qed.

Lemma one_user_written sel f (us : list user) :
  (forall u, same_account u (f u)) ->
  updateOne sel f us = us
  \/ exists us1 u u' us2,
       us = us1 ++ u :: us2 /\
       updateOne sel f us = us1 ++ u' :: us2 /\
       same_account u u' /\ sel u = true.
Proof.
  intros Hf.
  destruct (updateOne_cases sel f us) as [->|(l1 & x & l2 & E & Hx & ->)];
    [by left|].
  right. by exists l1, x, (f x), l2.
Qed.

(** X9: a request to a device endpoint changes at most one user document,
    and only inside [device_limitations].  On the students endpoint that
    user is a student whose id is the number read from the request; on the
    assistants endpoint it is an assistant or an admin that the id of the
    request names. *)
Theorem one_user_in_scope e d req :
  (users (Students.handler e d req).2 = users d
   \/ exists us1 u u' us2 n,
        users d = us1 ++ u :: us2 /\
        users (Students.handler e d req).2 = us1 ++ u' :: us2 /\
        same_account u u' /\ role u = "student" /\
        id u = Num n /\ parseInt_scalar (req_id req) = Int n)
  /\
  (users (Assistants.handler e d req).2 = users d
   \/ exists us1 u u' us2 rawId,
        users d = us1 ++ u :: us2 /\
        users (Assistants.handler e d req).2 = us1 ++ u' :: us2 /\
        same_account u u' /\ role u ∈ ["assistant"; "admin"] /\
        req_id req = Some rawId /\ names rawId (id u)).
Proof.
  split.
  - destruct (students_cases e req) as [(r & _ & H)|(f & _ & Hf & H)];
      rewrite H; [by left|]. simpl.
    destruct (one_user_written
                (Students.is_student (parseInt_scalar (req_id req))) f (users d))
      as [->|(us1 & u & u' & us2 & E & E' & Hacc & Hsel)]; [|by left|].
    { destruct Hf as [(a & _ & ->)|(x & _ & ->)];
        auto using set_allowed_devices_account, pull_device_account. }
    right.
    destruct (parseInt_scalar (req_id req)) as [|neg|n]; [done..|].
    apply is_student_selects in Hsel as [Hid Hrole].
    by exists us1, u, u', us2, n.
  - destruct (assistants_cases e req) as [(r & _ & H)|(rawId & f & _ & Hn & Hf & H)];
      rewrite H; [by left|]. simpl.
    destruct (one_user_written (Assistants.is_assistant (Assistants.idQuery rawId))
                f (users d))
      as [->|(us1 & u & u' & us2 & E & E' & Hacc & Hsel)]; [|by left|].
    { destruct Hf as [(a & _ & ->)|(x & _ & ->)];
        auto using set_allowed_devices_account, pull_device_account. }
    right. exists us1, u, u', us2, rawId.
    apply is_assistant_selects in Hsel as [Hid Hrole].
    done.
Qed.

Lemma is_student_same_account n u u' :
  same_account u u' -> Students.is_student n u' = Students.is_student n u.
Proof.
  intros (_ & Hid & _ & _ & Hrole & _). unfold Students.is_student.
  destruct n; [done..|]. by rewrite Hid, Hrole.
Qed.

Lemma is_assistant_same_account q u u' :
  same_account u u' -> Assistants.is_assistant q u' = Assistants.is_assistant q u.
Proof.
  intros (_ & Hid & _ & _ & Hrole & _). unfold Assistants.is_assistant.
  by rewrite Hid, Hrole.
Qed.

Lemma with_users_twice d l1 l2 :
  with_users (with_users d l1) l2 = with_users d l2.
Proof. done. Qed.

(** X10: deleting a device is idempotent on both endpoints: the same
    [DELETE] sent again gets the same answer and leaves the store as the
    first one left it. *)
Theorem delete_twice_is_delete_once e d req :
  method req = DELETE ->
  Students.handler e (Students.handler e d req).2 req = Students.handler e d req
  /\ Assistants.handler e (Assistants.handler e d req).2 req
     = Assistants.handler e d req.
Proof.
  intros Hm. split.
  - destruct (students_cases e req) as [(r & _ & H)|(f & _ & Hf & H)].
    { by rewrite !H. }
    destruct Hf as [(a & Hp & _)|(x & _ & ->)]; [congruence|].
    rewrite !H. simpl. rewrite with_users_twice. f_equal. f_equal.
    rewrite updateOne_twice
      by (intros u; apply is_student_same_account, pull_device_account).
    apply updateOne_ext, pull_device_twice.
  - destruct (assistants_cases e req) as [(r & _ & H)|(n & f & _ & _ & Hf & H)].
    { by rewrite !H. }
    destruct Hf as [(a & Hp & _)|(x & _ & ->)]; [congruence|].
    rewrite !H. simpl. rewrite with_users_twice. f_equal. f_equal.
    rewrite updateOne_twice
      by (intros u; apply is_assistant_same_account, pull_device_account).
    apply updateOne_ext, pull_device_twice.
Qed.

Lemma delete_twice_is_delete_once_witness :
  let d := Samples.store_of
             [Samples.account 1 12 "student" 2
                [Samples.device_of "A" "t1"; Samples.device_of "B" "t2"]] None in
  let req := Samples.delete_request "12" "A" in
  Students.handler Samples.admin_env
    (Students.handler Samples.admin_env d req).2 req
  = Students.handler Samples.admin_env d req.
Proof.
  intros d req.
  exact (proj1 (delete_twice_is_delete_once Samples.admin_env d req eq_refl)).
Defined.

(** X11: the last accepted [PATCH] wins: after any [PATCH] for the same
    id, an accepted [PATCH] leaves the store it would have left without
    the first one. *)
Theorem patch_last_write_wins e d req1 req2 :
  method req1 = PATCH -> method req2 = PATCH ->
  req_id req1 = req_id req2 ->
  ((Students.handler e d req2).1 = Success ->
   Students.handler e (Students.handler e d req1).2 req2
   = Students.handler e d req2)
  /\ ((Assistants.handler e d req2).1 = Success ->
      Assistants.handler e (Assistants.handler e d req1).2 req2
      = Assistants.handler e d req2).
Proof.
  intros Hm1 Hm2 Hid. split.
  - destruct (students_cases e req1) as [(r & _ & H1)|(f1 & _ & Hf1 & H1)].
    { by rewrite !H1. }
    destruct (students_cases e req2) as [(r & Hr & H2)|(f2 & _ & Hf2 & H2)].
    { rewrite !H2. done. }
    intros _. rewrite Hid in H1.
    destruct Hf1 as [(a1 & _ & ->)|(x & Hx & _)]; [|congruence].
    destruct Hf2 as [(a2 & _ & ->)|(x & Hx & _)]; [|congruence].
    rewrite H1, !H2. simpl. rewrite with_users_twice. f_equal. f_equal.
    rewrite updateOne_twice
      by (intros u; apply is_student_same_account, set_allowed_devices_account).
    apply updateOne_ext. intros u. apply set_allowed_devices_twice.
  - destruct (assistants_cases e req1) as [(r & _ & H1)|(n1 & f1 & _ & Hn1 & Hf1 & H1)].
    { by rewrite !H1. }
    destruct (assistants_cases e req2) as [(r & Hr & H2)|(n2 & f2 & _ & Hn2 & Hf2 & H2)].
    { rewrite !H2. done. }
    intros _. rewrite Hid, Hn2 in Hn1. injection Hn1 as <-.
    destruct Hf1 as [(a1 & _ & ->)|(x & Hx & _)]; [|congruence].
    destruct Hf2 as [(a2 & _ & ->)|(x & Hx & _)]; [|congruence].
    rewrite H1, !H2. simpl. rewrite with_users_twice. f_equal. f_equal.
    rewrite updateOne_twice
      by (intros u; apply is_assistant_same_account, set_allowed_devices_account).
    apply updateOne_ext. intros u. apply set_allowed_devices_twice.
Qed.

Lemma patch_last_write_wins_witness :
  let d := Samples.store_of [Samples.account 1 12 "student" 2 []] None in
  Students.handler Samples.admin_env
    (Students.handler Samples.admin_env d (Samples.patch_request 12 5)).2
    (Samples.patch_request 12 3)
  = Students.handler Samples.admin_env d (Samples.patch_request 12 3).
Proof.
  intros d.
  exact (proj1 (patch_last_write_wins Samples.admin_env d
                  (Samples.patch_request 12 5) (Samples.patch_request 12 3)
                  eq_refl eq_refl eq_refl) eq_refl).
Defined.

End DeviceAdministrationMore.

(** ** More on the login *)

Section LoginMore.
Import Store Login DeviceLists.

(** What a login can write to [users]: nothing, or the device limitations
    of the account that logs in, which is not a developer, with device
    limiting enabled. *)
Lemma handler_users e d req :
  users (handler e d req).2 = users d
  \/ exists rawId a updatedLimitations,
       assistant_id req = Some rawId /\
       find_user rawId (users d) = Some a /\
       isDeviceLimitationsEnabled e = true /\ role a <> "developer" /\
       register_device e req a = Some updatedLimitations /\
       users (handler e d req).2 =
         updateOne (fun u => (_id u =? _id a)%N)
           (fun u => with_limitations u (Some updatedLimitations)) (users d).
Proof.
  unfold handler.
  destruct (is_post req); cbn [negb]; [|by left].
  destruct (assistant_id req) as [rawId|]; [|by left].
  destruct (req_password req) as [pw|]; [|by left].
  destruct (falsy (Some rawId) || String.eqb pw ""); [by left|].
  destruct (find_user rawId (users d)) as [a|] eqn:Hfind; [|by left].
  destruct (bcrypt_compare e pw (password a)); cbn [negb]; [|by left].
  destruct (String.eqb (accountState d a) "Activated"); cbn [negb]; last first.
  { destruct (String.eqb (role a) "student"); by left. }
  pose proof (subscription_gate_store e d a) as (Hus & _ & _).
  destruct (subscription_gate e d a) as [[err|] d1]; cbn [fst snd] in *;
    [by left|].
  destruct (isDeviceLimitationsEnabled e) eqn:Hen; cbn [andb]; [|by left].
  destruct (String.eqb_spec (role a) "developer") as [|Hrole]; cbn [negb];
    [by left|].
  destruct (register_device e req a) as [upd|] eqn:Hreg; [|by left].
  right. exists rawId, a, upd. cbn [fst snd with_users users]. by rewrite Hus.
Qed.

Lemma subscription_gate_never_expired e d a :
  (subscription_gate e d a).1 <> Some "subscription_expired".
Proof.
  unfold subscription_gate.
  destruct (SUBSCRIPTION_ENABLED e); simpl; [|done].
  destruct (the_subscription d) as [sub|]; simpl; [|done].
  destruct (date_of_expiration sub) as [expTime|].
  - destruct (active sub); simpl.
    + destruct (nowTime e >=? expTime) eqn:E; simpl.
      * by destruct (privileged a).
      * done.
    + by destruct (privileged a).
  - destruct (active sub); simpl; [done|]. by destruct (privileged a).
Qed.

(** X12: the login never answers [subscription_expired]: an active
    subscription whose expiration has passed is deactivated first, so the
    check that follows answers [subscription_inactive] instead. *)
Theorem subscription_expired_never_answered e d req status :
  (handler e d req).1 <> Json status "subscription_expired".
Proof.
  unfold handler.
  destruct (is_post req); cbn [negb]; [|done].
  destruct (assistant_id req) as [rawId|]; [|done].
  destruct (req_password req) as [pw|]; [|done].
  destruct (falsy (Some rawId) || String.eqb pw ""); [done|].
  destruct (find_user rawId (users d)) as [a|]; [|done].
  destruct (bcrypt_compare e pw (password a)); cbn [negb]; [|done].
  destruct (String.eqb (accountState d a) "Activated"); cbn [negb]; last first.
  { by destruct (String.eqb (role a) "student"). }
  pose proof (subscription_gate_never_expired e d a) as Hnever.
  destruct (subscription_gate e d a) as [[err|] d1]; cbn [fst snd] in *.
  { intros [= _ ->]. done. }
  destruct (isDeviceLimitationsEnabled e && negb (String.eqb (role a) "developer"));
    [|done].
  by destruct (register_device e req a).
Qed.


Lemma filter_none {A} (p : A -> bool) l :
  Forall (fun y => p y = false) l -> List.filter p l = [].
Proof. induction 1 as [|y l Hy _ IH]; simpl; [done|]. by rewrite Hy. Qed.

Lemma filter_alter_length {A} (p : A -> bool) f i (l : list A) :
  (forall y, p (f y) = p y) ->
  length (List.filter p (alter f i l)) = length (List.filter p l).
Proof.
  intros Hp. revert i. induction l as [|y l IH]; intros [|i]; simpl; try done.
  - rewrite Hp. by destruct (p y).
  - specialize (IH i). unfold alter in IH. destruct (p y); simpl; by rewrite IH.
Qed.

Lemma touch_device_keeps_id e req x old :
  has_device_id x (touch_device e req old) = has_device_id x old.
Proof.
  unfold has_device_id, touch_device. by rewrite !lookup_insert_ne.
Qed.

Lemma new_device_id e req x :
  has_device_id x (new_device e req) = String.eqb (incomingDeviceId req) x.
Proof.
  unfold has_device_id.
  by destruct (new_device_fields e req) as [-> _].
Qed.

(** What the device limitations block stores when it lets the login in. *)
Lemma register_device_stores e req a updatedLimitations :
  register_device e req a = Some updatedLimitations ->
  exists ds,
    devices updatedLimitations = Some ds /\
    allowed_devices updatedLimitations = Some (allowedDevices a) /\
    (length ds = length (devices_of a)
     \/ (length ds = S (length (devices_of a))
         /\ Z.of_nat (length (devices_of a)) < allowedDevices a)) /\
    (forall x,
        count_id x ds = count_id x (devices_of a)
        \/ (count_id x (devices_of a) = 0%nat /\ count_id x ds = 1%nat)).
Proof.
  unfold register_device.
  destruct (findIndex _ (devices_of a)) as [i|] eqn:Hi.
  - intros [= <-]. eexists. split; [done|]. split; [done|]. split.
    + left. apply length_alter.
    + intros x. left. unfold count_id.
      apply filter_alter_length. intros y. apply touch_device_keeps_id.
  - rewrite Z.geb_leb.
    destruct (allowedDevices a <=? Z.of_nat (length (devices_of a)))%Z eqn:E;
      [done|].
    apply Z.leb_gt in E. intros [= <-]. eexists.
    split; [done|]. split; [done|]. split.
    + right. split; [|done]. rewrite length_app. simpl. lia.
    + intros x. unfold count_id. rewrite List.filter_app, length_app. simpl.
      rewrite new_device_id.
      destruct (String.eqb_spec (incomingDeviceId req) x) as [<-|]; simpl.
      * right. apply findIndex_None in Hi. by rewrite filter_none.
      * left. lia.
Qed.

Lemma allowedDevices_with_limitations a upd n :
  allowed_devices upd = Some n ->
  allowedDevices (with_limitations a (Some upd)) = n.
Proof. unfold allowedDevices. simpl. by intros ->. Qed.

Lemma devices_of_stored a upd ds :
  devices upd = Some ds -> devices_of (with_limitations a (Some upd)) = ds.
Proof. unfold devices_of. simpl. by intros ->. Qed.

(** The users after a login, related one by one to the users before. *)
Lemma handler_users_Forall2 (R : user -> user -> Prop) e d req :
  NoDup (_id <$> users d) ->
  (forall u, R u u) ->
  (forall a upd, a ∈ users d -> register_device e req a = Some upd ->
                 R a (with_limitations a (Some upd))) ->
  Forall2 R (users d) (users (handler e d req).2).
Proof.
  intros Hnd Hrefl Hupd.
  destruct (handler_users e d req)
    as [->|(rawId & a & upd & _ & Hfind & _ & _ & Hreg & ->)].
  { by apply Forall_Forall2_diag, Forall_forall. }
  apply find_user_elem in Hfind.
  destruct (updateOne_by_id (users d) a
              (fun u => with_limitations u (Some upd)) Hnd Hfind)
    as (us1 & us2 & E & ->).
  rewrite E. apply Forall2_app; [|constructor].
  - by apply Forall_Forall2_diag, Forall_forall.
  - by apply Hupd.
  - by apply Forall_Forall2_diag, Forall_forall.
Qed.

Lemma Forall2_transport {A} (R : A -> A -> Prop) (P : A -> Prop) l l' :
  (forall u u', R u u' -> P u -> P u') ->
  Forall2 R l l' -> Forall P l -> Forall P l'.
Proof.
  intros HR HF. induction HF as [|u u' l l' Hu _ IH]; [done|].
  intros [? ?]%Forall_cons. constructor; eauto.
Qed.

(** X14: a login never grows a device list beyond the cap: for every
    user the cap stays the same and the list is no longer than the larger
    of its old length and the cap; so users within their cap stay within
    it. *)
Theorem login_keeps_within_cap e d req :
  NoDup (_id <$> users d) ->
  Forall2 (fun u u' =>
             allowedDevices u' = allowedDevices u /\
             Z.of_nat (length (devices_of u'))
             <= Z.max (Z.of_nat (length (devices_of u))) (allowedDevices u))
    (users d) (users (handler e d req).2)
  /\ (Forall within_cap (users d) ->
      Forall within_cap (users (handler e d req).2)).
Proof.
  intros Hnd.
  assert (Forall2 (fun u u' =>
             allowedDevices u' = allowedDevices u /\
             Z.of_nat (length (devices_of u'))
             <= Z.max (Z.of_nat (length (devices_of u))) (allowedDevices u))
            (users d) (users (handler e d req).2)) as HF.
  { apply handler_users_Forall2; [done|intros u; split; [done|lia]|].
    intros a upd _ Hreg.
    destruct (register_device_stores _ _ _ _ Hreg) as (ds & Hds & Hal & Hlen & _).
    rewrite (allowedDevices_with_limitations _ _ _ Hal),
            (devices_of_stored _ _ _ Hds).
    split; [done|]. destruct Hlen as [->|[-> ?]]; lia. }
  split; [done|].
  eapply Forall2_transport; [|exact HF].
  intros u u' [Hal Hlen]. unfold within_cap. rewrite Hal. lia.
Qed.

Lemma login_keeps_within_cap_witness :
  Forall within_cap
    (users (handler Samples.login_env Samples.scenario1
              (Samples.login_request 12 "B")).2).
Proof.
  apply (login_keeps_within_cap Samples.login_env Samples.scenario1
           (Samples.login_request 12 "B")).
  - vm_compute. apply NoDup_singleton.
  - repeat constructor. vm_compute. discriminate.
Defined.

(** X15: a login never stores two records with the same device id: for
    every user and every id the number of records with that id is as
    before, or goes from none to one; so lists without duplicates stay
    without duplicates. *)
Theorem login_keeps_device_ids_unique e d req :
  NoDup (_id <$> users d) ->
  Forall2 (fun u u' =>
             forall x,
               count_id x (devices_of u') = count_id x (devices_of u)
               \/ (count_id x (devices_of u) = 0%nat
                   /\ count_id x (devices_of u') = 1%nat))
    (users d) (users (handler e d req).2)
  /\ (Forall (fun u => unique_ids (devices_of u)) (users d) ->
      Forall (fun u => unique_ids (devices_of u)) (users (handler e d req).2)).
Proof.
  intros Hnd.
  assert (Forall2 (fun u u' =>
             forall x,
               count_id x (devices_of u') = count_id x (devices_of u)
               \/ (count_id x (devices_of u) = 0%nat
                   /\ count_id x (devices_of u') = 1%nat))
            (users d) (users (handler e d req).2)) as HF.
  { apply handler_users_Forall2; [done|by left|].
    intros a upd _ Hreg.
    destruct (register_device_stores _ _ _ _ Hreg) as (ds & Hds & _ & _ & Hcount).
    by rewrite (devices_of_stored _ _ _ Hds). }
  split; [done|].
  eapply Forall2_transport; [|exact HF].
  intros u u' Hu Hq x. specialize (Hq x). destruct (Hu x) as [->|[_ ->]]; lia.
Qed.

Lemma login_keeps_device_ids_unique_witness :
  let d := Samples.store_of
             [Samples.account 1 12 "student" 2 [Samples.device_of "A" "t1"]]
             None in
  Forall (fun u => unique_ids (devices_of u))
    (users (handler Samples.login_env d (Samples.login_request 12 "A")).2).
Proof.
  intros d.
  apply (login_keeps_device_ids_unique Samples.login_env d
           (Samples.login_request 12 "A")).
  - simpl. apply NoDup_singleton.
  - apply Forall_cons. split; [|apply Forall_nil_2].
    intros y. unfold count_id. simpl.
    destruct (has_device_id y (Samples.device_of "A" "t1")); simpl; lia.
Defined.



(** Without a subscription in force a student is still let through. *)
Lemma student_passes_subscription e d a :
  role a = "student" -> without_subscription e d && negb (privileged a) = false.
Proof.
  intros Hrole. unfold privileged. rewrite Hrole. simpl.
  by rewrite andb_false_r.
Qed.



(** A full list refuses a new device; with one record pulled it takes
    it. *)
Lemma register_after_pull e req a x l1 dev l2 :
  devices_of a = l1 ++ dev :: l2 ->
  has_device_id x dev = true ->
  Forall (fun o => has_device_id x o = false) l1 ->
  Forall (fun o => has_device_id x o = false) l2 ->
  Z.of_nat (length (devices_of a)) = allowedDevices a ->
  Forall (fun o => has_device_id (incomingDeviceId req) o = false) (devices_of a) ->
  register_device e req a = None
  /\ exists updatedLimitations,
       register_device e req (pull_device x a) = Some updatedLimitations
       /\ devices updatedLimitations = Some (l1 ++ l2 ++ [new_device e req])
       /\ allowed_devices updatedLimitations = Some (allowedDevices a).
Proof.
  intros El Hx H1 H2 Hfull Hnew. split.
  - unfold register_device.
    apply findIndex_None in Hnew. rewrite Hnew, Z.geb_leb.
    by rewrite (proj2 (Z.leb_le _ _)) by lia.
  - assert (devices_of (pull_device x a) = l1 ++ l2) as Epull.
    { rewrite pull_device_devices, El. by apply filter_out_one. }
    assert (allowedDevices (pull_device x a) = allowedDevices a) as Eal.
    { unfold allowedDevices, pull_device.
      destruct (device_limitations a) as [[al ll [ds|]]|] eqn:E; simpl;
        by rewrite ?E. }
    unfold register_device. rewrite Epull, Eal.
    assert (findIndex (has_device_id (incomingDeviceId req)) (l1 ++ l2) = None)
      as ->.
    { apply findIndex_None. rewrite El in Hnew.
      apply Forall_app in Hnew as [Ha Hb]. apply Forall_cons in Hb as [_ Hb].
      by apply Forall_app. }
    rewrite Z.geb_leb.
    assert ((allowedDevices a <=? Z.of_nat (length (l1 ++ l2)))%Z = false) as ->.
    { apply Z.leb_gt. rewrite <- Hfull, El, !length_app. simpl. lia. }
    eexists. split; [done|]. simpl. by rewrite <- app_assoc.
Qed.

(** The lookup of a numeric id finds the first user with it. *)
Lemma find_user_first n us1 a us2 :
  Forall (fun u => id u <> Num n) us1 -> id a = Num n ->
  find_user (Num n) (us1 ++ a :: us2) = Some a.
Proof.
  intros H1 Ha. unfold find_user, findOne_id.
  assert (List.find (fun u => bool_decide (id u = Num n)) (us1 ++ a :: us2)
          = Some a) as ->; [|done].
  induction H1 as [|u l Hu _ IH]; simpl.
  - by rewrite bool_decide_eq_true_2.
  - by rewrite bool_decide_eq_false_2.
Qed.

(** With unique [_id]s, the update by [_id] lands where the document
    stands. *)
Lemma updateOne_at_id us1 a us2 a' f :
  NoDup (_id <$> us1 ++ a :: us2) -> _id a' = _id a ->
  updateOne (fun u => (_id u =? _id a')%N) f (us1 ++ a' :: us2)
  = us1 ++ f a' :: us2.
Proof.
  intros Hnd Hid.
  apply updateOne_first; [|apply N.eqb_refl].
  rewrite fmap_app, fmap_cons in Hnd.
  apply NoDup_app in Hnd as (_ & Hdis & _).
  apply Forall_forall. intros v Hv. apply N.eqb_neq. intros Heq.
  apply (Hdis (_id v)); [by apply list_elem_of_fmap_2|].
  rewrite Heq, Hid. by left.
Qed.

(** X17: deleting a device frees a slot.  A student whose list is full
    logs in from an unknown device: the login is refused with 403
    [device_limit_reached] and [users] stays as it is.  Once a [DELETE] on
    the students endpoint has removed the one record with the id [x], the
    same login succeeds, and the list stored for the student is the
    remaining records followed by the new one. *)
Theorem delete_frees_a_slot e ea d req del n pw a us1 us2 x l1 dev l2 :
  users d = us1 ++ a :: us2 ->
  NoDup (_id <$> users d) ->
  Forall (fun u => id u <> Num n) us1 ->
  id a = Num n -> n <> 0 -> role a = "student" ->
  is_post req = true -> assistant_id req = Some (Num n) ->
  req_password req = Some pw -> pw <> "" ->
  bcrypt_compare e pw (password a) = true ->
  accountState d a = "Activated" ->
  isDeviceLimitationsEnabled e = true ->
  devices_of a = l1 ++ dev :: l2 ->
  has_device_id x dev = true ->
  Forall (fun o => has_device_id x o = false) l1 ->
  Forall (fun o => has_device_id x o = false) l2 ->
  Z.of_nat (length (devices_of a))
  = default 1 (device_limitations a ≫= allowed_devices) ->
  Forall (fun o => has_device_id (incomingDeviceId req) o = false) (devices_of a) ->
  Devices.gate ea = None ->
  Devices.method del = Devices.DELETE ->
  parseInt_scalar (Devices.req_id del) = JS.Int n ->
  Devices.req_device_id del = Some x -> x <> "" ->
  let d' := (Devices.Students.handler ea d del).2 in
  (handler e d req).1 = Json 403 "device_limit_reached"
  /\ users (handler e d req).2 = users d
  /\ (Devices.Students.handler ea d del).1 = Devices.Success
  /\ (handler e d' req).1 = success e a
  /\ exists a',
       users (handler e d' req).2 = us1 ++ a' :: us2
       /\ same_account a a'
       /\ devices_of a' = l1 ++ l2 ++ [new_device e req].
Proof.
  intros Hd Hnd Hfirst Hida Hn0 Hrole Hp Hid Hpw Hne Hb Hacc Hen El Hx H1 H2
    Hfull Hnew Hg Hm Hparse Hdev Hxne d'.
  assert (falsy (Some (Num n)) = false) as Hf by (by apply Z.eqb_neq).
  assert (Z.of_nat (length (devices_of a)) = allowedDevices a) as Hfull'.
  { rewrite Hfull. unfold allowedDevices.
    by destruct (device_limitations a) as [[[c|] ? ?]|]. }
  destruct (register_after_pull e req a x l1 dev l2 El Hx H1 H2 Hfull' Hnew)
    as (Hrefused & upd & Hupd & Hdevs & _).
  assert (isDeviceLimitationsEnabled e && negb (String.eqb (role a) "developer")
          = true) as Hlim by (by rewrite Hen, Hrole).
  (* the login before the deletion *)
  destruct (handler_checks e d req (Num n) pw Hp Hid Hpw Hf Hne) as [_ Hchecks].
  destruct (Hchecks a) as (_ & _ & Hpass).
  { rewrite Hd. by apply find_user_first. }
  destruct Hpass as (_ & _ & _ & Hblock).
  { split; [|done]. rewrite Hd. by apply find_user_first. }
  specialize (Hblock (student_passes_subscription e d a Hrole)).
  rewrite Hlim, Hrefused in Hblock. destruct Hblock as [Hr1 Hr2].
  split; [done|]. split; [done|].
  (* the deletion *)
  assert (Devices.Students.handler ea d del
          = (Devices.Success, with_users d (us1 ++ pull_device x a :: us2))) as Hdel.
  { unfold Devices.Students.handler. rewrite Hg, Hm, Hparse, Hdev.
    apply String.eqb_neq in Hxne as ->.
    destruct n; [done| |]; rewrite Hd;
      (rewrite updateOne_first; [done| |
         unfold Devices.Students.is_student;
         by rewrite Hida, Hrole, bool_decide_eq_true_2]);
      (eapply Forall_impl; [exact Hfirst|]; intros u Hu;
       unfold Devices.Students.is_student;
       by rewrite bool_decide_eq_false_2). }
  subst d'. rewrite Hdel. cbn [fst snd]. split; [done|].
  (* the login after the deletion *)
  set (a1 := pull_device x a).
  set (d1 := with_users d (us1 ++ a1 :: us2)).
  destruct (pull_device_account x a) as (H_id & Hid1 & Hpw1 & Hname1 & Hrole1 & Hst1).
  fold a1 in H_id, Hid1, Hpw1, Hname1, Hrole1, Hst1.
  assert (role a1 = "student") as Hrole' by congruence.
  destruct (handler_checks e d1 req (Num n) pw Hp Hid Hpw Hf Hne) as [_ Hchecks1].
  assert (find_user (Num n) (users d1) = Some a1) as Hfind1.
  { simpl. apply find_user_first; [done|congruence]. }
  destruct (Hchecks1 a1 Hfind1) as (_ & _ & Hpass1).
  destruct Hpass1 as (_ & _ & _ & Hblock1).
  { split; [done|]. split; [congruence|].
    unfold accountState in *. rewrite Hrole', Hid1. by rewrite Hrole in Hacc. }
  specialize (Hblock1 (student_passes_subscription e d1 a1 Hrole')).
  rewrite Hrole', Hen in Hblock1. simpl in Hblock1.
  fold a1 in Hupd. rewrite Hupd in Hblock1. destruct Hblock1 as [Hs1 Hs2].
  split.
  { rewrite Hs1. unfold success. by rewrite Hid1, Hname1, Hrole1. }
  exists (with_limitations a1 (Some upd)).
  split.
  { rewrite Hs2. simpl.
    apply (updateOne_at_id us1 a us2 a1); [by rewrite <- Hd|done]. }
  split.
  { by repeat split. }
  unfold devices_of. simpl. by rewrite Hdevs.
Qed.

Lemma delete_frees_a_slot_witness :
  let a := Samples.account 1 12 "student" 2
             [Samples.device_of "A" "t1"; Samples.device_of "B" "t2"] in
  let d := Samples.store_of [a] None in
  let d' := (Devices.Students.handler Samples.admin_env d
               (Samples.delete_request "12" "A")).2 in
  (handler Samples.login_env d (Samples.login_request 12 "C")).1
  = Json 403 "device_limit_reached"
  /\ exists a',
       users (handler Samples.login_env d' (Samples.login_request 12 "C")).2 = [a']
       /\ devices_of a'
          = [Samples.device_of "B" "t2";
             new_device Samples.login_env (Samples.login_request 12 "C")].
Proof.
  intros a d d'.
  assert (NoDup (_id <$> users d)) as Hnd by (simpl; apply NoDup_singleton).
  assert ((12 : Z) <> 0) as H12 by discriminate.
  assert ("secret" <> "") as Hpw by discriminate.
  assert ("A" <> "") as HA by discriminate.
  assert (Forall (fun o => has_device_id "A" o = false)
            [Samples.device_of "B" "t2"]) as H2 by repeat constructor.
  assert (Forall (fun o => has_device_id
                    (incomingDeviceId (Samples.login_request 12 "C")) o = false)
            (devices_of a)) as Hnew by repeat constructor.
  destruct (delete_frees_a_slot Samples.login_env Samples.admin_env d
              (Samples.login_request 12 "C") (Samples.delete_request "12" "A")
              12 "secret" a [] [] "A" [] (Samples.device_of "A" "t1")
              [Samples.device_of "B" "t2"]
              eq_refl Hnd (Forall_nil_2 _) eq_refl H12 eq_refl eq_refl eq_refl
              eq_refl Hpw eq_refl eq_refl eq_refl eq_refl eq_refl
              (Forall_nil_2 _) H2 eq_refl Hnew eq_refl eq_refl eq_refl eq_refl HA)
    as (Hrefused & _ & _ & _ & a' & Hus & _ & Hdevs).
  split; [exact Hrefused|].
  exists a'. split; [exact Hus|exact Hdevs].
Defined.

End LoginMore.

(** ** The listing *)

Section ListingPages.
Import JS Store Listing.

Lemma ceil_div_spec a b :
  0 < b -> (ceil_div a b - 1) * b < a <= ceil_div a b * b.
Proof.
  intros Hb. unfold ceil_div.
  pose proof (Z.div_mod (- a) b ltac:(lia)) as Hdm.
  pose proof (Z.mod_pos_bound (- a) b Hb) as Hm. nia.
Qed.



Lemma page_of_chunk {A} (matched : list A) size k :
  1 <= size ->
  default [] (page_of matched (Z.of_nat (S k)) size)
  = take (Z.to_nat size) (drop (k * Z.to_nat size) matched).
Proof.
  intros Hsize. unfold page_of.
  assert ((Z.of_nat (S k) - 1) * size = Z.of_nat (k * Z.to_nat size)) as -> by nia.
  rewrite (proj2 (Z.ltb_ge _ _)) by lia.
  rewrite (proj2 (Z.leb_gt _ _)) by lia.
  simpl. by rewrite Nat2Z.id.
Qed.

Lemma pages_upto_take {A} (matched : list A) size n :
  1 <= size ->
  concat (pages_upto matched size n) = take (n * Z.to_nat size) matched.
Proof.
  intros Hsize. unfold pages_upto. induction n as [|n IH].
  - done.
  - rewrite List.seq_S, fmap_app, concat_app, IH. simpl.
    rewrite page_of_chunk, app_nil_r by done.
    rewrite take_take_drop. f_equal. lia.
Qed.

(** X19: the pages partition the listing: with a limit of at least one,
    the pages [1 .. totalPages] put one after the other are the matched
    users, in order and without repetition; no page holds more than
    [limit] users, and every page after [totalPages] is empty. *)
Theorem pages_partition_listing {A} (matched : list A) size :
  1 <= size ->
  let total := totalPages (paginate 1 size (Z.of_nat (length matched))) in
  concat (pages_upto matched size (Z.to_nat total)) = matched
  /\ (forall cp page, page_of matched cp size = Some page ->
        Z.of_nat (length page) <= size)
  /\ (forall cp, total < cp -> page_of matched cp size = Some []).
Proof.
  intros Hsize total.
  pose proof (ceil_div_spec (Z.of_nat (length matched)) size ltac:(lia)) as Hc.
  assert (total = ceil_div (Z.of_nat (length matched)) size) as Et by done.
  rewrite <- Et in Hc. split; [|split].
  - rewrite pages_upto_take by done. apply take_ge. nia.
  - intros cp page. unfold page_of.
    destruct (_ || _); [done|]. intros [= <-].
    rewrite length_take. lia.
  - intros cp Hcp. unfold page_of.
    assert (0 <= total) by nia.
    rewrite (proj2 (Z.ltb_ge _ _)) by nia.
    rewrite (proj2 (Z.leb_gt _ _)) by lia.
    simpl. rewrite drop_ge; [by rewrite take_nil|]. nia.
Qed.

Lemma pages_partition_listing_witness :
  concat (pages_upto [1; 2; 3; 4; 5] 2 3) = [1; 2; 3; 4; 5]
  /\ page_of [1; 2; 3; 4; 5] 3 2 = Some [5]
  /\ page_of [1; 2; 3; 4; 5] 4 2 = Some [].
Proof.
  destruct (pages_partition_listing [1; 2; 3; 4; 5] 2 ltac:(lia))
    as (H1 & _ & H3).
  split; [exact H1|]. split; [reflexivity|]. apply H3. reflexivity.
Defined.

Lemma or_else_truthy v dflt : dflt <> "" -> truthy (Some (or_else v dflt)) = true.
Proof.
  intros Hd. unfold or_else.
  destruct v as [x|]; [destruct (truthy (Some x)) eqn:E; [done|]|];
    simpl; by apply String.eqb_neq in Hd as ->.
Qed.

Lemma incomingDeviceId_nonempty req : Login.incomingDeviceId req <> "".
Proof.
  unfold Login.incomingDeviceId. destruct (Login.device_id req) as [s|]; [|done].
  destruct (String.eqb_spec (trim s) ""); done.
Qed.

(** X20: in the listing every device has a truthy [device_id], [ip],
    [browser], [os] and [device_type].  A record stored with a non-empty
    string [device_id], as the login stores them, is listed with that id,
    which is the id a [DELETE] matches; a record stored without
    [device_id] is listed as [unknown-device], an id that does not match
    it. *)
Theorem listed_device_ids (r : device) :
  (forall k, k ∈ ["device_id"; "ip"; "browser"; "os"; "device_type"] ->
             truthy (view_device r !! k) = true)
  /\ (forall s, r !! "device_id" = Some (JStr s) -> s <> "" ->
        view_device r !! "device_id" = Some (JStr s)
        /\ has_device_id s r = true)
  /\ (r !! "device_id" = None ->
        view_device r !! "device_id" = Some (JStr "unknown-device")
        /\ has_device_id "unknown-device" r = false)
  /\ (forall e req,
        exists s, Login.new_device e req !! "device_id" = Some (JStr s) /\ s <> ""
                  /\ forall old, has_device_id s old = true ->
                       has_device_id s (Login.touch_device e req old) = true).
Proof.
  split; [|split; [|split]].
  - intros k Hk. rewrite !elem_of_cons in Hk.
    destruct Hk as [->|[->|[->|[->|[->|Hk]]]]];
      [..|by apply elem_of_nil in Hk];
      unfold view_device; simplify_map_eq; by apply or_else_truthy.
  - intros s Hs Hne. unfold view_device, has_device_id. rewrite Hs.
    simplify_map_eq. unfold or_else. simpl.
    apply String.eqb_neq in Hne as ->. simpl. by rewrite String.eqb_refl.
  - intros Hnone. unfold view_device, has_device_id. rewrite Hnone.
    by simplify_map_eq.
  - intros e req. exists (Login.incomingDeviceId req).
    destruct (new_device_fields e req) as [-> _].
    split; [done|]. split; [apply incomingDeviceId_nonempty|].
    intros old. by rewrite touch_device_keeps_id.
Qed.

End ListingPages.

(** ** The form of an online session *)

Section OnlineSessionForm.
Import JS OnlineSession.

Lemma take_id_spec n s i :
  take_id n s = Some i ->
  exists rest, s = i +:+ rest /\ String.length i = n
               /\ Forall (fun c => id_char c = true) (String.list_ascii_of_string i).
Proof.
  revert s i. induction n as [|n IH]; intros s i; simpl.
  - intros [= <-]. by exists s.
  - destruct s as [|c s]; [done|].
    destruct (id_char c) eqn:Hc; [|done].
    intros (j & Hj & ->)%fmap_Some.
    destruct (IH _ _ Hj) as (rest & -> & Hlen & Hall).
    exists rest. simpl. split; [done|]. split; [by rewrite Hlen|].
    by constructor.
Qed.

Lemma take_id_exact i rest :
  Forall (fun c => id_char c = true) (String.list_ascii_of_string i) ->
  take_id (String.length i) (i +:+ rest) = Some i.
Proof.
  induction i as [|c i IH]; simpl; [done|].
  intros [Hc Hi]%Forall_cons. by rewrite Hc, IH.
Qed.

Lemma search_spec {A} (here : string -> option A) s x :
  search here s = Some x ->
  exists before after, s = before +:+ after /\ here after = Some x.
Proof.
  induction s as [|c s IH]; simpl.
  - destruct (here "") eqn:E; [|done]. intros [= <-]. by exists "", "".
  - destruct (here (String c s)) eqn:E.
    + intros [= <-]. by exists "", (String c s).
    + intros (before & after & -> & H)%IH.
      by exists (String c before), after.
Qed.

Lemma append_String c a b : String c a +:+ b = String c (a +:+ b).
Proof. done. Qed.

Lemma append_empty b : "" +:+ b = b.
Proof. done. Qed.

(** One of the three forms at the start of a text gives the eleven
    characters that follow it. *)
Lemma youtube_here_inv after i :
  youtube_here after = Some i ->
  String.length i = 11%nat
  /\ Forall (fun c => id_char c = true) (String.list_ascii_of_string i)
  /\ exists p rest,
       after = p +:+ i +:+ rest /\
       p ∈ ["youtu.be/"; "youtube.com/watch?v="; "youtube.com/embed/"].
Proof.
  intros Hhere.
  assert (exists p, alternative p after = Some i /\
            p ∈ ["youtu.be/"; "youtube.com/watch?v="; "youtube.com/embed/"])
    as (p & Halt & Hp).
  { unfold youtube_here in Hhere.
    destruct (alternative "youtu.be/" after) eqn:E1.
    { injection Hhere as ->. eexists. split; [exact E1|]. set_solver. }
    destruct (alternative "youtube.com/watch?v=" after) eqn:E2.
    { injection Hhere as ->. eexists. split; [exact E2|]. set_solver. }
    eexists. split; [exact Hhere|]. set_solver. }
  unfold alternative in Halt.
  apply bind_Some in Halt as (r & Hr%strip_prefix_inv & Hid).
  destruct (take_id_spec _ _ _ Hid) as (rest & -> & Hlen & Hall).
  split; [done|]. split; [done|].
  exists p, rest. by rewrite Hr.
Qed.

(** X21: an id read in a URL is made of eleven characters of the class
    [a-zA-Z0-9_-], and stands in the URL right after [youtu.be/],
    [youtube.com/watch?v=] or [youtube.com/embed/]. *)
Theorem extracted_id_shape url i :
  extractYouTubeId url = Some i ->
  String.length i = 11%nat
  /\ Forall (fun c => id_char c = true) (String.list_ascii_of_string i)
  /\ exists before p rest,
       url = before +:+ p +:+ i +:+ rest /\
       p ∈ ["youtu.be/"; "youtube.com/watch?v="; "youtube.com/embed/"].
Proof.
  unfold extractYouTubeId.
  intros (before & after & -> & Hhere)%search_spec.
  destruct (youtube_here_inv _ _ Hhere) as (Hlen & Hall & p & rest & -> & Hp).
  split; [done|]. split; [done|].
  by exists before, p, rest.
Qed.

Lemma extracted_id_shape_witness :
  String.length "dQw4w9WgXcQ" = 11%nat.
Proof.
  apply (extracted_id_shape "see https://youtu.be/dQw4w9WgXcQ?t=3" "dQw4w9WgXcQ").
  reflexivity.
Defined.

(** X22: the id comes back from the URLs built with it: for every id of
    eleven characters of the class, whatever follows it, the three forms
    of URL give the id; the first is the URL the page builds from a stored
    YouTube id. *)
Theorem youtube_url_round_trip i rest :
  String.length i = 11%nat ->
  Forall (fun c => id_char c = true) (String.list_ascii_of_string i) ->
  extractYouTubeId ("https://www.youtube.com/watch?v=" +:+ i +:+ rest) = Some i
  /\ extractYouTubeId ("https://youtu.be/" +:+ i +:+ rest) = Some i
  /\ extractYouTubeId ("https://www.youtube.com/embed/" +:+ i +:+ rest) = Some i.
Proof.
  intros Hlen Hall.
  pose proof (take_id_exact i rest Hall) as Hid. rewrite Hlen in Hid.
  unfold extractYouTubeId.
  repeat split; rewrite !append_String, append_empty;
    cbn -[take_id]; unfold youtube_here, alternative;
    cbn -[take_id search]; by rewrite Hid.
Qed.

Lemma youtube_url_round_trip_witness :
  extractYouTubeId "https://www.youtube.com/watch?v=dQw4w9WgXcQ&t=42"
  = Some "dQw4w9WgXcQ".
Proof.
  refine (proj1 (youtube_url_round_trip "dQw4w9WgXcQ" "&t=42" eq_refl _)).
  repeat constructor.
Defined.

Lemma search_hit {A} (here : string -> option A) s x :
  here s = Some x -> search here s = Some x.
Proof. destruct s; simpl; by intros ->. Qed.

Lemma is_digit_not_space c : is_digit c = true -> is_space c = false.
Proof.
  unfold is_digit, is_space.
  destruct (N_of_ascii c) as [|p] eqn:E; [done|].
  intros [H1 H2]%andb_prop. apply N.leb_le in H1, H2.
  repeat (apply orb_false_intro || apply andb_false_intro2);
    try apply N.leb_gt; try apply N.eqb_neq; lia.
Qed.

Lemma trim_start_digits s : all_digits s = true -> trim_start s = s.
Proof.
  destruct s as [|c s]; simpl; [done|].
  intros [Hc _]%andb_prop. by rewrite (is_digit_not_space c Hc).
Qed.

Lemma pretty_N_char_digit x :
  (x < 10)%N ->
  is_digit (pretty_N_char x) = true /\ digit_value (pretty_N_char x) = Z.of_N x.
Proof.
  intros Hx.
  assert (x = 0 \/ x = 1 \/ x = 2 \/ x = 3 \/ x = 4 \/ x = 5 \/ x = 6
          \/ x = 7 \/ x = 8 \/ x = 9)%N as Hc by lia.
  repeat (destruct Hc as [->|Hc]; [done|]). by subst.
Qed.

Lemma pretty_N_go_digits x s :
  all_digits s = true ->
  all_digits (pretty_N_go x s) = true
  /\ decimal_from 0 (pretty_N_go x s) = decimal_from (Z.of_N x) s.
Proof.
  revert s. induction (N.lt_wf_0 x) as [x _ IH]; intros s Hs.
  assert (x = 0 \/ 0 < x)%N as [->|Hx] by lia.
  - by rewrite pretty_N_go_0.
  - rewrite pretty_N_go_step by done.
    destruct (pretty_N_char_digit (x `mod` 10)%N) as [Hd Hv].
    { by apply N.mod_lt. }
    destruct (IH (x `div` 10)%N ltac:(by apply N.div_lt)
                 (String (pretty_N_char (x `mod` 10)) s)) as [H1 H2].
    { simpl. by rewrite Hd, Hs. }
    split; [done|]. rewrite H2. simpl. rewrite Hv. f_equal.
    pose proof (N.div_mod x 10 ltac:(done)). lia.
Qed.

(** A number that is not negative reads back from its decimal form. *)
Lemma decimal_pretty (n : Z) :
  0 <= n ->
  all_digits (pretty n) = true /\ decimal (pretty n) = n /\ pretty n <> "".
Proof.
  intros Hn. destruct n as [|p|p]; [done| |lia].
  unfold pretty, pretty_Z, pretty, pretty_positive, pretty, pretty_N.
  rewrite decide_False by done.
  destruct (pretty_N_go_digits (N.pos p) "" eq_refl) as [H1 H2].
  split; [done|]. split; [done|].
  intros Hempty. pose proof (pretty_N_go_ne_0 (N.pos p) "") as Hne0.
  rewrite Hempty in H2. done.
Qed.

Lemma padStart_digits s :
  all_digits s = true ->
  all_digits (padStart 2 "0" s) = true
  /\ decimal (padStart 2 "0" s) = decimal s.
Proof.
  intros Hs. unfold padStart.
  destruct (2 - String.length s)%nat as [|[|[|k]]] eqn:E; simpl;
    try done; lia.
Qed.

(** X23: a week number that is not negative reads back from the string
    shown for it, and no week is read from the empty string shown for no
    week. *)
Theorem week_round_trip n :
  0 <= n ->
  extractWeekNumber (weekNumberToString (Some n)) = Some n
  /\ extractWeekNumber (weekNumberToString None) = None.
Proof.
  intros Hn. split; [|done].
  destruct (decimal_pretty n Hn) as (Hd & Hv & Hne).
  destruct (padStart_digits (pretty n) Hd) as [Hpd Hpv].
  set (padded := padStart 2 "0" (pretty n)) in *.
  assert (padded <> "") as Hpne.
  { unfold padded, padStart.
    destruct (pretty n); [done|]. by destruct (_ - _)%nat. }
  unfold weekNumberToString, extractWeekNumber. fold padded.
  change ("week " +:+ padded) with (String "w" (String "e" (String "e"
            (String "k" (String " " padded))))).
  cbn [String.eqb].
  rewrite (search_hit week_here _ padded); [by rewrite <- Hv, <- Hpv|].
  unfold week_here.
  change (strip_prefix_ci "week" _) with (Some (String " " padded)).
  cbv iota beta.
  change (trim_start (String " " padded)) with (trim_start padded).
  rewrite trim_start_digits, span_digits_all by done.
  by apply String.eqb_neq in Hpne as ->.
Qed.

Lemma week_round_trip_witness :
  extractWeekNumber "week 07" = Some 7.
Proof. exact (proj1 (week_round_trip 7 ltac:(lia))). Defined.

Lemma remove_at_length {A} i (l : list A) :
  (i < length l)%nat -> length (remove_at i l) = pred (length l).
Proof.
  revert i. induction l as [|x l IH]; intros [|i]; simpl; try lia.
  intros Hi. rewrite IH by lia. lia.
Qed.

Lemma remove_at_lookup {A} i (l : list A) j :
  remove_at i l !! j = if (j <? i)%nat then l !! j else l !! S j.
Proof.
  revert i j. induction l as [|x l IH]; intros [|i] [|j]; simpl; try done.
  - by destruct (_ <? _)%nat.
  - rewrite IH. done.
Qed.

Lemma remove_at_ge {A} i (l : list A) :
  (length l <= i)%nat -> remove_at i l = l.
Proof.
  revert i. induction l as [|x l IH]; intros [|i]; simpl; try done; try lia.
  intros Hi. by rewrite IH by lia.
Qed.

Lemma remove_at_last {A} (l : list A) x : remove_at (length l) (l ++ [x]) = l.
Proof. induction l as [|y l IH]; simpl; [done|]. by rewrite IH. Qed.

(** X24: the form never loses its last row: adding a row appends a blank
    one; removing a row of a form with one row does nothing; removing
    the row [index] of a longer form takes that row out and keeps the
    others in order, and an index past the end removes nothing; adding a
    row and removing it again gives the rows back. *)
Theorem rows_never_empty videos index :
  (1 <= length videos)%nat ->
  (1 <= length (removeVideo index videos))%nat
  /\ length (addVideo videos) = S (length videos)
  /\ removeVideo (length videos) (addVideo videos) = videos
  /\ ((2 <= length videos)%nat -> (index < length videos)%nat ->
        length (removeVideo index videos) = pred (length videos)
        /\ forall j, removeVideo index videos !! j
                     = if (j <? index)%nat then videos !! j else videos !! S j)
  /\ ((length videos <= index)%nat -> removeVideo index videos = videos).
Proof.
  intros Hlen. unfold removeVideo, addVideo.
  split; [|split; [|split; [|split]]].
  - destruct (length videos <=? 1)%nat eqn:E; [done|].
    apply Nat.leb_gt in E.
    destruct (decide (index < length videos)%nat).
    + rewrite remove_at_length by done. lia.
    + rewrite remove_at_ge by lia. lia.
  - rewrite length_app. simpl. lia.
  - rewrite length_app. simpl.
    rewrite (proj2 (Nat.leb_gt _ _)) by lia. apply remove_at_last.
  - intros H2 Hi. rewrite (proj2 (Nat.leb_gt _ _)) by lia.
    split; [by apply remove_at_length|]. intros j. apply remove_at_lookup.
  - intros Hi. destruct (_ <=? _)%nat; [done|]. by apply remove_at_ge.
Qed.

Lemma rows_never_empty_witness :
  removeVideo 0 [blank_row] = [blank_row]
  /\ removeVideo 1 (addVideo [blank_row]) = [blank_row].
Proof.
  destruct (rows_never_empty [blank_row] 1 ltac:(simpl; lia))
    as (_ & _ & Hround & _ & Hout).
  split; [reflexivity|exact Hround].
Defined.

Lemma omap_id_nil {A} (l : list (option A)) :
  omap (fun e => e) l = [] -> Forall (fun e => e = None) l.
Proof.
  induction l as [|[x|] l IH]; simpl; [done|done|].
  intros H. constructor; [done|by apply IH].
Qed.

Lemma omap_all_Some {A B} (f : A -> option B) (P : B -> Prop) l :
  (forall x, x ∈ l -> exists y, f x = Some y /\ P y) ->
  length (omap f l) = length l /\ Forall P (omap f l).
Proof.
  induction l as [|x l IH]; intros H; simpl; [done|].
  destruct (H x ltac:(by left)) as (y & -> & Hy).
  destruct IH as [IH1 IH2]; [intros z Hz; apply H; by right|].
  split; [simpl; by f_equal|by constructor].
Qed.

Lemma filter_length_pos {A} (p : A -> bool) l :
  length (List.filter p l) <> 0%nat -> exists j x, l !! j = Some x /\ p x = true.
Proof.
  induction l as [|y l IH]; simpl; [done|].
  destruct (p y) eqn:E.
  - intros _. by exists 0%nat, y.
  - intros (j & x & Hj & Hx)%IH. by exists (S j), x.
Qed.

Lemma other_valid_intro index videos j v :
  videos !! j = Some v -> j <> index -> valid_row v = true ->
  other_valid index videos = true.
Proof.
  intros Hj Hne Hv. unfold other_valid. apply List.existsb_exists.
  exists (j, v). split.
  - apply list_elem_of_In, list_elem_of_lookup. exists j.
    by rewrite list_lookup_imap, Hj.
  - rewrite Hv, andb_true_r. apply negb_true_iff. by apply Nat.eqb_neq.
Qed.

(** A row that raises no error has a video to give. *)
Lemma row_without_error videos index video :
  videos !! index = Some video ->
  row_error videos index video = None ->
  exists fv, final_row video = Some fv /\
    ((video_type fv = "r2" /\ video_id fv <> ""
      /\ video_id fv = trim (r2_key video))
     \/ (video_type fv = "youtube" /\ String.length (video_id fv) = 11%nat
         /\ Forall (fun c => id_char c = true)
              (String.list_ascii_of_string (video_id fv)))).
Proof.
  intros Hrow. unfold row_error, final_row.
  destruct (filled (r2_key video)) eqn:Hr.
  { intros _. eexists. split; [done|]. left. simpl.
    split; [done|]. split; [|done].
    unfold filled in Hr. apply negb_true_iff in Hr. by apply String.eqb_neq. }
  destruct (filled (youtube_url video)) eqn:Hu.
  { destruct (extractYouTubeId _) as [i|] eqn:Hi; [|done].
    intros _. eexists. split; [done|]. right. simpl.
    unfold extractYouTubeId in Hi.
    apply search_spec in Hi as (before & after & _ & Hhere).
    destruct (youtube_here_inv _ _ Hhere) as (Hlen & Hall & _). done. }
  destruct (Nat.eqb_spec (length (List.filter valid_row videos)) 0) as [|Hpos];
    [done|]. simpl.
  destruct (filter_length_pos _ _ Hpos) as (j & v & Hj & Hv).
  assert (j <> index) as Hne.
  { intros ->. rewrite Hrow in Hj. injection Hj as <-.
    unfold valid_row in Hv. by rewrite Hr, Hu in Hv. }
  by rewrite (other_valid_intro index videos j v Hj Hne Hv).
Qed.

(** X25: what [handleSubmit] sends is well formed: the name and the grade
    are trimmed and not empty, the week is at least one, the payment
    state is one of the three, every row of the form gives one video, in
    order, which is an uploaded video with a key that is not empty or a
    YouTube video with an id of eleven characters of the class, and no
    other session has the same grade and week. *)
Theorem submitted_session_well_formed f p :
  handleSubmit f = inr p ->
  p_name p = trim (name f) /\ p_name p <> ""
  /\ p_grade p = trim (selectedGrade f) /\ p_grade p <> ""
  /\ 1 <= p_week p
  /\ p_payment_state p ∈ ["paid"; "free"; "free_if_attended"]
  /\ (1 <= length (videos f))%nat
  /\ length (p_videos p) = length (videos f)
  /\ Forall (fun fv =>
        (video_type fv = "r2" /\ video_id fv <> "")
        \/ (video_type fv = "youtube" /\ String.length (video_id fv) = 11%nat
            /\ Forall (fun c => id_char c = true)
                 (String.list_ascii_of_string (video_id fv))))
       (p_videos p)
  /\ Forall (fun s =>
        session_id s = id f \/ session_grade s <> p_grade p
        \/ session_week s <> p_week p)
       (sessions f).
Proof.
  unfold handleSubmit.
  destruct (first_errors f) as [|e l] eqn:Herr; [|done].
  unfold first_errors in Herr.
  destruct (String.eqb_spec (trim (selectedGrade f)) "") as [|Hgrade]; [done|].
  destruct (String.eqb (trim (selectedWeek f)) ""); [done|].
  destruct (bool_decide _) eqn:Hpay; [|done].
  apply bool_decide_eq_true in Hpay.
  destruct (String.eqb_spec (trim (name f)) "") as [|Hname]; [done|].
  destruct (Nat.eqb_spec (length (List.filter valid_row (videos f))) 0)
    as [|Hvalid]; [done|].
  simpl in Herr. apply omap_id_nil in Herr.
  assert (forall i v, videos f !! i = Some v ->
                      row_error (videos f) i v = None) as Hrows.
  { intros i v Hi. rewrite Forall_lookup in Herr.
    apply (Herr i). by rewrite list_lookup_imap, Hi. }
  destruct (extractWeekNumber (selectedWeek f)) as [[|w|w]|] eqn:Hweek; try done.
  2:{ exfalso. unfold extractWeekNumber in Hweek.
      destruct (String.eqb _ ""); [done|].
      apply fmap_Some in Hweek as (d & Hd & Hneg).
      apply search_spec in Hd as (? & after & _ & Hd).
      unfold week_here in Hd.
      destruct (strip_prefix_ci "week" after) as [r|]; [|done].
      destruct (span_digits (trim_start r)) as [d' rest] eqn:Hspan.
      destruct (String.eqb d' ""); [done|]. injection Hd as ->.
      apply span_digits_spec in Hspan as (_ & Hdig & _).
      pose proof (decimal_nonneg d Hdig). lia. }
  destruct (List.find _ (sessions f)) as [dup|] eqn:Hdup; [done|].
  intros [= <-]. simpl.
  destruct (omap_all_Some final_row
              (fun fv =>
                 (video_type fv = "r2" /\ video_id fv <> "")
                 \/ (video_type fv = "youtube"
                     /\ String.length (video_id fv) = 11%nat
                     /\ Forall (fun c => id_char c = true)
                          (String.list_ascii_of_string (video_id fv))))
              (videos f)) as [Hlen Hall].
  { intros v (i & Hi)%list_elem_of_lookup.
    destruct (row_without_error _ _ _ Hi (Hrows _ _ Hi)) as (fv & Hfv & Hshape).
    exists fv. split; [done|]. destruct Hshape as [(?&?&_)|?]; auto. }
  repeat split; try done.
  - lia.
  - destruct (videos f); [done|simpl; lia].
  - apply Forall_forall. intros s' Hin.
    apply list_elem_of_In in Hin.
    pose proof (List.find_none _ _ Hdup s' Hin) as Hno. simpl in Hno.
    destruct (String.eqb_spec (session_id s') (id f)); [by left|].
    destruct (String.eqb_spec (session_grade s') (trim (selectedGrade f)));
      [|by right; left].
    right; right. simpl in Hno. by apply Z.eqb_neq.
Qed.

Lemma submitted_session_well_formed_witness :
  exists p, handleSubmit sample_form = inr p
            /\ p_name p = "Motion" /\ p_grade p = "Grade 9" /\ p_week p = 3
            /\ length (p_videos p) = 2%nat.
Proof.
  eexists. split; [reflexivity|].
  destruct (submitted_session_well_formed sample_form _ eq_refl)
    as (Hn & _ & Hg & _ & _ & _ & _ & Hl & _).
  split; [exact Hn|]. split; [exact Hg|]. split; [reflexivity|exact Hl].
Defined.

End OnlineSessionForm.

(** ** Content types, and the page of the devices *)

Section ContentTypes.
Import JS VideoStream.

Lemma endsWith_rev s ext :
  endsWith s ext = true -> exists r, String.rev s = String.rev ext +:+ r.
Proof.
  unfold endsWith.
  destruct (strip_prefix (String.rev ext) (String.rev s)) as [r|] eqn:E; [|done].
  intros _. exists r. by apply strip_prefix_inv.
Qed.

(** X26: the content type of a key is that of its extension, whatever the
    case of the letters: each extension of the table gives its own type
    (no entry hides another), a key with none of them gives
    [application/octet-stream], and a content type stored with the object
    comes first when it is not empty. *)
Theorem content_type_by_extension key :
  (forall ext mime,
      (ext, mime) ∈ MIME_TYPES -> endsWith (toLowerCase key) ext = true ->
      getContentType key = mime)
  /\ ((forall ext mime, (ext, mime) ∈ MIME_TYPES ->
                        endsWith (toLowerCase key) ext = false) ->
      getContentType key = "application/octet-stream")
  /\ (forall meta t, ContentType meta = Some t -> t <> "" ->
                     content_type_of meta key = t)
  /\ (forall meta, ContentType meta = None \/ ContentType meta = Some "" ->
                   content_type_of meta key = getContentType key).
Proof.
  split; [|split; [|split]].
  - intros ext mime Hin Hends.
    apply endsWith_rev in Hends as [r Hrev].
    unfold MIME_TYPES in Hin. rewrite !elem_of_cons in Hin.
    cbv [getContentType MIME_TYPES List.find endsWith].
    destruct Hin as [H|[H|[H|[H|[H|[H|[H|[H|H]]]]]]]];
      [..|by apply elem_of_nil in H];
      injection H as -> ->; rewrite Hrev; reflexivity.
  - intros Hnone.
    assert (forall ext mime, (ext, mime) ∈ MIME_TYPES ->
              (let lower := toLowerCase key in endsWith lower ext) = false)
      as H by done.
    unfold getContentType, MIME_TYPES in *. cbn [List.find].
    repeat (erewrite H;
            [|repeat first [apply list_elem_of_here | apply list_elem_of_further]]).
    done.
  - intros meta t Ht Hne. unfold content_type_of. rewrite Ht.
    by apply String.eqb_neq in Hne as ->.
  - intros meta [H|H]; unfold content_type_of; by rewrite H.
Qed.

End ContentTypes.

Section DevicesPageSave.
Import JS Store Devices DevicesPage.

(** X27: a cap the page accepts is a cap the endpoint accepts.  When
    [handleSaveAllowedDevices] sends a number, it is the positive number
    the input reads as; the [PATCH] it sends for an id that is not empty
    is answered with success whenever the requester may use the endpoint,
    and the cap written is positive: the number sent when it is below
    [10^21], and from there on the first digit of its text. *)
Theorem saved_cap_is_accepted input num e d rawId :
  handleSaveAllowedDevices input = inr num ->
  gate e = None -> falsy (Some rawId) = false ->
  0 < num
  /\ parseInt_number (trim input) = Int num
  /\ (exists stored,
        accepted_allowed (Some (Num num)) = Some stored /\ 0 < stored
        /\ (num < 10 ^ 21 -> stored = num)
        /\ users (Assistants.handler e d (save_request rawId num)).2
           = updateOne (Assistants.is_assistant (Assistants.idQuery rawId))
               (set_allowed_devices stored) (users d))
  /\ (Assistants.handler e d (save_request rawId num)).1 = Success.
Proof.
  unfold handleSaveAllowedDevices.
  destruct (String.eqb (trim input) ""); [done|].
  destruct (parseInt_number (trim input)) as [|neg|n] eqn:Hparse; [done..|].
  destruct (n <=? 0) eqn:E; [done|]. intros [= ->] Hg Hf.
  apply Z.leb_gt in E.
  unfold parseInt_number in Hparse.
  destruct (parseInt (trim input)) as [z|]; [|done].
  pose proof (to_number_idem z num Hparse E) as Hidem.
  destruct (parseInt_of_number_pos num E) as (stored & Hread & Hpos & Hsame).
  assert (accepted_allowed (Some (Num num)) = Some stored) as Hacc.
  { unfold accepted_allowed, parseInt_scalar. rewrite Hidem, Hread.
    by rewrite (proj2 (Z.leb_gt _ _)). }
  split; [done|]. split; [done|].
  unfold Assistants.handler, save_request. rewrite Hg.
  cbn [method req_id req_allowed_devices]. rewrite Hf, Hacc.
  split; [|done]. by exists stored.
Qed.

Lemma saved_cap_is_accepted_witness :
  let d := Samples.store_of [Samples.account 1 7 "assistant" 2 []] None in
  let r := Assistants.handler Samples.admin_env d (save_request (Num 7) 3) in
  r.1 = Success
  /\ (fun u => device_limitations u ≫= allowed_devices) <$> users r.2 = [Some 3].
Proof.
  intros d r.
  destruct (saved_cap_is_accepted " 3 " 3 Samples.admin_env d (Num 7)
              eq_refl eq_refl eq_refl)
    as (_ & _ & (stored & Hacc & _ & Hsame & Hus) & Hs).
  split; [exact Hs|]. reflexivity.
Defined.

(** The numbers of a request are read as the code reads them: a number
    of [10^21] or more through the first digit of its text; a string of
    digits as the nearest double; digits beyond the doubles as an
    infinity, which is no cap and which the page does not send. *)
Example numbers_read_as_doubles :
  parseInt_scalar (Some (Num (10 ^ 21))) = Int 1
  /\ parseInt_scalar (Some (Num (10 ^ 21 - 1))) = Int 1
  /\ parseInt_scalar (Some (Num (10 ^ 23))) = Int 1
  /\ parseInt_scalar (Some (Num (25 * 10 ^ 20))) = Int 2
  /\ parseInt_scalar (Some (Num (10 ^ 20))) = Int (10 ^ 20)
  /\ parseInt_scalar (Some (Str "9007199254740993")) = Int 9007199254740992
  /\ parseInt_scalar (Some (Str "12abc")) = Int 12
  /\ accepted_allowed
       (Some (Str (String "1" (OnlineSession.replicate_char 400 "0")))) = None
  /\ handleSaveAllowedDevices (String "1" (OnlineSession.replicate_char 400 "0"))
     = inl MustBePositive
  /\ users (Students.handler Samples.admin_env
              (Samples.store_of [Samples.account 1 1 "student" 2 []] None)
              (Samples.patch_request (10 ^ 21) 3)).2
     = [Samples.account 1 1 "student" 3 []].
Proof. repeat split; vm_compute; reflexivity. Qed.

End DevicesPageSave.

(** * The configuration file *)

Section ConfigurationFile.
Import JS Config.

Lemma rev_app_rev_app s t u :
  String.rev_app (String.rev_app s t) u = String.rev_app t (s +:+ u).
Proof.
  revert t u. induction s as [|c s IH]; intros t u; [done|].
  simpl. by rewrite IH.
Qed.

Lemma append_nil_r s : s +:+ "" = s.
Proof. induction s as [|c s IH]; [done|]. by rewrite append_String, IH. Qed.

Lemma rev_rev s : String.rev (String.rev s) = s.
Proof.
  unfold String.rev. rewrite rev_app_rev_app. simpl. apply append_nil_r.
Qed.

Lemma rev_app_append s t u :
  String.rev_app (s +:+ t) u = String.rev_app t (String.rev_app s u).
Proof.
  revert u. induction s as [|c s IH]; intros u; [done|].
  rewrite append_String. simpl. by rewrite IH.
Qed.

Lemma append_assoc a b c : (a +:+ b) +:+ c = a +:+ (b +:+ c).
Proof.
  induction a as [|x a IH]; [done|]. by rewrite !append_String, IH.
Qed.

Lemma trim_tight s : tight s -> trim s = s.
Proof.
  intros [H1 H2]. unfold trim. by rewrite H1, H2, rev_rev.
Qed.

(** A string that starts and ends with a character that is no white space
    is tight. *)
Lemma tight_ends a s b :
  is_space a = false -> is_space b = false ->
  tight (String a (s +:+ String b "")).
Proof.
  intros Ha Hb. split.
  - simpl. by rewrite Ha.
  - rewrite <- append_String. unfold String.rev.
    rewrite rev_app_append. simpl. by rewrite Hb.
Qed.

Lemma tight_single a : is_space a = false -> tight (String a "").
Proof. intros Ha. split; simpl; by rewrite Ha. Qed.

(** The last character of a string that is not empty. *)
Lemma string_last s :
  s <> "" -> exists s0 b, s = s0 +:+ String b "".
Proof.
  induction s as [|c s IH]; [done|]. intros _.
  destruct s as [|c' s'].
  - by exists "", c.
  - destruct IH as (s0 & b & E); [done|].
    exists (String c s0), b. by rewrite append_String, <- E.
Qed.

Lemma tight_first s :
  tight s -> s <> "" -> exists a s', s = String a s' /\ is_space a = false.
Proof.
  intros [H _] Hne. destruct s as [|a s']; [done|].
  exists a, s'. split; [done|].
  simpl in H. destruct (is_space a) eqn:E; [|done].
  exfalso. clear -H.
  assert (forall t, String.length (trim_start t) <= String.length t)%nat as Hl.
  { induction t as [|c t IH]; simpl; [lia|]. destruct (is_space c); simpl; lia. }
  specialize (Hl s'). rewrite H in Hl. simpl in Hl. lia.
Qed.

Lemma tight_last s :
  tight s -> s <> "" -> exists s0 b, s = s0 +:+ String b "" /\ is_space b = false.
Proof.
  intros [_ H] Hne. destruct (string_last s Hne) as (s0 & b & ->).
  exists s0, b. split; [done|].
  unfold String.rev in H. rewrite rev_app_append in H. simpl in H.
  destruct (is_space b) eqn:E; [|done].
  exfalso.
  assert (forall t, String.length (trim_start t) <= String.length t)%nat as Hl.
  { induction t as [|c t IH]; simpl; [lia|]. destruct (is_space c); simpl; lia. }
  specialize (Hl (String.rev_app s0 "")). rewrite H in Hl. simpl in Hl. lia.
Qed.

(** A key, the sign and a value, both tight, make a tight line. *)
Lemma tight_assignment k v :
  tight k -> k <> "" -> tight v -> tight (k +:+ String "=" v).
Proof.
  intros Hk Hne Hv.
  destruct (tight_first k Hk Hne) as (a & k' & -> & Ha).
  rewrite append_String.
  destruct v as [|c v'].
  - by apply tight_ends.
  - destruct (tight_last (String c v') Hv) as (v0 & b & E & Hb); [done|].
    rewrite E.
    replace (k' +:+ String "=" (v0 +:+ String b ""))
      with ((k' +:+ String "=" v0) +:+ String b "").
    + by apply tight_ends.
    + by rewrite append_assoc, append_String.
Qed.

Lemma cut_at_first c k rest :
  without c k -> cut_at c (k +:+ String c rest) = Some (k, rest).
Proof.
  induction k as [|a k IH]; intros Hk.
  - simpl. by rewrite Ascii.eqb_refl.
  - apply Forall_cons in Hk as [Ha Hk].
    apply Ascii.eqb_neq in Ha. rewrite append_String. simpl.
    by rewrite Ha, IH.
Qed.

Lemma split_lines_nonempty s : split_lines s <> [].
Proof.
  destruct s as [|c s]; simpl; [done|].
  destruct (Ascii.eqb c newline); [done|]. by destruct (split_lines s).
Qed.

Lemma split_lines_append a b :
  split_lines (a +:+ String newline b) = split_lines a ++ split_lines b.
Proof.
  induction a as [|x a IH].
  - done.
  - rewrite append_String. simpl. rewrite IH.
    destruct (Ascii.eqb x newline); [done|].
    pose proof (split_lines_nonempty a).
    by destruct (split_lines a).
Qed.

Lemma split_lines_one l : without newline l -> split_lines l = [l].
Proof.
  induction l as [|c l IH]; intros Hl; [done|].
  apply Forall_cons in Hl as [Hc Hl]. simpl.
  apply Ascii.eqb_neq in Hc. by rewrite Hc, IH.
Qed.

(** The last line of the file is read last. *)
Lemma loadEnvConfig_last_line content line :
  without newline line ->
  loadEnvConfig (Some (content +:+ String newline line))
  = assign (loadEnvConfig (Some content)) line.
Proof.
  intros Hl. unfold loadEnvConfig.
  rewrite split_lines_append, foldl_app, (split_lines_one line); done.
Qed.

Lemma without_append c a b :
  without c a -> without c b -> without c (a +:+ b).
Proof.
  unfold without. induction a as [|x a IH]; intros Ha Hb; [done|].
  apply Forall_cons in Ha as [Hx Ha]. rewrite append_String. simpl.
  constructor; [done|]. by apply IH.
Qed.

Lemma strip_quotes_quoted v :
  strip_quotes (String dquote (v +:+ String dquote "")) = v.
Proof.
  unfold strip_quotes. cbn [drop_leading]. rewrite Ascii.eqb_refl.
  unfold String.rev at 2. rewrite rev_app_append.
  cbn [String.rev_app drop_leading]. rewrite Ascii.eqb_refl.
  apply rev_rev.
Qed.

Lemma strip_quotes_plain v :
  (forall r, v <> String dquote r) ->
  (forall r, v <> r +:+ String dquote "") ->
  strip_quotes v = v.
Proof.
  intros Hfirst Hlast. unfold strip_quotes.
  assert (drop_leading dquote v = v) as ->.
  { destruct v as [|a v']; [done|]. simpl.
    destruct (Ascii.eqb_spec a dquote) as [->|]; [|done].
    by destruct (Hfirst v'). }
  assert (drop_leading dquote (String.rev v) = String.rev v) as ->.
  { destruct v as [|a v']; [done|].
    destruct (string_last (String a v')) as (s0 & b & E); [done|].
    rewrite E. unfold String.rev. rewrite rev_app_append. simpl.
    destruct (Ascii.eqb_spec b dquote) as [->|]; [|done].
    by destruct (Hlast s0). }
  apply rev_rev.
Qed.

(** What a line made of a key, the sign and a value sets, for a key that
    can be one. *)
Lemma parse_line_assignment k v :
  tight k -> k <> "" -> without "="%char k ->
  (forall r, k <> String "#" r) ->
  tight v ->
  parse_line (k +:+ String "=" v) = Some (k, strip_quotes v).
Proof.
  intros Hk Hne Heq Hhash Hv. unfold parse_line.
  rewrite (trim_tight _ (tight_assignment k v Hk Hne Hv)).
  destruct k as [|a k']; [done|].
  rewrite append_String.
  cbn [String.list_ascii_of_string head from_option id].
  cbn [String.list_ascii_of_string head default].
  destruct (Ascii.eqb_spec a "#") as [->|_]; [by destruct (Hhash k')|].
  rewrite <- append_String, cut_at_first by done.
  by rewrite !trim_tight.
Qed.

(** X28: a blank line or a comment at the end of the file changes nothing
    of what is read from it. *)
Theorem comment_line_ignored content line :
  without newline line ->
  (trim line = "" \/ exists r, trim line = String "#" r) ->
  loadEnvConfig (Some (content +:+ String newline line))
  = loadEnvConfig (Some content).
Proof.
  intros Hl Hc. rewrite loadEnvConfig_last_line by done.
  unfold assign, parse_line.
  destruct Hc as [->|[r ->]]; done.
Qed.

Lemma comment_line_ignored_witness :
  loadEnvConfig (Some ("A=1" +:+ String newline "  # B=2"))
  = loadEnvConfig (Some "A=1").
Proof.
  apply (comment_line_ignored "A=1" "  # B=2").
  - unfold without. simpl. repeat constructor; discriminate.
  - right. by exists " B=2".
Defined.

(** X29: the last line that sets a key wins: after a line [key="value"]
    at the end of the file the key has that value, whatever the value is
    made of and whatever stood before, and the other keys are as they
    were. *)
Theorem last_quoted_assignment_wins content k v :
  tight k -> k <> "" -> k <> "__proto__" ->
  without "="%char k -> without newline k -> without newline v ->
  (forall r, k <> String "#" r) ->
  loadEnvConfig
    (Some (content +:+ String newline
             (k +:+ String "=" (String dquote (v +:+ String dquote "")))))
  = <[k := v]> (loadEnvConfig (Some content)).
Proof.
  intros Hk Hne Hproto Heq Hnlk Hnlv Hhash.
  assert (is_space dquote = false) as Hq by done.
  rewrite loadEnvConfig_last_line.
  - unfold assign.
    rewrite parse_line_assignment by (done || by apply tight_ends).
    rewrite strip_quotes_quoted.
    apply String.eqb_neq in Hproto. by rewrite Hproto.
  - apply without_append; [done|].
    constructor; [done|]. constructor; [done|].
    apply (without_append _ v (String dquote "")); [done|].
    by repeat constructor.
Qed.

Lemma last_quoted_assignment_wins_witness :
  loadEnvConfig
    (Some ("DB_NAME=a" +:+ String newline
             ("DB_NAME" +:+ String "=" (String dquote ("b c" +:+ String dquote "")))))
    !! "DB_NAME" = Some "b c".
Proof.
  rewrite (last_quoted_assignment_wins "DB_NAME=a" "DB_NAME" "b c").
  - by rewrite lookup_insert_eq.
  - by split.
  - discriminate.
  - discriminate.
  - unfold without. simpl. repeat constructor; discriminate.
  - unfold without. simpl. repeat constructor; discriminate.
  - unfold without. simpl. repeat constructor; discriminate.
  - intros r. discriminate.
Defined.

(** X30: a value on the last line of the file decides the switch of the
    device limitations: when that line sets [SYSTEM_DEVICE_LIMITATIONS] to
    a value that is not empty, the process environment is not looked at,
    and the switch is on exactly when the value, in lower case, is [true]
    or [1]. *)
Theorem file_value_decides_switch content v processEnv :
  tight v -> v <> "" -> without newline v ->
  (forall r, v <> String dquote r) ->
  (forall r, v <> r +:+ String dquote "") ->
  isDeviceLimitationsEnabled
    (Some (content +:+ String newline ("SYSTEM_DEVICE_LIMITATIONS=" +:+ v)))
    processEnv
  = String.eqb (trim (toLowerCase1 v)) "true"
    || String.eqb (trim (toLowerCase1 v)) "1".
Proof.
  intros Hv Hne Hnl Hf Hl. unfold isDeviceLimitationsEnabled.
  assert (loadEnvConfig
            (Some (content +:+ String newline ("SYSTEM_DEVICE_LIMITATIONS=" +:+ v)))
            !! "SYSTEM_DEVICE_LIMITATIONS" = Some v) as ->.
  { rewrite loadEnvConfig_last_line.
    - unfold assign.
      change ("SYSTEM_DEVICE_LIMITATIONS=" +:+ v)
        with ("SYSTEM_DEVICE_LIMITATIONS" +:+ String "=" v).
      rewrite parse_line_assignment; try done.
      + rewrite strip_quotes_plain by done.
        destruct (String.eqb_spec "SYSTEM_DEVICE_LIMITATIONS" "__proto__"); [done|].
        by rewrite lookup_insert_eq.
      + unfold without. simpl. repeat constructor; discriminate.
    - apply (without_append _ "SYSTEM_DEVICE_LIMITATIONS=" v); [|done].
      unfold without. simpl. repeat constructor; discriminate. }
  apply String.eqb_neq in Hne.
  cbv zeta. unfold or_string. by rewrite !Hne.
Qed.

Lemma file_value_decides_switch_witness :
  isDeviceLimitationsEnabled
    (Some ("A=1" +:+ String newline ("SYSTEM_DEVICE_LIMITATIONS=" +:+ "False")))
    (Some "true")
  = false.
Proof.
  rewrite (file_value_decides_switch "A=1" "False" (Some "true")).
  - reflexivity.
  - by split.
  - discriminate.
  - unfold without. simpl. repeat constructor; discriminate.
  - intros r. discriminate.
  - intros [|a [|b [|c [|d [|e [|f r]]]]]]; discriminate.
Defined.

End ConfigurationFile.
